(** * HyperLiquid market-making agent: Risk Manager, One-Sided Quoting Strategy, Order Manager

    A shallow embedding of the class [RiskManager] (core/order-manager.ts,
    imported by the rest of the code as core/risk-manager), of the class
    [OneSidedQuotingStrategy], of the class [OrderManager] and of the
    helpers of [MathUtils], with the properties of the specification
    proved, or refuted, on the embedding, and further properties read off
    the code.

    Modelling conventions.
    - A [Decimal] (decimal.js) is a rational number [Q].  [Decimal.config]
      (utils/math.ts) sets a precision of 28 significant digits and the
      rounding mode ROUND_HALF_UP: [plus], [minus], [dividedBy] and [pow]
      round their result to 28 significant digits, a tie going away from
      zero; comparisons, [abs], [round], [clampedTo], [Decimal.max] and
      [Decimal.min] are exact.  Division by zero yields [Infinity] or [NaN]
      in decimal.js and [0] in [Q]: where the code can divide by zero, the
      definition says what the code does with the result, or the theorem
      assumes that the divisor is not zero.
    - decimal.js has no method [multipliedBy] (its product is [times]); the
      code calls it in many places, and each of these calls raises a
      TypeError.  A function that can raise returns an [Outcome]; a method
      that changes the state of its object returns the state it leaves
      together with the outcome, since what was written before the
      exception stays written.  The [try] blocks of the code are followed
      where it has them.
    - A JS [Map<string, T>] is a [gmap string T].
    - [Date.now()] is an argument [now] of each operation;
      [TimeUtils.startOfDay] and [TimeUtils.subtractTime(_, 1, 'day')], which
      depend on the local time zone, are parameters of the development,
      gathered in the record [Platform].
    - Events emitted through [EventEmitter.emit] are appended to a log kept
      in the state; log lines ([logger], [auditLogger]) are left out. *)

From Stdlib Require Import QArith Qround Qabs Qminmax Qpower Lqa Lia ZArith List Bool.
From stdpp Require Import gmap strings list fin_maps pretty.

Local Open Scope Q_scope.

(** ** How a call ends *)

(** A call returns a value or raises an exception (what it wrote before
    raising stays written). *)
Inductive Outcome (A : Type) : Type :=
| Returns (a : A)
| Throws.
Arguments Returns {A} a.
Arguments Throws {A}.

Definition bind {A B} (m : Outcome A) (k : A -> Outcome B) : Outcome B :=
  match m with
  | Returns a => k a
  | Throws => Throws
  end.

(** [const x = m; k], where [m] may raise. *)
Notation "'let!' x ':=' m 'in' k" := (bind m (fun x => k))
  (at level 10, x name, m at level 100, k at level 200).

(** A method that changes the state [s] of its object: the state it
    leaves, and how it ended. *)
Definition andThen {S A B} (m : S * Outcome A) (k : S -> A -> S * Outcome B)
  : S * Outcome B :=
  match m.2 with
  | Returns a => k m.1 a
  | Throws => (m.1, Throws)
  end.

(** [m; k], where the call [m] leaves the state [s]. *)
Notation "'do!' s ':=' m 'in' k" := (andThen m (fun s _ => k))
  (at level 10, s name, m at level 100, k at level 200).

Definition orRaise {S A B} (s : S) (m : Outcome A) (k : A -> S * Outcome B)
  : S * Outcome B :=
  match m with
  | Returns a => k a
  | Throws => (s, Throws)
  end.

(** [const x = m; k] inside a method whose object is in state [s]. *)
Notation "'let!' x ':=' m 'raising' s 'in' k" := (orRaise s m (fun x => k))
  (at level 10, x name, m at level 100, s at level 9, k at level 200).

(** ** Decimal arithmetic (decimal.js) *)

Module Decimal.

(** [Decimal.config({ precision: 28, rounding: Decimal.ROUND_HALF_UP })] *)
Definition precision : Z := 28.

Definition isZero (a : Q) : bool := Qeq_bool a 0.
Definition lessThanOrEqualTo (a b : Q) : bool := Qle_bool a b.
Definition greaterThanOrEqualTo (a b : Q) : bool := Qle_bool b a.
Definition lessThan (a b : Q) : bool := negb (Qle_bool b a).
Definition greaterThan (a b : Q) : bool := negb (Qle_bool a b).

Definition abs (a : Q) : Q := Qabs a.

(** [Decimal.min(a, b)], [Decimal.max(a, b)]. *)
Definition min (a b : Q) : Q := if lessThan b a then b else a.
Definition max (a b : Q) : Q := if greaterThan b a then b else a.

(** [x.clampedTo(lo, hi)]: [lo] when [x < lo], [hi] when [x > hi],
    [x] otherwise. *)
Definition clampedTo (x lo hi : Q) : Q :=
  if lessThan x lo then lo else if greaterThan x hi then hi else x.

(** [x.round()] under [ROUND_HALF_UP]: to the nearest integer, a tie
    going away from zero. *)
Definition round (x : Q) : Q :=
  if lessThan x 0
  then inject_Z (- Qfloor (- x + (1 # 2)))
  else inject_Z (Qfloor (x + (1 # 2))).

Definition pow10 (e : Z) : Q := 10 ^ e.

(** The decimal exponent of a positive number: the [e] with
    [10^e <= x < 10^(e+1)], searched upwards from a lower bound. *)
Fixpoint exponentFrom (fuel : nat) (e : Z) (x : Q) : Z :=
  match fuel with
  | O => e
  | S fuel => if Qle_bool (pow10 (e + 1)) x then exponentFrom fuel (e + 1) x else e
  end.

Definition exponent (x : Q) : Z :=
  exponentFrom (Pos.to_nat (Pos.size (Z.to_pos (Qnum x)) + Pos.size (Qden x)))
    (- Zpos (Pos.size (Qden x))) x.

(** The result of an arithmetic operation is rounded to [precision]
    significant digits, a tie going away from zero: [x] is brought to the
    nearest multiple of the unit of its last kept digit. *)
Definition toSignificantDigits (x : Q) : Q :=
  if isZero x then 0
  else
    let unit := pow10 (exponent (Qabs x) - (precision - 1)) in
    Qred (round (x / unit) * unit).

Definition plus (a b : Q) : Q := toSignificantDigits (a + b).
Definition minus (a b : Q) : Q := toSignificantDigits (a - b).
Definition dividedBy (a b : Q) : Q := toSignificantDigits (a / b).
(** [x.pow(2)] *)
Definition pow2 (a : Q) : Q := toSignificantDigits (a * a).

(** decimal.js has no method [multipliedBy] (its product is [times], or
    [mul]): [x.multipliedBy(y)] raises a TypeError, whatever [x] and [y]. *)
Definition multipliedBy (x y : Q) : Outcome Q := Throws.

(** The unit of the last digit kept of a positive number. *)
Definition lastPlace (x : Q) : Q := pow10 (exponent x - (precision - 1)).

(** The decimals of at most [precision] significant digits. *)
Definition representable (x : Q) : Prop :=
  exists k j, x == inject_Z k * pow10 j /\ (Z.abs k < 10 ^ precision)%Z.

End Decimal.

#[global] Arguments Decimal.toSignificantDigits : simpl never.
#[global] Arguments Decimal.plus : simpl never.
#[global] Arguments Decimal.minus : simpl never.
#[global] Arguments Decimal.dividedBy : simpl never.
#[global] Arguments Decimal.pow2 : simpl never.
#[global] Arguments Decimal.round : simpl never.
#[global] Arguments Decimal.exponent : simpl never.
#[global] Arguments Decimal.pow10 : simpl never.

(** ** Types ([src/types]) *)

Inductive OrderSide := BUY | SELL.
Inductive OrderType := MARKET | LIMIT | STOP | STOP_LIMIT.
Inductive OrderStatus :=
  PENDING | OPEN | PARTIALLY_FILLED | FILLED | CANCELLED | REJECTED | EXPIRED.
Inductive Direction := LONG | SHORT | NEUTRAL.
Inductive AlertLevel := WARNING | CRITICAL | EMERGENCY.

Definition OrderSide_eqb (a b : OrderSide) : bool :=
  match a, b with BUY, BUY | SELL, SELL => true | _, _ => false end.

Definition AlertLevel_eqb (a b : AlertLevel) : bool :=
  match a, b with
  | WARNING, WARNING | CRITICAL, CRITICAL | EMERGENCY, EMERGENCY => true
  | _, _ => false
  end.

Record Order := mkOrder {
  order_id : string;
  order_clientOrderId : string;
  order_symbol : string;
  order_type : OrderType;
  order_side : OrderSide;
  order_amount : Q;
  order_price : option Q;
  order_status : OrderStatus;
  order_filled : Q;
  order_remaining : Q;
  order_timestamp : Z;
  order_fees : Q;
  order_rebates : Q;
  order_maker : bool
}.

Record Position := mkPosition {
  pos_symbol : string;
  pos_side : OrderSide;
  pos_size : Q;
  pos_entryPrice : Q;
  pos_markPrice : Q;
  pos_unrealizedPnl : Q;
  pos_realizedPnl : Q;
  pos_timestamp : Z;
  pos_fees : Q;
  pos_rebates : Q
}.

Record RiskMetrics := mkRiskMetrics {
  totalExposure : Q;
  rm_maxPositionSize : Q;
  currentDrawdown : Q;
  maxDrawdown : Q;
  dailyPnl : Q;
  dailyLoss : Q;
  sharpeRatio : Q;
  winRate : Q;
  avgWin : Q;
  avgLoss : Q;
  profitFactor : Q
}.

Record RiskLimits := mkRiskLimits {
  maxPositionSize : Q;
  maxDailyLoss : Q;
  maxDrawdownPercent : Q;
  maxOpenPositions : Q;
  positionTimeoutMinutes : Q;
  emergencyStopLossPercent : Q;
  concentrationLimit : Q
}.

(** The argument of [emitRiskAlert]: a [RiskAlert] whose [id] and
    [timestamp] may be absent. *)
Record RiskAlert := mkRiskAlert {
  alert_id : option string;
  alert_timestamp : option Z;
  alert_level : AlertLevel;
  alert_type : string;
  alert_message : string;
  alert_symbol : option string;
  alert_value : Q;
  alert_limit : Q;
  alert_action : string
}.

(** [pf_positions] is the array [positions]: the values of the ledger at
    the last [updatePortfolio].  In the source its elements are the very
    objects of the ledger, so a fill that updates a position in place shows
    through it; no function of the Risk Manager reads the array, and the
    model keeps the values as they were when the array was built. *)
Record Portfolio := mkPortfolio {
  totalValue : Q;
  cash : Q;
  pf_positions : list Position;
  unrealizedPnl : Q;
  realizedPnl : Q;
  totalFees : Q;
  totalRebates : Q;
  netPnl : Q
}.

Record RiskConfig := mkRiskConfig {
  cfg_maxPositionSize : Q;
  cfg_maxDailyLoss : Q;
  cfg_maxDrawdownPercent : Q;
  cfg_positionTimeoutMinutes : Q;
  cfg_riskCheckIntervalMs : Q;
  cfg_emergencyStopLossPercent : Q;
  cfg_concentrationLimit : Q;
  cfg_maxOpenPositions : Q;
  cfg_correlationLimit : Q;
  cfg_volatilityThreshold : Q
}.

(** An entry of [dailyTrades]. *)
Record DailyTrade := mkDailyTrade {
  dt_timestamp : Z;
  dt_pnl : Q;
  dt_symbol : string
}.

(** The [trade] object built by [processOrderFill]. *)
Record Fill := mkFill {
  fill_timestamp : Z;
  fill_symbol : string;
  fill_side : OrderSide;
  fill_size : Q;
  fill_price : Q;
  fill_fees : Q;
  fill_rebates : Q;
  fill_pnl : Q
}.

(** What the Risk Manager emits. *)
Inductive Event :=
| EvRiskAlert (a : RiskAlert)
| EvEmergencyStop (a : RiskAlert)
| EvEmergencyStopReset.

(** The clock helpers the Risk Manager calls ([TimeUtils.startOfDay],
    [TimeUtils.subtractTime(_, 1, 'day')]): they depend on the local time
    zone. *)
Record Platform := mkPlatform {
  startOfDay : Z -> Z;
  subtractDay : Z -> Z
}.

(** ** The Risk Manager *)

Record RiskManager := mkRiskManager {
  config : RiskConfig;
  limits : RiskLimits;
  portfolio : Portfolio;
  positions : gmap string Position;
  pendingOrders : gmap string Order;
  dailyTrades : list DailyTrade;
  riskMetrics : RiskMetrics;
  emergencyStop : bool;
  lastRiskCheck : Z;
  drawdownHistory : list (Z * Q);
  positionTimers : gmap string Q;
  events : list Event
}.

(** Field updates ([this.f = v]). *)
Definition set_limits (s : RiskManager) (v : RiskLimits) : RiskManager :=
  mkRiskManager (config s) v (portfolio s) (positions s) (pendingOrders s)
    (dailyTrades s) (riskMetrics s) (emergencyStop s) (lastRiskCheck s)
    (drawdownHistory s) (positionTimers s) (events s).
Definition set_portfolio (s : RiskManager) (v : Portfolio) : RiskManager :=
  mkRiskManager (config s) (limits s) v (positions s) (pendingOrders s)
    (dailyTrades s) (riskMetrics s) (emergencyStop s) (lastRiskCheck s)
    (drawdownHistory s) (positionTimers s) (events s).
Definition set_positions (s : RiskManager) (v : gmap string Position) : RiskManager :=
  mkRiskManager (config s) (limits s) (portfolio s) v (pendingOrders s)
    (dailyTrades s) (riskMetrics s) (emergencyStop s) (lastRiskCheck s)
    (drawdownHistory s) (positionTimers s) (events s).
Definition set_pendingOrders (s : RiskManager) (v : gmap string Order) : RiskManager :=
  mkRiskManager (config s) (limits s) (portfolio s) (positions s) v
    (dailyTrades s) (riskMetrics s) (emergencyStop s) (lastRiskCheck s)
    (drawdownHistory s) (positionTimers s) (events s).
Definition set_dailyTrades (s : RiskManager) (v : list DailyTrade) : RiskManager :=
  mkRiskManager (config s) (limits s) (portfolio s) (positions s) (pendingOrders s)
    v (riskMetrics s) (emergencyStop s) (lastRiskCheck s)
    (drawdownHistory s) (positionTimers s) (events s).
Definition set_riskMetrics (s : RiskManager) (v : RiskMetrics) : RiskManager :=
  mkRiskManager (config s) (limits s) (portfolio s) (positions s) (pendingOrders s)
    (dailyTrades s) v (emergencyStop s) (lastRiskCheck s)
    (drawdownHistory s) (positionTimers s) (events s).
Definition set_emergencyStop (s : RiskManager) (v : bool) : RiskManager :=
  mkRiskManager (config s) (limits s) (portfolio s) (positions s) (pendingOrders s)
    (dailyTrades s) (riskMetrics s) v (lastRiskCheck s)
    (drawdownHistory s) (positionTimers s) (events s).
Definition set_lastRiskCheck (s : RiskManager) (v : Z) : RiskManager :=
  mkRiskManager (config s) (limits s) (portfolio s) (positions s) (pendingOrders s)
    (dailyTrades s) (riskMetrics s) (emergencyStop s) v
    (drawdownHistory s) (positionTimers s) (events s).
Definition set_drawdownHistory (s : RiskManager) (v : list (Z * Q)) : RiskManager :=
  mkRiskManager (config s) (limits s) (portfolio s) (positions s) (pendingOrders s)
    (dailyTrades s) (riskMetrics s) (emergencyStop s) (lastRiskCheck s)
    v (positionTimers s) (events s).
Definition set_positionTimers (s : RiskManager) (v : gmap string Q) : RiskManager :=
  mkRiskManager (config s) (limits s) (portfolio s) (positions s) (pendingOrders s)
    (dailyTrades s) (riskMetrics s) (emergencyStop s) (lastRiskCheck s)
    (drawdownHistory s) v (events s).
(** [this.emit(...)] *)
Definition emit (s : RiskManager) (e : Event) : RiskManager :=
  mkRiskManager (config s) (limits s) (portfolio s) (positions s) (pendingOrders s)
    (dailyTrades s) (riskMetrics s) (emergencyStop s) (lastRiskCheck s)
    (drawdownHistory s) (positionTimers s) (events s ++ [e]).

(** [x || d] on a JS number: [d] when [x] is zero (or absent). *)
Definition orDefault (x d : Q) : Q := if Decimal.isZero x then d else x.

(** The values of a [Map], as [forEach] and [values()] visit them.  The
    order is the one of [map_to_list], not JS insertion order; only sums
    and counts are taken over it. *)
Definition mapValues {A} (m : gmap string A) : list A := (map_to_list m).*2.

Definition initialCapital : Q := 10000.

Definition createRiskLimits (c : RiskConfig) : RiskLimits :=
  {| maxPositionSize := cfg_maxPositionSize c;
     maxDailyLoss := cfg_maxDailyLoss c;
     maxDrawdownPercent := cfg_maxDrawdownPercent c;
     maxOpenPositions := orDefault (cfg_maxOpenPositions c) 10;
     positionTimeoutMinutes := cfg_positionTimeoutMinutes c;
     emergencyStopLossPercent := cfg_emergencyStopLossPercent c;
     concentrationLimit := orDefault (cfg_concentrationLimit c) (3 # 10) |}.

Definition initializePortfolio : Portfolio :=
  {| totalValue := 10000;
     cash := 10000;
     pf_positions := [];
     unrealizedPnl := 0;
     realizedPnl := 0;
     totalFees := 0;
     totalRebates := 0;
     netPnl := 0 |}.

Definition initializeRiskMetrics (l : RiskLimits) : RiskMetrics :=
  {| totalExposure := 0;
     rm_maxPositionSize := maxPositionSize l;
     currentDrawdown := 0;
     maxDrawdown := 0;
     dailyPnl := 0;
     dailyLoss := 0;
     sharpeRatio := 0;
     winRate := 0;
     avgWin := 0;
     avgLoss := 0;
     profitFactor := 0 |}.

(** [new RiskManager(config)] *)
Definition newRiskManager (c : RiskConfig) : RiskManager :=
  {| config := c;
     limits := createRiskLimits c;
     portfolio := initializePortfolio;
     positions := ∅;
     pendingOrders := ∅;
     dailyTrades := [];
     riskMetrics := initializeRiskMetrics (createRiskLimits c);
     emergencyStop := false;
     lastRiskCheck := 0%Z;
     drawdownHistory := [];
     positionTimers := ∅;
     events := [] |}.

(** The number of entries of a [Map] ([this.positions.size]). *)
Definition mapSize {A} (m : gmap string A) : Q := inject_Z (Z.of_nat (size m)).

(** [array.forEach], [for (const x of array)] with a body that may
    raise: the iteration stops at the first exception. *)
Fixpoint forEach {A B} (body : B -> A -> Outcome B) (l : list A) (acc : B) : Outcome B :=
  match l with
  | [] => Returns acc
  | x :: l => let! acc := body acc x in forEach body l acc
  end.

(** [position.size.multipliedBy(position.markPrice)] *)
Definition notional (position : Position) : Outcome Q :=
  Decimal.multipliedBy (pos_size position) (pos_markPrice position).

(** The concentration test of [canTrade] and [checkRiskLimits]: the
    position's notional as a percentage of the portfolio value. *)
Definition exposurePercent (s : RiskManager) (position : Position) : Outcome Q :=
  let! value := notional position in
  Decimal.multipliedBy (Decimal.dividedBy value (totalValue (portfolio s))) 100.

Definition canTrade (s : RiskManager) (symbol : string) : Outcome bool :=
  if emergencyStop s then Returns false
  else if Decimal.greaterThanOrEqualTo
            (Decimal.abs (dailyLoss (riskMetrics s))) (maxDailyLoss (limits s))
  then Returns false
  else if Decimal.greaterThanOrEqualTo
            (currentDrawdown (riskMetrics s)) (maxDrawdownPercent (limits s))
  then Returns false
  else
    let! concentrated :=
      match positions s !! symbol with
      | Some position =>
          let! exposure := exposurePercent s position in
          let! limit := Decimal.multipliedBy (concentrationLimit (limits s)) 100 in
          Returns (Decimal.greaterThan exposure limit)
      | None => Returns false
      end in
    if concentrated then Returns false
    else if Decimal.greaterThanOrEqualTo (mapSize (positions s)) (maxOpenPositions (limits s))
    then Returns false
    else Returns true.

Definition getMaxPositionSize (s : RiskManager) (symbol : string) (requestedSize : Q)
  : Outcome Q :=
  let currentSize :=
    match positions s !! symbol with Some p => pos_size p | None => 0 end in
  let maxSize := Decimal.minus (maxPositionSize (limits s)) currentSize in
  let portfolioValue := totalValue (portfolio s) in
  let! maxConcentrationValue :=
    Decimal.multipliedBy portfolioValue (concentrationLimit (limits s)) in
  let estimatedPrice := 2000 in
  let maxConcentrationSize := Decimal.dividedBy maxConcentrationValue estimatedPrice in
  let maxSize := Decimal.min maxSize maxConcentrationSize in
  let! requestedValue := Decimal.multipliedBy requestedSize estimatedPrice in
  let! potentialLoss := Decimal.multipliedBy requestedValue (1 # 10) in
  let remainingDailyLoss :=
    Decimal.minus (maxDailyLoss (limits s)) (Decimal.abs (dailyLoss (riskMetrics s))) in
  let! maxSize :=
    if Decimal.greaterThan potentialLoss remainingDailyLoss
    then
      let! lossPerUnit := Decimal.multipliedBy estimatedPrice (1 # 10) in
      Returns (Decimal.min maxSize (Decimal.dividedBy remainingDailyLoss lossPerUnit))
    else Returns maxSize in
  Returns (Decimal.max maxSize 0).

(** [setPositionTimeout]: the timer of the symbol is replaced by one that
    fires [positionTimeoutMinutes] from now. *)
Definition setPositionTimeout (s : RiskManager) (position : Position) (now : Z) : RiskManager :=
  let timeoutMs := positionTimeoutMinutes (limits s) * 60 * 1000 in
  set_positionTimers s
    (<[pos_symbol position := inject_Z now + timeoutMs]> (positionTimers s)).

Definition clearPositionTimeout (s : RiskManager) (symbol : string) : RiskManager :=
  match positionTimers s !! symbol with
  | Some _ => set_positionTimers s (delete symbol (positionTimers s))
  | None => s
  end.

Definition updateNetPnl (pf : Portfolio) : Portfolio :=
  {| totalValue := totalValue pf;
     cash := cash pf;
     pf_positions := pf_positions pf;
     unrealizedPnl := unrealizedPnl pf;
     realizedPnl := realizedPnl pf;
     totalFees := totalFees pf;
     totalRebates := totalRebates pf;
     netPnl := Decimal.minus
                 (Decimal.plus (Decimal.plus (realizedPnl pf) (unrealizedPnl pf))
                               (totalRebates pf))
                 (totalFees pf) |}.

(** The loop of [updatePortfolio]: one pass over the ledger accumulating
    the position value, the unrealized P&L and the array of positions. *)
Definition portfolioLoop (ps : list Position) : Outcome (Q * Q * list Position) :=
  forEach
    (fun acc position =>
       let '(totalPositionValue, totalUnrealizedPnl, positionArray) := acc in
       let! positionValue := notional position in
       Returns (Decimal.plus totalPositionValue positionValue,
                Decimal.plus totalUnrealizedPnl (pos_unrealizedPnl position),
                positionArray ++ [position]))
    ps (0, 0, []).

(** [updatePortfolio]: the portfolio is written after the loop, so a
    loop that raises leaves it as it was. *)
Definition updatePortfolio (s : RiskManager) : RiskManager * Outcome unit :=
  let! sums := portfolioLoop (mapValues (positions s)) raising s in
  let '(totalPositionValue, totalUnrealizedPnl, positionArray) := sums in
  let pf := portfolio s in
  (set_portfolio s
     (updateNetPnl
        {| totalValue :=
             Decimal.plus (Decimal.plus (cash pf) totalPositionValue) totalUnrealizedPnl;
           cash := cash pf;
           pf_positions := positionArray;
           unrealizedPnl := totalUnrealizedPnl;
           realizedPnl := realizedPnl pf;
           totalFees := totalFees pf;
           totalRebates := totalRebates pf;
           netPnl := netPnl pf |}),
   Returns tt).

(** [getHistoricalPeak]: the larger of the current portfolio value and
    the initial capital. *)
Definition getHistoricalPeak (s : RiskManager) : Q :=
  Decimal.max (totalValue (portfolio s)) initialCapital.

(** [this.emergencyStop = true] with its notification; a second call
    while the latch is set returns at once. *)
Definition triggerEmergencyStop (s : RiskManager) (alert : RiskAlert) : RiskManager :=
  if emergencyStop s then s
  else emit (set_emergencyStop s true) (EvEmergencyStop alert).

Definition resetEmergencyStop (s : RiskManager) : RiskManager :=
  emit (set_emergencyStop s false) EvEmergencyStopReset.

(** [emitRiskAlert]: [id] and [timestamp] are filled in unless the alert
    brings its own (the spread [...alert] comes last). *)
Definition emitRiskAlert (s : RiskManager) (alert : RiskAlert) (now : Z) : RiskManager :=
  let fullAlert :=
    {| alert_id :=
         Some (match alert_id alert with
               | Some i => i
               | None => alert_type alert +:+ "_" +:+ pretty now
               end);
       alert_timestamp :=
         Some (match alert_timestamp alert with Some t => t | None => now end);
       alert_level := alert_level alert;
       alert_type := alert_type alert;
       alert_message := alert_message alert;
       alert_symbol := alert_symbol alert;
       alert_value := alert_value alert;
       alert_limit := alert_limit alert;
       alert_action := alert_action alert |} in
  let s := emit s (EvRiskAlert fullAlert) in
  if AlertLevel_eqb (alert_level fullAlert) EMERGENCY
  then triggerEmergencyStop s fullAlert
  else s.

(** [handlePositionTimeout] *)
Definition handlePositionTimeout (s : RiskManager) (symbol : string) (now : Z) : RiskManager :=
  match positions s !! symbol with
  | None => s
  | Some position =>
      emitRiskAlert s
        {| alert_id := None;
           alert_timestamp := None;
           alert_level := WARNING;
           alert_type := "POSITION_TIMEOUT";
           alert_message := "Position timeout reached for " +:+ symbol;
           alert_symbol := Some symbol;
           alert_value := positionTimeoutMinutes (limits s);
           alert_limit := positionTimeoutMinutes (limits s);
           alert_action := "REDUCE_POSITION" |}
        now
  end.

(** [array.reduce((sum, x) => sum.plus(f(x)), new Decimal(0))] *)
Definition sumBy {A} (f : A -> Q) (l : list A) : Q :=
  fold_left (fun sum x => Decimal.plus sum (f x)) l 0.

Definition listLength {A} (l : list A) : Q := inject_Z (Z.of_nat (length l)).

(** [symbol] is a JS string used as a condition: the empty string is false. *)
Definition nonEmpty (symbol : string) : bool :=
  match symbol with EmptyString => false | _ => true end.

Definition cryptoSymbols : list string := ["ETH"; "BTC"; "SOL"; "AVAX"; "MATIC"].

(** [checkCorrelationRisk]: the alert it pushes, if any. *)
Definition checkCorrelationRisk (s : RiskManager) (timestamp : Z)
  : Outcome (list RiskAlert) :=
  let! cryptoExposure :=
    forEach
      (fun acc position =>
         if bool_decide (pos_symbol position ∈ cryptoSymbols)
         then let! value := notional position in Returns (Decimal.plus acc value)
         else Returns acc)
      (mapValues (positions s)) 0 in
  let! cryptoExposurePercent :=
    Decimal.multipliedBy
      (Decimal.dividedBy cryptoExposure (totalValue (portfolio s))) 100 in
  let correlationLimit := 70 in
  if Decimal.greaterThan cryptoExposurePercent correlationLimit
  then Returns
         [ {| alert_id := Some ("correlation_crypto_" +:+ pretty timestamp);
              alert_timestamp := Some timestamp;
              alert_level := WARNING;
              alert_type := "CORRELATION_RISK";
              alert_message := "High correlation exposure in crypto assets";
              alert_symbol := None;
              alert_value := cryptoExposurePercent;
              alert_limit := correlationLimit;
              alert_action := "DIVERSIFY_POSITIONS" |} ]
  else Returns [].

(** The alerts [checkRiskLimits] collects, in the order it pushes them. *)
Definition riskLimitAlerts (s : RiskManager) (symbol : option string) (now : Z)
  : Outcome (list RiskAlert) :=
  let m := riskMetrics s in
  let l := limits s in
  let! dailyLossWarning := Decimal.multipliedBy (maxDailyLoss l) (8 # 10) in
  let alerts :=
    if Decimal.greaterThanOrEqualTo (dailyLoss m) dailyLossWarning
    then [ {| alert_id := Some ("daily_loss_" +:+ pretty now);
              alert_timestamp := Some now;
              alert_level :=
                if Decimal.greaterThanOrEqualTo (dailyLoss m) (maxDailyLoss l)
                then CRITICAL else WARNING;
              alert_type := "DAILY_LOSS_LIMIT";
              alert_message := "Daily loss limit approached";
              alert_symbol := None;
              alert_value := dailyLoss m;
              alert_limit := maxDailyLoss l;
              alert_action := "REDUCE_RISK" |} ]
    else [] in
  let! drawdownWarning := Decimal.multipliedBy (maxDrawdownPercent l) (7 # 10) in
  let alerts :=
    alerts ++
    if Decimal.greaterThanOrEqualTo (currentDrawdown m) drawdownWarning
    then [ {| alert_id := Some ("drawdown_" +:+ pretty now);
              alert_timestamp := Some now;
              alert_level :=
                if Decimal.greaterThanOrEqualTo (currentDrawdown m) (maxDrawdownPercent l)
                then EMERGENCY else WARNING;
              alert_type := "DRAWDOWN_LIMIT";
              alert_message := "Drawdown limit approached";
              alert_symbol := None;
              alert_value := currentDrawdown m;
              alert_limit := maxDrawdownPercent l;
              alert_action := "EMERGENCY_STOP" |} ]
    else [] in
  let! concentration :=
    match symbol with
    | Some sym =>
        if nonEmpty sym then
          match positions s !! sym with
          | Some position =>
              let! exposure := exposurePercent s position in
              let! limitPercent := Decimal.multipliedBy (concentrationLimit l) 100 in
              let! concentrationWarning := Decimal.multipliedBy limitPercent (8 # 10) in
              if Decimal.greaterThan exposure concentrationWarning
              then
                let! limit := Decimal.multipliedBy (concentrationLimit l) 100 in
                Returns
                  [ {| alert_id := Some ("concentration_" +:+ sym +:+ "_" +:+ pretty now);
                       alert_timestamp := Some now;
                       alert_level := WARNING;
                       alert_type := "CONCENTRATION_RISK";
                       alert_message := "High concentration in " +:+ sym;
                       alert_symbol := Some sym;
                       alert_value := exposure;
                       alert_limit := limit;
                       alert_action := "REDUCE_POSITION" |} ]
              else Returns []
          | None => Returns []
          end
        else Returns []
    | None => Returns []
    end in
  let! correlation := checkCorrelationRisk s now in
  Returns (alerts ++ concentration ++ correlation).

(** [checkRiskLimits]: collect, then emit each alert in turn; nothing is
    emitted when collecting raises. *)
Definition checkRiskLimits (s : RiskManager) (symbol : option string) (now : Z)
  : RiskManager * Outcome unit :=
  let! alerts := riskLimitAlerts s symbol now raising s in
  (fold_left (fun s alert => emitRiskAlert s alert now) alerts s, Returns tt).

(** [MathUtils.calculateSharpeRatio(returns)], with its default risk-free
    rate [0].  The standard deviation [variance.sqrt()] is no rational
    number in general, and the code does two things with it: the test
    [isZero] (a square root is zero exactly when its argument is) and the
    quotient handed to [multipliedBy], which raises.  With a single return
    the divisor [returns.length - 1] is zero: the variance is [NaN] or
    [Infinity], and so is its root, which is not zero. *)
Definition calculateSharpeRatio (returns : list Q) : Outcome Q :=
  match returns with
  | [] => Returns 0
  | _ =>
      let meanReturn :=
        Decimal.dividedBy (sumBy (fun val => val) returns) (listLength returns) in
      let excessReturn := Decimal.minus meanReturn (Decimal.dividedBy 0 252) in
      let squares :=
        sumBy (fun val => Decimal.pow2 (Decimal.minus val meanReturn)) returns in
      let standardDeviationIsZero :=
        match returns with
        | [_] => false
        | _ => Decimal.isZero (Decimal.dividedBy squares (listLength returns - 1))
        end in
      if standardDeviationIsZero then Returns 0
      else Throws
  end.

(** Field updates of [this.riskMetrics]. *)
Definition set_totalExposure (m : RiskMetrics) (v : Q) : RiskMetrics :=
  mkRiskMetrics v (rm_maxPositionSize m) (currentDrawdown m) (maxDrawdown m) (dailyPnl m)
    (dailyLoss m) (sharpeRatio m) (winRate m) (avgWin m) (avgLoss m) (profitFactor m).
Definition set_currentDrawdown (m : RiskMetrics) (v : Q) : RiskMetrics :=
  mkRiskMetrics (totalExposure m) (rm_maxPositionSize m) v (maxDrawdown m) (dailyPnl m)
    (dailyLoss m) (sharpeRatio m) (winRate m) (avgWin m) (avgLoss m) (profitFactor m).
Definition set_maxDrawdown (m : RiskMetrics) (v : Q) : RiskMetrics :=
  mkRiskMetrics (totalExposure m) (rm_maxPositionSize m) (currentDrawdown m) v (dailyPnl m)
    (dailyLoss m) (sharpeRatio m) (winRate m) (avgWin m) (avgLoss m) (profitFactor m).
Definition set_dailyPnl (m : RiskMetrics) (v : Q) : RiskMetrics :=
  mkRiskMetrics (totalExposure m) (rm_maxPositionSize m) (currentDrawdown m) (maxDrawdown m) v
    (dailyLoss m) (sharpeRatio m) (winRate m) (avgWin m) (avgLoss m) (profitFactor m).
Definition set_dailyLoss (m : RiskMetrics) (v : Q) : RiskMetrics :=
  mkRiskMetrics (totalExposure m) (rm_maxPositionSize m) (currentDrawdown m) (maxDrawdown m)
    (dailyPnl m) v (sharpeRatio m) (winRate m) (avgWin m) (avgLoss m) (profitFactor m).
Definition set_sharpeRatio (m : RiskMetrics) (v : Q) : RiskMetrics :=
  mkRiskMetrics (totalExposure m) (rm_maxPositionSize m) (currentDrawdown m) (maxDrawdown m)
    (dailyPnl m) (dailyLoss m) v (winRate m) (avgWin m) (avgLoss m) (profitFactor m).
Definition set_winRate (m : RiskMetrics) (v : Q) : RiskMetrics :=
  mkRiskMetrics (totalExposure m) (rm_maxPositionSize m) (currentDrawdown m) (maxDrawdown m)
    (dailyPnl m) (dailyLoss m) (sharpeRatio m) v (avgWin m) (avgLoss m) (profitFactor m).
Definition set_avgWin (m : RiskMetrics) (v : Q) : RiskMetrics :=
  mkRiskMetrics (totalExposure m) (rm_maxPositionSize m) (currentDrawdown m) (maxDrawdown m)
    (dailyPnl m) (dailyLoss m) (sharpeRatio m) (winRate m) v (avgLoss m) (profitFactor m).
Definition set_avgLoss (m : RiskMetrics) (v : Q) : RiskMetrics :=
  mkRiskMetrics (totalExposure m) (rm_maxPositionSize m) (currentDrawdown m) (maxDrawdown m)
    (dailyPnl m) (dailyLoss m) (sharpeRatio m) (winRate m) (avgWin m) v (profitFactor m).
Definition set_profitFactor (m : RiskMetrics) (v : Q) : RiskMetrics :=
  mkRiskMetrics (totalExposure m) (rm_maxPositionSize m) (currentDrawdown m) (maxDrawdown m)
    (dailyPnl m) (dailyLoss m) (sharpeRatio m) (winRate m) (avgWin m) (avgLoss m) v.

(** [calculatePerformanceMetrics]: the win rate, the averages and the
    profit factor are written before the Sharpe ratio is computed.  With a
    portfolio value of zero every return [trade.pnl.dividedBy(totalValue)]
    is [NaN] or infinite, and [calculateSharpeRatio] ends in its product,
    which raises. *)
Definition calculatePerformanceMetrics (s : RiskManager) : RiskManager * Outcome unit :=
  match dailyTrades s with
  | [] => (s, Returns tt)
  | _ =>
      let wins := filter (fun t => Decimal.greaterThan (dt_pnl t) 0 = true) (dailyTrades s) in
      let losses := filter (fun t => Decimal.lessThan (dt_pnl t) 0 = true) (dailyTrades s) in
      let s := set_riskMetrics s
        (set_winRate (riskMetrics s)
           (Decimal.dividedBy (listLength wins) (listLength (dailyTrades s)))) in
      let s :=
        match wins with
        | [] => s
        | _ => set_riskMetrics s
                 (set_avgWin (riskMetrics s)
                    (Decimal.dividedBy (sumBy dt_pnl wins) (listLength wins)))
        end in
      let s :=
        match losses with
        | [] => s
        | _ => set_riskMetrics s
                 (set_avgLoss (riskMetrics s)
                    (Decimal.dividedBy (sumBy (fun t => Decimal.abs (dt_pnl t)) losses)
                       (listLength losses)))
        end in
      let grossProfit := sumBy dt_pnl wins in
      let grossLoss := sumBy (fun t => Decimal.abs (dt_pnl t)) losses in
      let s := set_riskMetrics s
        (set_profitFactor (riskMetrics s)
           (if Decimal.greaterThan grossLoss 0
            then Decimal.dividedBy grossProfit grossLoss
            else 0)) in
      if Decimal.isZero (totalValue (portfolio s)) then (s, Throws)
      else
        let returns :=
          map (fun t => Decimal.dividedBy (dt_pnl t) (totalValue (portfolio s)))
              (dailyTrades s) in
        let! ratio := calculateSharpeRatio returns raising s in
        (set_riskMetrics s (set_sharpeRatio (riskMetrics s) ratio), Returns tt)
  end.

(** ** Operations of the Risk Manager *)

Section WithPlatform.

Variable P : Platform.

(** The drawdown formula of [updateRiskMetrics]. *)
Definition drawdownOf (peakCapital currentCapital : Q) : Outcome Q :=
  if Decimal.greaterThan peakCapital currentCapital
  then Decimal.multipliedBy
         (Decimal.dividedBy (Decimal.minus peakCapital currentCapital) peakCapital)
         100
  else Returns 0.

(** [updateRiskMetrics]: each field is written as soon as it is computed,
    so an exception leaves the fields written before it. *)
Definition updateRiskMetrics (s : RiskManager) (now : Z) : RiskManager * Outcome unit :=
  let! totalExposure' :=
    forEach
      (fun totalExposure position =>
         let! exposure := notional position in
         Returns (Decimal.plus totalExposure exposure))
      (mapValues (positions s)) 0
    raising s in
  let s := set_riskMetrics s (set_totalExposure (riskMetrics s) totalExposure') in
  let todayStart := startOfDay P now in
  let todayTrades :=
    filter (fun t => (todayStart <= dt_timestamp t)%Z) (dailyTrades s) in
  let s := set_riskMetrics s (set_dailyPnl (riskMetrics s) (sumBy dt_pnl todayTrades)) in
  let s := set_riskMetrics s
    (set_dailyLoss (riskMetrics s)
       (if Decimal.lessThan (dailyPnl (riskMetrics s)) 0
        then Decimal.abs (dailyPnl (riskMetrics s))
        else 0)) in
  let currentCapital := totalValue (portfolio s) in
  let peakCapital := getHistoricalPeak s in
  let! currentDrawdown' := drawdownOf peakCapital currentCapital raising s in
  let s := set_riskMetrics s (set_currentDrawdown (riskMetrics s) currentDrawdown') in
  let s :=
    if Decimal.greaterThan (currentDrawdown (riskMetrics s)) (maxDrawdown (riskMetrics s))
    then set_riskMetrics s
           (set_maxDrawdown (riskMetrics s) (currentDrawdown (riskMetrics s)))
    else s in
  let history := drawdownHistory s ++ [(now, currentDrawdown (riskMetrics s))] in
  let s := set_drawdownHistory s
    (if (1000 <? length history)%nat
     then drop (length history - 1000) history
     else history) in
  calculatePerformanceMetrics s.

(** [calculateRealizedPnl(position, exitPrice, size?)] *)
Definition calculateRealizedPnl (position : Position) (exitPrice : Q) (size : option Q)
  : Outcome Q :=
  let closeSize := match size with Some sz => sz | None => pos_size position end in
  let priceDiff :=
    if OrderSide_eqb (pos_side position) BUY
    then Decimal.minus exitPrice (pos_entryPrice position)
    else Decimal.minus (pos_entryPrice position) exitPrice in
  Decimal.multipliedBy priceDiff closeSize.

(** The branch of [updatePositionFromFill] that updates an existing
    position in place: the position after the fill, and the P&L it
    realizes when the fill is on the opposite side.  In each of the three
    cases the values are computed before the first field is written. *)
Definition fillExisting (existingPosition : Position) (trade : Fill)
  : Outcome (Position * option Q) :=
  if OrderSide_eqb (pos_side existingPosition) (fill_side trade) then
    let totalSize := Decimal.plus (pos_size existingPosition) (fill_size trade) in
    let! held :=
      Decimal.multipliedBy (pos_entryPrice existingPosition) (pos_size existingPosition) in
    let! added := Decimal.multipliedBy (fill_price trade) (fill_size trade) in
    let weightedPrice := Decimal.dividedBy (Decimal.plus held added) totalSize in
    Returns
      ({| pos_symbol := pos_symbol existingPosition;
          pos_side := pos_side existingPosition;
          pos_size := totalSize;
          pos_entryPrice := weightedPrice;
          pos_markPrice := pos_markPrice existingPosition;
          pos_unrealizedPnl := pos_unrealizedPnl existingPosition;
          pos_realizedPnl := pos_realizedPnl existingPosition;
          pos_timestamp := pos_timestamp existingPosition;
          pos_fees := Decimal.plus (pos_fees existingPosition) (fill_fees trade);
          pos_rebates := Decimal.plus (pos_rebates existingPosition) (fill_rebates trade) |},
       None)
  else if Decimal.greaterThanOrEqualTo (fill_size trade) (pos_size existingPosition) then
    let newSize := Decimal.minus (fill_size trade) (pos_size existingPosition) in
    let! realized := calculateRealizedPnl existingPosition (fill_price trade) None in
    Returns
      ({| pos_symbol := pos_symbol existingPosition;
          pos_side := fill_side trade;
          pos_size := newSize;
          pos_entryPrice := fill_price trade;
          pos_markPrice := pos_markPrice existingPosition;
          pos_unrealizedPnl := pos_unrealizedPnl existingPosition;
          pos_realizedPnl := Decimal.plus (pos_realizedPnl existingPosition) realized;
          pos_timestamp := pos_timestamp existingPosition;
          pos_fees := Decimal.plus (pos_fees existingPosition) (fill_fees trade);
          pos_rebates := Decimal.plus (pos_rebates existingPosition) (fill_rebates trade) |},
       Some realized)
  else
    let! realized :=
      calculateRealizedPnl existingPosition (fill_price trade) (Some (fill_size trade)) in
    Returns
      ({| pos_symbol := pos_symbol existingPosition;
          pos_side := pos_side existingPosition;
          pos_size := Decimal.minus (pos_size existingPosition) (fill_size trade);
          pos_entryPrice := pos_entryPrice existingPosition;
          pos_markPrice := pos_markPrice existingPosition;
          pos_unrealizedPnl := pos_unrealizedPnl existingPosition;
          pos_realizedPnl := Decimal.plus (pos_realizedPnl existingPosition) realized;
          pos_timestamp := pos_timestamp existingPosition;
          pos_fees := Decimal.plus (pos_fees existingPosition) (fill_fees trade);
          pos_rebates := Decimal.plus (pos_rebates existingPosition) (fill_rebates trade) |},
       Some realized).

Definition set_realizedPnl (pf : Portfolio) (v : Q) : Portfolio :=
  mkPortfolio (totalValue pf) (cash pf) (pf_positions pf) (unrealizedPnl pf) v
    (totalFees pf) (totalRebates pf) (netPnl pf).

Definition set_fill_pnl (trade : Fill) (v : Q) : Fill :=
  mkFill (fill_timestamp trade) (fill_symbol trade) (fill_side trade) (fill_size trade)
    (fill_price trade) (fill_fees trade) (fill_rebates trade) v.

(** [updatePositionFromFill(trade)]: the new state, and [trade] with the
    [pnl] the function stores in it. *)
Definition updatePositionFromFill (s : RiskManager) (trade : Fill)
  : RiskManager * Outcome Fill :=
  match positions s !! fill_symbol trade with
  | None =>
      let newPosition :=
        {| pos_symbol := fill_symbol trade;
           pos_side := fill_side trade;
           pos_size := fill_size trade;
           pos_entryPrice := fill_price trade;
           pos_markPrice := fill_price trade;
           pos_unrealizedPnl := 0;
           pos_realizedPnl := 0;
           pos_timestamp := fill_timestamp trade;
           pos_fees := fill_fees trade;
           pos_rebates := fill_rebates trade |} in
      (set_positions s (<[fill_symbol trade := newPosition]> (positions s)), Returns trade)
  | Some existingPosition =>
      let! updated := fillExisting existingPosition trade raising s in
      let '(position', realized) := updated in
      let s := set_positions s (<[fill_symbol trade := position']> (positions s)) in
      let '(s, trade) :=
        match realized with
        | Some realizedPnl' =>
            (set_portfolio s
               (set_realizedPnl (portfolio s)
                  (Decimal.plus (realizedPnl (portfolio s)) realizedPnl')),
             set_fill_pnl trade realizedPnl')
        | None => (s, trade)
        end in
      if Decimal.isZero (pos_size position')
      then (clearPositionTimeout
              (set_positions s (delete (fill_symbol trade) (positions s)))
              (fill_symbol trade),
            Returns trade)
      else (s, Returns trade)
  end.

Definition addRebateEarnings (s : RiskManager) (rebateAmount : Q) : RiskManager :=
  let pf := portfolio s in
  set_portfolio s
    (updateNetPnl
       {| totalValue := totalValue pf;
          cash := Decimal.plus (cash pf) rebateAmount;
          pf_positions := pf_positions pf;
          unrealizedPnl := unrealizedPnl pf;
          realizedPnl := realizedPnl pf;
          totalFees := totalFees pf;
          totalRebates := Decimal.plus (totalRebates pf) rebateAmount;
          netPnl := netPnl pf |}).

Definition addPendingOrder (s : RiskManager) (order : Order) (now : Z)
  : RiskManager * Outcome unit :=
  updateRiskMetrics
    (set_pendingOrders s (<[order_id order := order]> (pendingOrders s))) now.

Definition removePendingOrder (s : RiskManager) (orderId : string) (now : Z)
  : RiskManager * Outcome unit :=
  match pendingOrders s !! orderId with
  | Some _ =>
      updateRiskMetrics (set_pendingOrders s (delete orderId (pendingOrders s))) now
  | None => (s, Returns tt)
  end.

(** The [trade] object [processOrderFill] starts from. *)
Definition fillTrade (order : Order) (fillPrice fillSize : Q) (now : Z) : Fill :=
  {| fill_timestamp := now;
     fill_symbol := order_symbol order;
     fill_side := order_side order;
     fill_size := fillSize;
     fill_price := fillPrice;
     fill_fees := order_fees order;
     fill_rebates := order_rebates order;
     fill_pnl := 0 |}.

Definition processOrderFill (s : RiskManager) (order : Order) (fillPrice fillSize : Q)
    (now : Z) : RiskManager * Outcome unit :=
  let trade := fillTrade order fillPrice fillSize now in
  andThen (updatePositionFromFill s trade) (fun s trade =>
  let s := set_dailyTrades s
    (dailyTrades s ++
     [ {| dt_timestamp := fill_timestamp trade;
          dt_pnl := fill_pnl trade;
          dt_symbol := fill_symbol trade |} ]) in
  let s := addRebateEarnings s (order_rebates order) in
  removePendingOrder s (order_id order) now).

Definition updatePosition (s : RiskManager) (position : Position) (now : Z)
  : RiskManager * Outcome unit :=
  let s := set_positions s (<[pos_symbol position := position]> (positions s)) in
  let s := setPositionTimeout s position now in
  do! s := updatePortfolio s in
  do! s := updateRiskMetrics s now in
  checkRiskLimits s (Some (pos_symbol position)) now.

Definition cleanupOldData (s : RiskManager) (now : Z) : RiskManager :=
  let oneDayAgo := subtractDay P now in
  let s := set_dailyTrades s
    (filter (fun t => (oneDayAgo < dt_timestamp t)%Z) (dailyTrades s)) in
  set_drawdownHistory s
    (filter (fun e : Z * Q => (oneDayAgo < e.1)%Z) (drawdownHistory s)).

(** [performRiskCheck]: the three steps run inside [try]; an exception
    ends them and is logged by [catch], and the call returns. *)
Definition performRiskCheck (s : RiskManager) (now : Z) : RiskManager :=
  (do! s := updateRiskMetrics s now in
   do! s := checkRiskLimits s None now in
   (cleanupOldData s now, Returns tt)).1.

(** One tick of the interval timer of [startRiskMonitoring]. *)
Definition riskMonitoringTick (s : RiskManager) (now : Z) : RiskManager :=
  if Qle_bool (cfg_riskCheckIntervalMs (config s)) (inject_Z (now - lastRiskCheck s))
  then set_lastRiskCheck (performRiskCheck s now) now
  else s.

(** [updateRiskLimits(newLimits)]: the fields present in [newLimits]
    replace the current ones. *)
Record PartialRiskLimits := mkPartialRiskLimits {
  new_maxPositionSize : option Q;
  new_maxDailyLoss : option Q;
  new_maxDrawdownPercent : option Q;
  new_maxOpenPositions : option Q;
  new_positionTimeoutMinutes : option Q;
  new_emergencyStopLossPercent : option Q;
  new_concentrationLimit : option Q
}.

Definition updateRiskLimits (s : RiskManager) (newLimits : PartialRiskLimits) : RiskManager :=
  let l := limits s in
  set_limits s
    {| maxPositionSize := default (maxPositionSize l) (new_maxPositionSize newLimits);
       maxDailyLoss := default (maxDailyLoss l) (new_maxDailyLoss newLimits);
       maxDrawdownPercent := default (maxDrawdownPercent l) (new_maxDrawdownPercent newLimits);
       maxOpenPositions := default (maxOpenPositions l) (new_maxOpenPositions newLimits);
       positionTimeoutMinutes :=
         default (positionTimeoutMinutes l) (new_positionTimeoutMinutes newLimits);
       emergencyStopLossPercent :=
         default (emergencyStopLossPercent l) (new_emergencyStopLossPercent newLimits);
       concentrationLimit := default (concentrationLimit l) (new_concentrationLimit newLimits) |}.

Definition forceClosePosition (s : RiskManager) (symbol : string) : RiskManager :=
  match positions s !! symbol with
  | None => s
  | Some _ =>
      clearPositionTimeout (set_positions s (delete symbol (positions s))) symbol
  end.

Definition getPosition (s : RiskManager) (symbol : string) : option Position :=
  positions s !! symbol.

(** *** The Risk Manager as a state machine

    The calls and timer events that can reach a Risk Manager.  A call that
    raises leaves the state it had reached; the next call starts from
    it. *)
Inductive Op :=
| OpUpdatePosition (position : Position) (now : Z)
| OpAddPendingOrder (order : Order) (now : Z)
| OpRemovePendingOrder (orderId : string) (now : Z)
| OpProcessOrderFill (order : Order) (fillPrice fillSize : Q) (now : Z)
| OpAddRebateEarnings (rebateAmount : Q)
| OpPositionTimeout (symbol : string) (now : Z)
| OpRiskMonitoringTick (now : Z)
| OpResetEmergencyStop
| OpUpdateRiskLimits (newLimits : PartialRiskLimits)
| OpForceClosePosition (symbol : string).

(** The state an operation leaves, and how the call ended. *)
Definition perform (s : RiskManager) (op : Op) : RiskManager * Outcome unit :=
  match op with
  | OpUpdatePosition position now => updatePosition s position now
  | OpAddPendingOrder order now => addPendingOrder s order now
  | OpRemovePendingOrder orderId now => removePendingOrder s orderId now
  | OpProcessOrderFill order fillPrice fillSize now =>
      processOrderFill s order fillPrice fillSize now
  | OpAddRebateEarnings rebateAmount => (addRebateEarnings s rebateAmount, Returns tt)
  | OpPositionTimeout symbol now => (handlePositionTimeout s symbol now, Returns tt)
  | OpRiskMonitoringTick now => (riskMonitoringTick s now, Returns tt)
  | OpResetEmergencyStop => (resetEmergencyStop s, Returns tt)
  | OpUpdateRiskLimits newLimits => (updateRiskLimits s newLimits, Returns tt)
  | OpForceClosePosition symbol => (forceClosePosition s symbol, Returns tt)
  end.

Definition step (s : RiskManager) (op : Op) : RiskManager := (perform s op).1.

Definition run (s : RiskManager) (ops : list Op) : RiskManager :=
  fold_left step ops s.

Definition isReset (op : Op) : bool :=
  match op with OpResetEmergencyStop => true | _ => false end.


(** *** Predicates of the statements *)



End WithPlatform.

(** The position an opening fill creates. *)
Definition openedBy (order : Order) (fillPrice fillSize : Q) (now : Z) : Position :=
  {| pos_symbol := order_symbol order;
     pos_side := order_side order;
     pos_size := fillSize;
     pos_entryPrice := fillPrice;
     pos_markPrice := fillPrice;
     pos_unrealizedPnl := 0;
     pos_realizedPnl := 0;
     pos_timestamp := now;
     pos_fees := order_fees order;
     pos_rebates := order_rebates order |}.

(** Two states of the Risk Manager that differ at most in [riskMetrics]
    and [drawdownHistory]. *)
Definition sameBooks (s s' : RiskManager) : Prop :=
  config s' = config s /\ limits s' = limits s /\ portfolio s' = portfolio s /\
  positions s' = positions s /\ pendingOrders s' = pendingOrders s /\
  dailyTrades s' = dailyTrades s /\ emergencyStop s' = emergencyStop s /\
  lastRiskCheck s' = lastRiskCheck s /\ positionTimers s' = positionTimers s /\
  events s' = events s.

(** ** The One-Sided Quoting Strategy *)

Record MarketData := mkMarketData {
  md_symbol : string;
  md_timestamp : Z;
  md_price : Q;
  md_bid : Q;
  md_ask : Q;
  md_bidSize : Q;
  md_askSize : Q;
  md_volume24h : Q;
  md_change24h : Q;
  md_spread : Q;
  md_midPrice : Q
}.

Record OrderBookLevel := mkOrderBookLevel {
  level_price : Q;
  level_size : Q;
  level_orders : Z
}.

Record OrderBook := mkOrderBook {
  ob_symbol : string;
  ob_timestamp : Z;
  ob_bids : list OrderBookLevel;
  ob_asks : list OrderBookLevel;
  ob_sequence : Z
}.

Record Signal := mkSignal {
  sig_timestamp : Z;
  sig_symbol : string;
  sig_direction : Direction;
  sig_confidence : Q;
  sig_strength : Q;
  sig_reason : string
}.

(** ['BUY' | 'SELL' | 'HOLD'] *)
Inductive Action := DO_BUY | DO_SELL | HOLD.
Inductive RiskLevel := LOW | MEDIUM | HIGH.

(** The [reasoning] text of a decision, by its three forms. *)
Inductive Reasoning :=
| NeutralSignal
| FailedValidation
| FromSignal (direction : Direction) (confidence : Q) (reason : string).

Record TradingDecision := mkTradingDecision {
  dec_signal : Signal;
  dec_action : Action;
  dec_size : Q;
  dec_price : Q;
  dec_orderType : OrderType;
  dec_reasoning : Reasoning;
  dec_riskLevel : RiskLevel
}.

Record OneSidedQuotingConfig := mkOneSidedQuotingConfig {
  symbols : list string;
  quote_maxPositionSize : Q;
  baseOrderSize : Q;
  confidenceThreshold : Q;
  targetFillRate : Q;
  aggressivenessFactor : Q;
  quoteUpdateFrequency : Z;
  maxSpreadPercent : Q;
  minSpreadTicks : Z;
  positionTimeoutMs : Z;
  rebateThreshold : Q
}.

(** The requests the strategy sends to the exchange client. *)
Inductive ClientCall :=
| CallCancelOrder (orderId symbol : string)
| CallPlaceOrder (symbol : string) (side : OrderSide) (amount price : Q)
    (clientOrderId : string)
| CallGetPositions.

(** What the strategy emits. *)
Inductive StrategyEvent :=
| EvStarted
| EvStopped
| EvOrderPlaced (order : Order)
| EvStrategyEmergencyStop (alert : RiskAlert).

(** The state of the strategy.  [riskManager] is the Risk Manager it was
    built with; [latestSignals] is the table behind
    [signalGenerator.getLatestSignal]; [clientCalls] logs the requests sent
    to the exchange client, [emitted] the events emitted. *)
Record Strategy := mkStrategy {
  quoting : OneSidedQuotingConfig;
  riskManager : RiskManager;
  latestSignals : gmap string Signal;
  marketData : gmap string MarketData;
  orderBooks : gmap string OrderBook;
  activeOrders : gmap string (list Order);
  heldPositions : gmap string Position;
  lastQuoteTime : gmap string Z;
  isRunning : bool;
  quoteInterval : bool;
  clientCalls : list ClientCall;
  emitted : list StrategyEvent
}.

Definition set_riskManager (st : Strategy) (v : RiskManager) : Strategy :=
  mkStrategy (quoting st) v (latestSignals st) (marketData st) (orderBooks st)
    (activeOrders st) (heldPositions st) (lastQuoteTime st) (isRunning st)
    (quoteInterval st) (clientCalls st) (emitted st).
Definition set_latestSignals (st : Strategy) (v : gmap string Signal) : Strategy :=
  mkStrategy (quoting st) (riskManager st) v (marketData st) (orderBooks st)
    (activeOrders st) (heldPositions st) (lastQuoteTime st) (isRunning st)
    (quoteInterval st) (clientCalls st) (emitted st).
Definition set_marketData (st : Strategy) (v : gmap string MarketData) : Strategy :=
  mkStrategy (quoting st) (riskManager st) (latestSignals st) v (orderBooks st)
    (activeOrders st) (heldPositions st) (lastQuoteTime st) (isRunning st)
    (quoteInterval st) (clientCalls st) (emitted st).
Definition set_orderBooks (st : Strategy) (v : gmap string OrderBook) : Strategy :=
  mkStrategy (quoting st) (riskManager st) (latestSignals st) (marketData st) v
    (activeOrders st) (heldPositions st) (lastQuoteTime st) (isRunning st)
    (quoteInterval st) (clientCalls st) (emitted st).
Definition set_activeOrders (st : Strategy) (v : gmap string (list Order)) : Strategy :=
  mkStrategy (quoting st) (riskManager st) (latestSignals st) (marketData st)
    (orderBooks st) v (heldPositions st) (lastQuoteTime st) (isRunning st)
    (quoteInterval st) (clientCalls st) (emitted st).
Definition set_heldPositions (st : Strategy) (v : gmap string Position) : Strategy :=
  mkStrategy (quoting st) (riskManager st) (latestSignals st) (marketData st)
    (orderBooks st) (activeOrders st) v (lastQuoteTime st) (isRunning st)
    (quoteInterval st) (clientCalls st) (emitted st).
Definition set_lastQuoteTime (st : Strategy) (v : gmap string Z) : Strategy :=
  mkStrategy (quoting st) (riskManager st) (latestSignals st) (marketData st)
    (orderBooks st) (activeOrders st) (heldPositions st) v (isRunning st)
    (quoteInterval st) (clientCalls st) (emitted st).
Definition set_isRunning (st : Strategy) (v : bool) : Strategy :=
  mkStrategy (quoting st) (riskManager st) (latestSignals st) (marketData st)
    (orderBooks st) (activeOrders st) (heldPositions st) (lastQuoteTime st) v
    (quoteInterval st) (clientCalls st) (emitted st).
Definition set_quoteInterval (st : Strategy) (v : bool) : Strategy :=
  mkStrategy (quoting st) (riskManager st) (latestSignals st) (marketData st)
    (orderBooks st) (activeOrders st) (heldPositions st) (lastQuoteTime st)
    (isRunning st) v (clientCalls st) (emitted st).
(** A request goes to the exchange client. *)
Definition call (st : Strategy) (c : ClientCall) : Strategy :=
  mkStrategy (quoting st) (riskManager st) (latestSignals st) (marketData st)
    (orderBooks st) (activeOrders st) (heldPositions st) (lastQuoteTime st)
    (isRunning st) (quoteInterval st) (clientCalls st ++ [c]) (emitted st).
Definition emitStrategy (st : Strategy) (e : StrategyEvent) : Strategy :=
  mkStrategy (quoting st) (riskManager st) (latestSignals st) (marketData st)
    (orderBooks st) (activeOrders st) (heldPositions st) (lastQuoteTime st)
    (isRunning st) (quoteInterval st) (clientCalls st) (emitted st ++ [e]).

(** [new OneSidedQuotingStrategy(config, client, riskManager, signalGenerator)] *)
Definition newStrategy (c : OneSidedQuotingConfig) (rm : RiskManager) : Strategy :=
  {| quoting := c;
     riskManager := rm;
     latestSignals := ∅;
     marketData := ∅;
     orderBooks := ∅;
     activeOrders := ∅;
     heldPositions := ∅;
     lastQuoteTime := ∅;
     isRunning := false;
     quoteInterval := false;
     clientCalls := [];
     emitted := [] |}.

(** [getTickSize]: the table of the source, 0.01 by default (for a symbol
    that is not the name of a property every JS object inherits). *)
Definition getTickSize (symbol : string) : Q :=
  if String.eqb symbol "ETH" then 1 # 100
  else if String.eqb symbol "BTC" then 1 # 100
  else if String.eqb symbol "SOL" then 1 # 1000
  else 1 # 100.

(** [orderBook.bids.length > 0 ? orderBook.bids[0].price : marketData.bid] *)
Definition bestBidOf (marketData : MarketData) (orderBook : OrderBook) : Q :=
  match ob_bids orderBook with
  | level :: _ => level_price level
  | [] => md_bid marketData
  end.

Definition bestAskOf (marketData : MarketData) (orderBook : OrderBook) : Q :=
  match ob_asks orderBook with
  | level :: _ => level_price level
  | [] => md_ask marketData
  end.

(** [MathUtils.roundToTickSize] *)
Definition roundToTickSize (price tickSize : Q) : Outcome Q :=
  Decimal.multipliedBy (Decimal.round (Decimal.dividedBy price tickSize)) tickSize.

(** [calculateQuotePrice]; its parameter [referencePrice] is not read. *)
Definition calculateQuotePrice (c : OneSidedQuotingConfig) (signal : Signal)
    (marketData : MarketData) (orderBook : OrderBook) (side : OrderSide) : Outcome Q :=
  let spread := Decimal.minus (md_ask marketData) (md_bid marketData) in
  let midPrice := md_midPrice marketData in
  let baseAggressiveness := aggressivenessFactor c in
  let! signalAggressiveness := Decimal.multipliedBy (sig_confidence signal) (1 # 2) in
  let totalAggressiveness :=
    Decimal.clampedTo (Decimal.plus baseAggressiveness signalAggressiveness) 0 1 in
  let! quotePrice :=
    if OrderSide_eqb side BUY then
      let bestBid := bestBidOf marketData orderBook in
      let! scaled := Decimal.multipliedBy spread totalAggressiveness in
      let! aggressiveOffset := Decimal.multipliedBy scaled (1 # 2) in
      let quotePrice := Decimal.minus bestBid aggressiveOffset in
      let! margin := Decimal.multipliedBy spread (1 # 10) in
      Returns (Decimal.min quotePrice (Decimal.minus midPrice margin))
    else
      let bestAsk := bestAskOf marketData orderBook in
      let! scaled := Decimal.multipliedBy spread totalAggressiveness in
      let! aggressiveOffset := Decimal.multipliedBy scaled (1 # 2) in
      let quotePrice := Decimal.plus bestAsk aggressiveOffset in
      let! margin := Decimal.multipliedBy spread (1 # 10) in
      Returns (Decimal.max quotePrice (Decimal.plus midPrice margin)) in
  roundToTickSize quotePrice (getTickSize (sig_symbol signal)).

Definition calculateQuoteSize (st : Strategy) (signal : Signal) (symbol : string)
  : Outcome Q :=
  let baseSize := baseOrderSize (quoting st) in
  let maxSize := quote_maxPositionSize (quoting st) in
  let confidenceMultiplier := Decimal.clampedTo (sig_confidence signal) (1 # 2) 1 in
  let strengthMultiplier :=
    Decimal.clampedTo (Decimal.plus (sig_strength signal) (1 # 2)) (1 # 2) (3 # 2) in
  let! scaled := Decimal.multipliedBy baseSize confidenceMultiplier in
  let! size := Decimal.multipliedBy scaled strengthMultiplier in
  let size :=
    match heldPositions st !! symbol with
    | Some currentPosition =>
        Decimal.min size (Decimal.minus maxSize (Decimal.abs (pos_size currentPosition)))
    | None => size
    end in
  let! riskAdjustedSize := getMaxPositionSize (riskManager st) symbol size in
  let size := Decimal.min size riskAdjustedSize in
  Returns (Decimal.clampedTo size 0 maxSize).

Definition validateTradingDecision (st : Strategy) (symbol : string) (side : OrderSide)
    (size price : Q) : Outcome bool :=
  if Decimal.lessThan size 1 then Returns false
  else if Decimal.lessThanOrEqualTo price 0 then Returns false
  else
    let! tooWide :=
      match marketData st !! symbol with
      | Some md =>
          let spread := Decimal.minus (md_ask md) (md_bid md) in
          let! maxSpread :=
            Decimal.multipliedBy (md_midPrice md)
              (Decimal.dividedBy (maxSpreadPercent (quoting st)) 100) in
          Returns (Decimal.greaterThan spread maxSpread)
      | None => Returns false
      end in
    if tooWide then Returns false
    else
      let! allowed := canTrade (riskManager st) symbol in
      if negb allowed then Returns false
      else Returns true.

Definition assessRiskLevel (st : Strategy) (signal : Signal) (size price : Q)
  : Outcome RiskLevel :=
  let risk := 0%nat in
  let risk := if Decimal.lessThan (sig_confidence signal) (7 # 10) then S risk else risk in
  let risk := if Decimal.lessThan (sig_confidence signal) (1 # 2) then S risk else risk in
  let sizeRatio := Decimal.dividedBy size (quote_maxPositionSize (quoting st)) in
  let risk := if Decimal.greaterThan sizeRatio (1 # 2) then S risk else risk in
  let risk := if Decimal.greaterThan sizeRatio (8 # 10) then S risk else risk in
  let! risk :=
    match marketData st !! sig_symbol signal with
    | Some md =>
        let! spreadPercent :=
          Decimal.multipliedBy (Decimal.dividedBy (md_spread md) (md_midPrice md)) 100 in
        let risk := if Decimal.greaterThan spreadPercent (1 # 2) then S risk else risk in
        Returns (if Decimal.greaterThan spreadPercent 1 then S risk else risk)
    | None => Returns risk
    end in
  Returns (if (risk <=? 1)%nat then LOW else if (risk <=? 3)%nat then MEDIUM else HIGH).

Definition holdDecision (signal : Signal) (why : Reasoning) (level : RiskLevel)
  : TradingDecision :=
  {| dec_signal := signal;
     dec_action := HOLD;
     dec_size := 0;
     dec_price := 0;
     dec_orderType := LIMIT;
     dec_reasoning := why;
     dec_riskLevel := level |}.

Definition generateTradingDecision (st : Strategy) (signal : Signal)
    (marketData : MarketData) (orderBook : OrderBook) : Outcome TradingDecision :=
  let symbol := sig_symbol signal in
  match
    match sig_direction signal with
    | LONG => Some (DO_BUY, BUY)
    | SHORT => Some (DO_SELL, SELL)
    | NEUTRAL => None
    end
  with
  | None => Returns (holdDecision signal NeutralSignal LOW)
  | Some (action, side) =>
      let! quotePrice :=
        calculateQuotePrice (quoting st) signal marketData orderBook side in
      let! quoteSize := calculateQuoteSize st signal symbol in
      let! valid := validateTradingDecision st symbol side quoteSize quotePrice in
      if negb valid
      then Returns (holdDecision signal FailedValidation HIGH)
      else
        let! riskLevel := assessRiskLevel st signal quoteSize quotePrice in
        Returns
          {| dec_signal := signal;
             dec_action := action;
             dec_size := quoteSize;
             dec_price := quotePrice;
             dec_orderType := LIMIT;
             dec_reasoning :=
               FromSignal (sig_direction signal) (sig_confidence signal) (sig_reason signal);
             dec_riskLevel := riskLevel |}
  end.

(** *** Asynchronous control flow

    The methods of the strategy are [async]: each runs until its next
    [await], and other handlers run in between.  A call in progress is a
    [Task]: what it awaits, and the frames to resume once that arrives. *)

Inductive Frame :=
(** [updateQuotes] after [await this.cancelSymbolOrders(symbol)] *)
| FQuote (symbol : string) (signal : Signal) (marketData : MarketData)
    (orderBook : OrderBook)
(** [updateQuotes] after [await this.placeQuote(decision)] *)
| FQuoted (symbol : string)
(** the sweep of [startQuoteUpdating], symbols still to visit *)
| FSweep (rest : list string)
(** [cancelAllOrders], symbols still to visit *)
| FCancelAll (rest : list string)
(** [stop] after [await this.cancelAllOrders()] *)
| FStopped
(** [handleRiskAlert] after [await this.cancelAllOrders()] *)
| FAlertCancelled (alert : RiskAlert)
(** [handleRiskAlert] after [await this.stop()] *)
| FAlertStopped (alert : RiskAlert)
(** [start] after [await this.loadPositions()] *)
| FStart.

Inductive Awaiting :=
(** the answer to [client.cancelOrder(order.id, symbol)], inside the loop of
    [cancelSymbolOrders]; [rest] are the orders the loop has yet to visit *)
| WCancel (symbol : string) (order : Order) (rest : list Order)
(** the answer to [client.placeOrder(...)], inside [placeQuote];
    [clientOrderId] is the one sent with the request *)
| WPlace (decision : TradingDecision) (clientOrderId : string)
(** the answer to [client.getPositions()], inside [loadPositions] *)
| WPositions
(** nothing but the resumption of an [await] on a settled promise *)
| WTick.

Record Task := mkTask {
  awaiting : Awaiting;
  frames : list Frame
}.

(** The answers of the exchange client. *)
Inductive Response :=
| CancelReturned (ok : bool)
| CancelThrew
| PlaceReturned (oid : string)
| PlaceThrew
| PositionsReturned (positions : list Position)
| PositionsThrew
| Tick.

(** A callee returns to the frames that await it; with no frame left the
    call is over. *)
Definition returnTo (st : Strategy) (frames : list Frame) : Strategy * option Task :=
  match frames with
  | [] => (st, None)
  | _ => (st, Some (mkTask WTick frames))
  end.

(** The loop of [cancelSymbolOrders] from the orders [orders] on: the next
    cancel request is sent, or the loop is over and the active set of the
    symbol is replaced by the empty array.  The loop walks the array it read
    when it started; an order that another call pushes to that same array
    while the loop awaits would be visited too, which the list [orders]
    does not show.  Only the cancel requests sent can differ: the active set
    is replaced by the empty array in either case. *)
Definition cancelLoop (st : Strategy) (symbol : string) (orders : list Order)
    (frames : list Frame) : Strategy * option Task :=
  match orders with
  | order :: rest =>
      (call st (CallCancelOrder (order_id order) symbol),
       Some (mkTask (WCancel symbol order rest) frames))
  | [] =>
      returnTo (set_activeOrders st (<[symbol := []]> (activeOrders st))) frames
  end.

(** [cancelSymbolOrders(symbol)], up to its first [await]. *)
Definition cancelSymbolOrders (st : Strategy) (symbol : string) (frames : list Frame)
  : Strategy * option Task :=
  cancelLoop st symbol (default [] (activeOrders st !! symbol)) frames.

(** [cancelAllOrders()] over the symbols [syms] still to visit. *)
Definition cancelAllOrders (st : Strategy) (syms : list string) (frames : list Frame)
  : Strategy * option Task :=
  match syms with
  | symbol :: rest => cancelSymbolOrders st symbol (FCancelAll rest :: frames)
  | [] => returnTo st frames
  end.

(** [stop()], up to its first [await]. *)
Definition stop (st : Strategy) (frames : list Frame) : Strategy * option Task :=
  if negb (isRunning st) then returnTo st frames
  else
    let st := set_quoteInterval (set_isRunning st false) false in
    cancelAllOrders st (symbols (quoting st)) (FStopped :: frames).

(** [handleRiskAlert(alert)], up to its first [await]. *)
Definition handleRiskAlert (st : Strategy) (alert : RiskAlert) : Strategy * option Task :=
  if AlertLevel_eqb (alert_level alert) EMERGENCY
  then cancelAllOrders st (symbols (quoting st)) [FAlertCancelled alert]
  else (st, None).

(** [mapApiOrderToOrder]: the order [placeOrder] returns. *)
Definition mapApiOrderToOrder (oid : string) (decision : TradingDecision)
    (clientOrderId : string) (now : Z) : Order :=
  {| order_id := oid;
     order_clientOrderId := clientOrderId;
     order_symbol := sig_symbol (dec_signal decision);
     order_type := LIMIT;
     order_side := match dec_action decision with DO_BUY => BUY | _ => SELL end;
     order_amount := dec_size decision;
     order_price := Some (dec_price decision);
     order_status := OPEN;
     order_filled := 0;
     order_remaining := dec_size decision;
     order_timestamp := now;
     order_fees := 0;
     order_rebates := 0;
     order_maker := true |}.

(** [placeQuote(decision)], up to its [await]. *)
Definition placeQuote (st : Strategy) (decision : TradingDecision) (frames : list Frame)
    (now : Z) : Strategy * option Task :=
  (call st
     (CallPlaceOrder (sig_symbol (dec_signal decision))
        (match dec_action decision with DO_BUY => BUY | _ => SELL end)
        (dec_size decision) (dec_price decision) ("quote_" +:+ pretty now)),
   Some (mkTask (WPlace decision ("quote_" +:+ pretty now)) frames)).

Section StrategySteps.

Variable P : Platform.

(** A change of the Risk Manager made on behalf of the strategy; the
    strategy listens to [riskAlert], and its handler runs for each alert
    the change emits.  The tasks the handlers leave behind are returned. *)
Definition newAlerts (before after : RiskManager) : list RiskAlert :=
  omap (fun e => match e with EvRiskAlert a => Some a | _ => None end)
       (drop (length (events before)) (events after)).

Definition withRiskManager (st : Strategy) (rm' : RiskManager)
  : Strategy * list Task :=
  fold_left
    (fun acc alert =>
       let '(st, tasks) := acc in
       let '(st, task) := handleRiskAlert st alert in
       (st, tasks ++ option_list task))
    (newAlerts (riskManager st) rm')
    (set_riskManager st rm', []).

(** [updateQuotes(symbol)], up to its first [await].  Its body is inside
    [try]: an exception of [canTrade] is logged by [catch] and the call
    returns. *)
Definition updateQuotes (st : Strategy) (symbol : string) (frames : list Frame)
  : Strategy * option Task :=
  match latestSignals st !! symbol, marketData st !! symbol, orderBooks st !! symbol with
  | Some signal, Some md, Some orderBook =>
      match canTrade (riskManager st) symbol with
      | Returns true =>
          cancelSymbolOrders st symbol (FQuote symbol signal md orderBook :: frames)
      | Returns false => returnTo st frames
      | Throws => returnTo st frames
      end
  | _, _, _ => returnTo st frames
  end.

(** The loop of [loadPositions] over the positions the exchange returned:
    an exception of [updatePosition] leaves the [forEach] and is logged by
    the [catch] of [loadPositions]; the positions after it are not
    visited. *)
Fixpoint loadPositionsLoop (st : Strategy) (positions : list Position) (now : Z)
  : Strategy * list Task :=
  match positions with
  | [] => (st, [])
  | position :: rest =>
      let st := set_heldPositions st
                  (<[pos_symbol position := position]> (heldPositions st)) in
      let updated := updatePosition P (riskManager st) position now in
      let '(st, spawned) := withRiskManager st updated.1 in
      match updated.2 with
      | Returns _ =>
          let '(st, more) := loadPositionsLoop st rest now in
          (st, spawned ++ more)
      | Throws => (st, spawned)
      end
  end.

(** The sweep of [startQuoteUpdating] over the symbols still to visit. *)
Definition sweep (st : Strategy) (syms : list string) (frames : list Frame)
  : Strategy * option Task :=
  match syms with
  | symbol :: rest => updateQuotes st symbol (FSweep rest :: frames)
  | [] => returnTo st frames
  end.

(** A task resumes with the answer it awaits, and runs to its next
    [await].  Besides the state and what is left of the task, the tasks
    started by alert handlers on the way are returned.  The calls of the
    Risk Manager are inside [try] blocks: [removePendingOrder] in the one of
    the cancel loop, [addPendingOrder] in the one of [placeQuote] (an
    exception skips the [orderPlaced] event), [generateTradingDecision] in
    the one of [updateQuotes]. *)
Definition resume (st : Strategy) (t : Task) (r : Response) (now : Z)
  : Strategy * option Task * list Task :=
  match awaiting t, r with
  | WCancel symbol order rest, CancelReturned _ =>
      let '(st, spawned) :=
        withRiskManager st
          (removePendingOrder P (riskManager st) (order_id order) now).1 in
      (cancelLoop st symbol rest (frames t), spawned)
  | WCancel symbol order rest, CancelThrew =>
      (cancelLoop st symbol rest (frames t), [])
  | WPlace decision clientOrderId, PlaceReturned oid =>
      let symbol := sig_symbol (dec_signal decision) in
      let order := mapApiOrderToOrder oid decision clientOrderId now in
      let symbolOrders := default [] (activeOrders st !! symbol) in
      let st := set_activeOrders st (<[symbol := symbolOrders ++ [order]]> (activeOrders st)) in
      let added := addPendingOrder P (riskManager st) order now in
      let '(st, spawned) := withRiskManager st added.1 in
      match added.2 with
      | Returns _ => (returnTo (emitStrategy st (EvOrderPlaced order)) (frames t), spawned)
      | Throws => (returnTo st (frames t), spawned)
      end
  | WPlace decision _, PlaceThrew =>
      (returnTo st (frames t), [])
  | WPositions, PositionsReturned positions =>
      let '(st, spawned) := loadPositionsLoop st positions now in
      (returnTo st (frames t), spawned)
  | WPositions, PositionsThrew =>
      (returnTo st (frames t), [])
  | WTick, Tick =>
      match frames t with
      | [] => (st, None, [])
      | FQuote symbol signal md orderBook :: frames =>
          match generateTradingDecision st signal md orderBook with
          | Returns decision =>
              match dec_action decision with
              | HOLD => (returnTo st frames, [])
              | _ => (placeQuote st decision (FQuoted symbol :: frames) now, [])
              end
          | Throws => (returnTo st frames, [])
          end
      | FQuoted symbol :: frames =>
          (returnTo (set_lastQuoteTime st (<[symbol := now]> (lastQuoteTime st))) frames, [])
      | FSweep rest :: frames => (sweep st rest frames, [])
      | FCancelAll rest :: frames => (cancelAllOrders st rest frames, [])
      | FStopped :: frames => (returnTo (emitStrategy st EvStopped) frames, [])
      | FAlertCancelled alert :: frames => (stop st (FAlertStopped alert :: frames), [])
      | FAlertStopped alert :: frames =>
          (returnTo (emitStrategy st (EvStrategyEmergencyStop alert)) frames, [])
      | FStart :: frames =>
          (returnTo
             (emitStrategy (set_isRunning (set_quoteInterval st true) true) EvStarted)
             frames, [])
      end
  | _, _ => (st, Some t, [])
  end.

(** What can happen to the strategy. *)
Inductive StrategyEventIn :=
(** [processMarketData(marketData)] *)
| InMarketData (md : MarketData) (now : Z)
(** [processOrderBook(orderBook)] *)
| InOrderBook (orderBook : OrderBook)
(** the signal generator records [signal] as the latest one of its
    symbol and emits it: [processSignal(signal)] *)
| InSignal (signal : Signal)
(** the interval timer of [startQuoteUpdating] fires *)
| InSweep
(** [start()] *)
| InStart
(** [stop()] *)
| InStop
(** the Risk Manager is called by the application or by its timers *)
| InRiskManager (op : Op)
(** the task at position [i] receives the answer it awaits *)
| InResume (i : nat) (r : Response) (now : Z).

(** The strategy and the calls in progress. *)
Definition World : Type := Strategy * list Task.

Definition strategyStep (w : World) (e : StrategyEventIn) : World :=
  let '(st, tasks) := w in
  match e with
  | InMarketData md now =>
      let st := set_marketData st (<[md_symbol md := md]> (marketData st)) in
      let last := default 0%Z (lastQuoteTime st !! md_symbol md) in
      if (quoteUpdateFrequency (quoting st) <=? now - last)%Z
      then let '(st, task) := updateQuotes st (md_symbol md) [] in
           (st, tasks ++ option_list task)
      else (st, tasks)
  | InOrderBook orderBook =>
      (set_orderBooks st (<[ob_symbol orderBook := orderBook]> (orderBooks st)), tasks)
  | InSignal signal =>
      let st := set_latestSignals st (<[sig_symbol signal := signal]> (latestSignals st)) in
      if negb (isRunning st) || negb (bool_decide (sig_symbol signal ∈ symbols (quoting st)))
      then (st, tasks)
      else if Decimal.lessThan (sig_confidence signal) (confidenceThreshold (quoting st))
      then (st, tasks)
      else let '(st, task) := updateQuotes st (sig_symbol signal) [] in
           (st, tasks ++ option_list task)
  | InSweep =>
      if quoteInterval st && isRunning st
      then let '(st, task) := sweep st (symbols (quoting st)) [] in
           (st, tasks ++ option_list task)
      else (st, tasks)
  | InStart =>
      if isRunning st then (st, tasks)
      else (call st CallGetPositions, tasks ++ [mkTask WPositions [FStart]])
  | InStop =>
      let '(st, task) := stop st [] in
      (st, tasks ++ option_list task)
  | InRiskManager op =>
      let '(st, spawned) := withRiskManager st (step P (riskManager st) op) in
      (st, tasks ++ spawned)
  | InResume i r now =>
      match tasks !! i with
      | None => (st, tasks)
      | Some t =>
          let '(st, t', spawned) := resume st t r now in
          (st,
           match t' with
           | Some t' => <[i := t']> tasks
           | None => delete i tasks
           end ++ spawned)
      end
  end.

Definition strategyRun (w : World) (es : list StrategyEventIn) : World :=
  fold_left strategyStep es w.

(** A call followed on its own: it receives the answers [rs] one after
    the other, nothing else happening in between. *)
Definition answer (c : Strategy * option Task) (r : Response * Z)
  : Strategy * option Task :=
  match c.2 with
  | Some t => (resume c.1 t r.1 r.2).1
  | None => c
  end.


End StrategySteps.

(** ** Definitions that follow the words of the specification *)






(** At most one active order per symbol. *)
Definition oneOrderPerSymbol (st : Strategy) : Prop :=
  forall symbol orders,
    activeOrders st !! symbol = Some orders -> (length orders <= 1)%nat.

(** An answer to a cancel request: it returned, or it threw. *)
Definition isCancelAnswer (r : Response * Z) : Prop :=
  match r.1 with
  | CancelReturned _ | CancelThrew => True
  | _ => False
  end.

Definition isPlaceOrder (c : ClientCall) : bool :=
  match c with CallPlaceOrder _ _ _ _ _ => true | _ => false end.

(** ** Invariants *)

(** What a Risk Manager built by [new RiskManager] keeps through every
    call: the portfolio value and the P&L figures are the initial ones, the
    rebates are a decimal, the net P&L is the rebates, no drawdown is on
    record, and every trade of the day is logged with a P&L of 0. *)
Definition pristine (s : RiskManager) : Prop :=
  totalValue (portfolio s) = 10000 /\ pf_positions (portfolio s) = [] /\
  unrealizedPnl (portfolio s) = 0 /\ realizedPnl (portfolio s) = 0 /\
  totalFees (portfolio s) = 0 /\
  Decimal.representable (totalRebates (portfolio s)) /\
  netPnl (portfolio s) == totalRebates (portfolio s) /\
  currentDrawdown (riskMetrics s) = 0 /\ maxDrawdown (riskMetrics s) = 0 /\
  Forall (fun t => dt_pnl t = 0) (dailyTrades s).

(** What a call does to the drawdown on record: nothing, or a drawdown
    of 0 is recorded at some time. *)
Definition metricsKept (s s' : RiskManager) : Prop :=
  drawdownHistory s' = drawdownHistory s /\
  currentDrawdown (riskMetrics s') = currentDrawdown (riskMetrics s) /\
  maxDrawdown (riskMetrics s') = maxDrawdown (riskMetrics s).

Definition drawdownRecorded (s s' : RiskManager) : Prop :=
  exists now : Z,
    currentDrawdown (riskMetrics s') = 0 /\
    maxDrawdown (riskMetrics s') =
      (if Decimal.greaterThan 0 (maxDrawdown (riskMetrics s))
       then 0 else maxDrawdown (riskMetrics s)) /\
    drawdownHistory s' =
      let history := drawdownHistory s ++ [(now, 0)] in
      if (1000 <? length history)%nat
      then drop (length history - 1000) history
      else history.

(** The strategy holds no order and has requested none; no call in
    progress awaits the answer to an order. *)
Definition holdsNoOrder (st : Strategy) : Prop :=
  forall symbol orders, activeOrders st !! symbol = Some orders -> orders = [].

Definition orderFree (st : Strategy) : Prop :=
  holdsNoOrder st /\
  forallb (fun c => negb (isPlaceOrder c)) (clientCalls st) = true.

Definition awaitsNoOrder (t : Task) : Prop :=
  match awaiting t with WPlace _ _ => False | _ => True end.

Definition settled (c : Strategy * option Task) : Prop :=
  orderFree c.1 /\ Forall awaitsNoOrder (option_list c.2).

Definition quoteless (w : World) : Prop :=
  orderFree w.1 /\ Forall awaitsNoOrder w.2.

(** ** Counting the events of the Risk Manager *)




(** ** A call of the strategy followed to its end *)

Section Driving.

Variable P : Platform.

(** A call in progress followed on its own until it is over: [oracle]
    answers each of its requests, by the number of answers given so far and
    the request, for at most [fuel] answers. *)
Fixpoint drive (oracle : nat -> Task -> Response * Z) (step fuel : nat)
    (c : Strategy * option Task) : Strategy * option Task :=
  match fuel with
  | O => c
  | S fuel =>
      match c.2 with
      | Some t => drive oracle (S step) fuel (answer P c (oracle step t))
      | None => c
      end
  end.

End Driving.

(** The oracle answers what is asked: a cancel request by its result or
    its failure, and so on. *)
Definition answersRequests (oracle : nat -> Task -> Response * Z) : Prop :=
  forall step t,
    match awaiting t, (oracle step t).1 with
    | WCancel _ _ _, CancelReturned _ | WCancel _ _ _, CancelThrew
    | WPlace _ _, PlaceReturned _ | WPlace _ _, PlaceThrew
    | WPositions, PositionsReturned _ | WPositions, PositionsThrew
    | WTick, Tick => True
    | _, _ => False
    end.

(** From [st] to [st'] the strategy has only sent requests, none of them
    an order, and updated its Risk Manager and its active orders; no quote
    time was recorded. *)
Definition cancelsOnly (st st' : Strategy) : Prop :=
  quoting st' = quoting st /\ isRunning st' = isRunning st /\
  quoteInterval st' = quoteInterval st /\ emitted st' = emitted st /\
  lastQuoteTime st' = lastQuoteTime st /\
  exists calls,
    clientCalls st' = clientCalls st ++ calls /\
    forallb (fun c => negb (isPlaceOrder c)) calls = true.

(** ** Numeric helpers ([MathUtils], utils/math.ts) *)

Definition percentageChange (oldValue newValue : Q) : Outcome Q :=
  if Decimal.isZero oldValue then Returns 0
  else Decimal.multipliedBy
         (Decimal.dividedBy (Decimal.minus newValue oldValue) oldValue) 100.

(** [values.slice(start, stop)] for [0 <= start <= stop]. *)
Definition slice {A} (values : list A) (start stop : nat) : list A :=
  take (stop - start) (drop start values).

(** [movingAverage(values, period)] for a whole [period] of at least 1:
    the loop index [i] runs from [period - 1] to [values.length - 1], and
    the window is [values.slice(i - period + 1, i + 1)].  (With a period of
    0 the source divides by zero.) *)
Definition movingAverage (values : list Q) (period : nat) : list Q :=
  map (fun i =>
         let sum := sumBy (fun val => val) (slice values (i + 1 - period) (i + 1)) in
         Decimal.dividedBy sum (inject_Z (Z.of_nat period)))
      (seq (period - 1) (length values - (period - 1))).

(** [calculateRSI(prices, period)]: the gains and the losses between
    consecutive prices, their moving averages, and the index of each pair of
    averages. *)
Definition calculateRSI (prices : list Q) (period : nat) : list Q :=
  let changes :=
    zip_with (fun previous current => Decimal.minus current previous)
      prices (tail prices) in
  let gains :=
    map (fun change => if Decimal.greaterThan change 0 then change else 0) changes in
  let losses :=
    map (fun change => if Decimal.lessThan change 0 then Decimal.abs change else 0)
      changes in
  let avgGains := movingAverage gains period in
  let avgLosses := movingAverage losses period in
  zip_with
    (fun avgGain avgLoss =>
       if Decimal.isZero avgLoss then 100
       else
         let rs := Decimal.dividedBy avgGain avgLoss in
         Decimal.minus 100 (Decimal.dividedBy 100 (Decimal.plus rs 1)))
    avgGains avgLosses.

(** One round of the loop of [calculateMaxDrawdown] on the running peak,
    the maximum drawdown and the maximum drawdown in percent. *)
Definition drawdownStep (acc : Q * Q * Q) (value : Q) : Outcome (Q * Q * Q) :=
  let '(peak, maxDrawdown, maxDrawdownPercent) := acc in
  let peak := if Decimal.greaterThan value peak then value else peak in
  let drawdown := Decimal.minus peak value in
  let! drawdownPercent :=
    if Decimal.isZero peak then Returns 0
    else Decimal.multipliedBy (Decimal.dividedBy drawdown peak) 100 in
  Returns
    (peak,
     if Decimal.greaterThan drawdown maxDrawdown then drawdown else maxDrawdown,
     if Decimal.greaterThan drawdownPercent maxDrawdownPercent
     then drawdownPercent else maxDrawdownPercent).

(** [calculateMaxDrawdown(equity)]: the pair of [maxDrawdown] and
    [maxDrawdownPercent].  On an empty array the peak is [undefined] and
    the loop does not run. *)
Definition calculateMaxDrawdown (equity : list Q) : Outcome (Q * Q) :=
  match equity with
  | [] => Returns (0, 0)
  | first :: _ =>
      let! final := forEach drawdownStep equity (first, 0, 0) in
      let '(_, maxDrawdown, maxDrawdownPercent) := final in
      Returns (maxDrawdown, maxDrawdownPercent)
  end.

Definition calculatePositionSize (accountBalance riskPercent entryPrice stopPrice : Q)
  : Outcome Q :=
  let! riskAmount :=
    Decimal.multipliedBy accountBalance (Decimal.dividedBy riskPercent 100) in
  let priceRisk := Decimal.abs (Decimal.minus entryPrice stopPrice) in
  if Decimal.isZero priceRisk then Returns 0
  else Returns (Decimal.dividedBy riskAmount priceRisk).

(** ** The Order Manager (core/order-manager.ts)

    The class [OrderManager] keeps the orders it submitted until they are
    filled, cancelled or rejected.  Its field [orderHistory] is declared an
    array and initialised with [new Map()]: a [Map] has no method [push],
    and the call [this.orderHistory.push(order)] raises a [TypeError], as
    does every call of [multipliedBy] on a decimal.  An order object is
    shared between the table of active orders and the events that carry
    it; here each event holds the order as it was when the event was
    emitted. *)

Record OrderManagerConfig := mkOrderManagerConfig {
  maxOrderAge : Z;
  orderCheckInterval : Z;
  maxRetries : Z;
  fillTimeout : Z
}.

(** An [Order] with its field [updatedAt], which only the Order Manager
    writes. *)
Record ManagedOrder := mkManagedOrder {
  managed : Order;
  updatedAt : Z
}.

(** The argument of [submitOrder]. *)
Record OrderParams := mkOrderParams {
  param_symbol : string;
  param_side : OrderSide;
  param_type : OrderType;
  param_amount : Q;
  param_price : option Q;
  param_clientOrderId : option string;
  param_expectedFillRate : option Q
}.

Inductive OrderManagerCall :=
| OmPlaceOrder (orderParams : OrderParams)
| OmCancelOrder (orderId symbol : string).

Inductive OrderManagerEvent :=
| EvOrderSubmitted (order : ManagedOrder)
| EvOrderCancelled (order : ManagedOrder)
| EvOrderFilled (order : ManagedOrder) (fillSize fillPrice : Q)
| EvOrderStatusChanged (order : ManagedOrder) (previousStatus : OrderStatus)
| EvOrderTimeout (order : ManagedOrder).

(** [orderTimers] maps an order to the time at which its timer fires;
    [fillExpectations] to [expectedFillRate] and [placedAt]. *)
Record OrderManager := mkOrderManager {
  om_config : OrderManagerConfig;
  om_activeOrders : gmap string ManagedOrder;
  om_orderTimers : gmap string Z;
  om_fillExpectations : gmap string (Q * Z);
  om_calls : list OrderManagerCall;
  om_emitted : list OrderManagerEvent
}.

Definition newOrderManager (c : OrderManagerConfig) : OrderManager :=
  {| om_config := c;
     om_activeOrders := ∅;
     om_orderTimers := ∅;
     om_fillExpectations := ∅;
     om_calls := [];
     om_emitted := [] |}.

Definition om_set_activeOrders (om : OrderManager) (v : gmap string ManagedOrder)
  : OrderManager :=
  mkOrderManager (om_config om) v (om_orderTimers om) (om_fillExpectations om)
    (om_calls om) (om_emitted om).
Definition om_set_orderTimers (om : OrderManager) (v : gmap string Z) : OrderManager :=
  mkOrderManager (om_config om) (om_activeOrders om) v (om_fillExpectations om)
    (om_calls om) (om_emitted om).
Definition om_set_fillExpectations (om : OrderManager) (v : gmap string (Q * Z))
  : OrderManager :=
  mkOrderManager (om_config om) (om_activeOrders om) (om_orderTimers om) v
    (om_calls om) (om_emitted om).
Definition om_call (om : OrderManager) (c : OrderManagerCall) : OrderManager :=
  mkOrderManager (om_config om) (om_activeOrders om) (om_orderTimers om)
    (om_fillExpectations om) (om_calls om ++ [c]) (om_emitted om).
Definition om_emit (om : OrderManager) (e : OrderManagerEvent) : OrderManager :=
  mkOrderManager (om_config om) (om_activeOrders om) (om_orderTimers om)
    (om_fillExpectations om) (om_calls om) (om_emitted om ++ [e]).

(** Assignments to the fields of an order. *)
Definition withStatus (order : ManagedOrder) (status : OrderStatus) (now : Z)
  : ManagedOrder :=
  let o := managed order in
  {| managed :=
       mkOrder (order_id o) (order_clientOrderId o) (order_symbol o) (order_type o)
         (order_side o) (order_amount o) (order_price o) status (order_filled o)
         (order_remaining o) (order_timestamp o) (order_fees o) (order_rebates o)
         (order_maker o);
     updatedAt := now |}.

Definition withFilled (order : ManagedOrder) (filled : Q) : ManagedOrder :=
  let o := managed order in
  {| managed :=
       mkOrder (order_id o) (order_clientOrderId o) (order_symbol o) (order_type o)
         (order_side o) (order_amount o) (order_price o) (order_status o) filled
         (Decimal.minus (order_amount o) filled) (order_timestamp o) (order_fees o)
         (order_rebates o) (order_maker o);
     updatedAt := updatedAt order |}.

Definition withFeesAndRebates (order : ManagedOrder) (fees rebates : Q) : ManagedOrder :=
  let o := managed order in
  {| managed :=
       mkOrder (order_id o) (order_clientOrderId o) (order_symbol o) (order_type o)
         (order_side o) (order_amount o) (order_price o) (order_status o)
         (order_filled o) (order_remaining o) (order_timestamp o) fees rebates
         (order_maker o);
     updatedAt := updatedAt order |}.

Definition isLimit (t : OrderType) : bool :=
  match t with LIMIT => true | _ => false end.

(** [handleOrderFill(order)]: the rebate of a maker limit order, the fee
    of any other, on the filled size at the price of the order. *)
Definition handleOrderFill (om : OrderManager) (order : ManagedOrder)
  : OrderManager * Outcome ManagedOrder :=
  let fillSize := order_filled (managed order) in
  let fillPrice := default 0 (order_price (managed order)) in
  let! order :=
    if order_maker (managed order) && isLimit (order_type (managed order)) then
      let! gross := Decimal.multipliedBy fillSize fillPrice in
      let! rebateAmount := Decimal.multipliedBy gross (3 # 100000) in
      Returns
        (withFeesAndRebates order (order_fees (managed order))
           (Decimal.plus (order_rebates (managed order)) rebateAmount))
    else
      let! gross := Decimal.multipliedBy fillSize fillPrice in
      let! feeAmount := Decimal.multipliedBy gross (5 # 10000) in
      Returns
        (withFeesAndRebates order (Decimal.plus (order_fees (managed order)) feeAmount)
           (order_rebates (managed order)))
    raising om in
  (om_emit
     (om_set_activeOrders om (<[order_id (managed order) := order]> (om_activeOrders om)))
     (EvOrderFilled order fillSize fillPrice),
   Returns order).

Definition clearOrderTimeout (om : OrderManager) (orderId : string) : OrderManager :=
  match om_orderTimers om !! orderId with
  | Some _ => om_set_orderTimers om (delete orderId (om_orderTimers om))
  | None => om
  end.

Definition setOrderTimeout (om : OrderManager) (order : ManagedOrder) (now : Z)
  : OrderManager :=
  om_set_orderTimers om
    (<[order_id (managed order) := (now + maxOrderAge (om_config om))%Z]>
       (om_orderTimers om)).

Definition isFill (status : OrderStatus) : bool :=
  match status with FILLED | PARTIALLY_FILLED => true | _ => false end.

Definition isFinal (status : OrderStatus) : bool :=
  match status with FILLED | CANCELLED | REJECTED => true | _ => false end.

(** [updateOrderStatus(orderId, status, filled?)]: the status, the time
    and the filled size are written to the order of the table before
    anything else is done. *)
Definition updateOrderStatus (om : OrderManager) (orderId : string)
    (status : OrderStatus) (filled : option Q) (now : Z) : OrderManager * Outcome unit :=
  match om_activeOrders om !! orderId with
  | None => (om, Returns tt)
  | Some order =>
      let previousStatus := order_status (managed order) in
      let order := withStatus order status now in
      let order :=
        match filled with
        | Some filled => withFilled order filled
        | None => order
        end in
      let om := om_set_activeOrders om (<[orderId := order]> (om_activeOrders om)) in
      andThen
        (if isFill status then handleOrderFill om order else (om, Returns order))
        (fun om order =>
           if isFinal status then
             let om := om_set_activeOrders om (delete orderId (om_activeOrders om)) in
             let om := clearOrderTimeout om orderId in
             let om :=
               om_set_fillExpectations om (delete orderId (om_fillExpectations om)) in
             (om, Throws)
           else
             (om_emit om (EvOrderStatusChanged order previousStatus), Returns tt))
  end.

(** [submitOrder(orderParams)] up to its [await], and from there on:
    [placed] is the order [client.placeOrder] returned, if it did not
    throw. *)
Definition submitOrder (om : OrderManager) (orderParams : OrderParams) : OrderManager :=
  om_call om (OmPlaceOrder orderParams).

Definition submitOrderResumed (om : OrderManager) (orderParams : OrderParams)
    (placed : option ManagedOrder) (now : Z) : OrderManager * Outcome unit :=
  match placed with
  | None => (om, Throws)
  | Some order =>
      let om :=
        om_set_activeOrders om
          (<[order_id (managed order) := order]> (om_activeOrders om)) in
      let om := setOrderTimeout om order now in
      let om :=
        match param_expectedFillRate orderParams with
        | Some expectedFillRate =>
            om_set_fillExpectations om
              (<[order_id (managed order) := (expectedFillRate, now)]>
                 (om_fillExpectations om))
        | None => om
        end in
      (om_emit om (EvOrderSubmitted order), Returns tt)
  end.

(** [cancelOrder(orderId)] up to its [await]: the order it found, if it
    sent a request; without one it returns false. *)
Definition cancelOrder (om : OrderManager) (orderId : string)
  : OrderManager * option ManagedOrder :=
  match om_activeOrders om !! orderId with
  | None => (om, None)
  | Some order =>
      (om_call om (OmCancelOrder orderId (order_symbol (managed order))), Some order)
  end.

(** [cancelOrder] from its [await] on: [answer] is what
    [client.cancelOrder] returned, [None] if it threw; [order] is the order
    found before the [await], the call being followed on its own. *)
Definition cancelOrderResumed (om : OrderManager) (orderId : string)
    (order : ManagedOrder) (answer : option bool) : OrderManager * bool :=
  match answer with
  | Some true =>
      let order := withStatus order CANCELLED (updatedAt order) in
      let om := om_set_activeOrders om (delete orderId (om_activeOrders om)) in
      let om := clearOrderTimeout om orderId in
      let om :=
        om_set_fillExpectations om (delete orderId (om_fillExpectations om)) in
      (om_emit om (EvOrderCancelled order), true)
  | Some false => (om, false)
  | None => (om, false)
  end.

(** [cancelOrder] from its start to its end. *)
Definition cancelOrderAnswered (om : OrderManager) (orderId : string)
    (answer : option bool) : OrderManager * bool :=
  match cancelOrder om orderId with
  | (om, None) => (om, false)
  | (om, Some order) => cancelOrderResumed om orderId order answer
  end.

(** [handleOrderTimeout(orderId)], the timer of an order firing, from its
    start to its end. *)
Definition handleOrderTimeout (om : OrderManager) (orderId : string)
    (answer : option bool) : OrderManager :=
  match om_activeOrders om !! orderId with
  | None => om
  | Some order =>
      let '(om, _) := cancelOrderAnswered om orderId answer in
      om_emit om
        (EvOrderTimeout
           (match answer with
            | Some true => withStatus order CANCELLED (updatedAt order)
            | _ => order
            end))
  end.

Definition getOrder (om : OrderManager) (orderId : string) : option ManagedOrder :=
  om_activeOrders om !! orderId.

(** ** Concrete data for the examples *)

(** A platform in UTC. *)
Definition utcPlatform : Platform :=
  {| startOfDay := fun t => (t - t mod 86400000)%Z;
     subtractDay := fun t => (t - 86400000)%Z |}.

(** The configuration of the unit tests of the Risk Manager. *)
Definition testConfig : RiskConfig :=
  {| cfg_maxPositionSize := 1000;
     cfg_maxDailyLoss := 500;
     cfg_maxDrawdownPercent := 5;
     cfg_positionTimeoutMinutes := 30;
     cfg_riskCheckIntervalMs := 1000;
     cfg_emergencyStopLossPercent := 10;
     cfg_concentrationLimit := 3 # 10;
     cfg_maxOpenPositions := 5;
     cfg_correlationLimit := 7 # 10;
     cfg_volatilityThreshold := 20 |}.

Definition limitOrder (id symbol : string) (side : OrderSide) (amount price : Q) : Order :=
  {| order_id := id;
     order_clientOrderId := "";
     order_symbol := symbol;
     order_type := LIMIT;
     order_side := side;
     order_amount := amount;
     order_price := Some price;
     order_status := OPEN;
     order_filled := 0;
     order_remaining := amount;
     order_timestamp := 0;
     order_fees := 0;
     order_rebates := 0;
     order_maker := true |}.

Definition ethPosition (size markPrice unrealized : Q) : Position :=
  {| pos_symbol := "ETH";
     pos_side := BUY;
     pos_size := size;
     pos_entryPrice := 2000;
     pos_markPrice := markPrice;
     pos_unrealizedPnl := unrealized;
     pos_realizedPnl := 0;
     pos_timestamp := 0;
     pos_fees := 0;
     pos_rebates := 0 |}.


Definition freshManager : RiskManager := newRiskManager testConfig.

(** A long position of 1 ETH opened at 2000 by a fill. *)
Definition longOneEth : RiskManager :=
  (processOrderFill utcPlatform freshManager (limitOrder "1" "ETH" BUY 1 2000) 2000 1 1000).1.


(** The fills that may follow: one more ETH bought at 2100; 1.5 ETH sold at
    2100 (scenario A); 0.5 ETH sold at 2100; 1 ETH sold at 2100. *)
Definition buyMore : Op :=
  OpProcessOrderFill (limitOrder "2" "ETH" BUY 1 2100) 2100 1 2000.
Definition sellMore : Op :=
  OpProcessOrderFill (limitOrder "2" "ETH" SELL (3 # 2) 2100) 2100 (3 # 2) 2000.
Definition sellPart : Op :=
  OpProcessOrderFill (limitOrder "2" "ETH" SELL (1 # 2) 2100) 2100 (1 # 2) 2000.

(** 1.75 ETH bought at 2000: a notional of 3500. *)
Definition notional3500 : RiskManager :=
  (processOrderFill utcPlatform freshManager
     (limitOrder "1" "ETH" BUY (175 # 100) 2000) 2000 (175 # 100) 1000).1.

(** An alert of level EMERGENCY, as the code of [checkRiskLimits] builds
    it for the drawdown limit. *)
Definition drawdownAlert : RiskAlert :=
  {| alert_id := Some "drawdown_1000";
     alert_timestamp := Some 1000%Z;
     alert_level := EMERGENCY;
     alert_type := "DRAWDOWN_LIMIT";
     alert_message := "Drawdown limit approached";
     alert_symbol := None;
     alert_value := 6;
     alert_limit := 5;
     alert_action := "EMERGENCY_STOP" |}.

Definition quotingConfig : OneSidedQuotingConfig :=
  {| symbols := ["ETH"];
     quote_maxPositionSize := 1000;
     baseOrderSize := 10;
     confidenceThreshold := 6 # 10;
     targetFillRate := 65 # 100;
     aggressivenessFactor := 1 # 10;
     quoteUpdateFrequency := 1000;
     maxSpreadPercent := 1;
     minSpreadTicks := 1;
     positionTimeoutMs := 1800000;
     rebateThreshold := 0 |}.

(** ETH quoted 1999.5 / 2000.5. *)
Definition ethMarket : MarketData :=
  {| md_symbol := "ETH"; md_timestamp := 0; md_price := 2000;
     md_bid := 19995 # 10; md_ask := 20005 # 10;
     md_bidSize := 10; md_askSize := 10; md_volume24h := 0; md_change24h := 0;
     md_spread := 1; md_midPrice := 2000 |}.

Definition ethBook : OrderBook :=
  {| ob_symbol := "ETH"; ob_timestamp := 0;
     ob_bids := [mkOrderBookLevel (19995 # 10) 10 1];
     ob_asks := [mkOrderBookLevel (20005 # 10) 10 1];
     ob_sequence := 1 |}.

(** A signal for ETH of confidence 0.6: with the aggressiveness 0.1 of
    [quotingConfig], a total aggressiveness of 0.4 (scenario E). *)
Definition ethSignal (d : Direction) : Signal :=
  {| sig_timestamp := 0; sig_symbol := "ETH"; sig_direction := d;
     sig_confidence := 6 # 10; sig_strength := 1 # 2; sig_reason := "" |}.

Definition world0 : World := (newStrategy quotingConfig freshManager, []).

(** The strategy starts (no position at the exchange) and learns the book
    and the market of ETH. *)
Definition started : list StrategyEventIn :=
  [ InStart; InResume 0 (PositionsReturned []) 0; InResume 0 Tick 0;
    InOrderBook ethBook; InMarketData ethMarket 5000 ].

(** A LONG signal arrives, and a SHORT signal while the quote update of
    the first is in progress. *)
Definition racing : list StrategyEventIn :=
  started ++
  [ InSignal (ethSignal LONG); InResume 0 Tick 5001;
    InSignal (ethSignal SHORT); InResume 1 Tick 5002 ].

(** The strategy with a LONG signal for ETH and nothing resting. *)
Definition longSignalled : Strategy :=
  set_latestSignals (strategyRun utcPlatform world0 started).1
    {[ "ETH" := ethSignal LONG ]}.

(** The state QUOTING of the specification.  No run of the strategy
    reaches it, since no order is ever placed; it is given directly: the
    order 101, a bid for 10 ETH quoted at time 5003, is in the active set
    and pending at the Risk Manager.  The latest signal is [d]. *)
Definition order101 : Order := limitOrder "101" "ETH" BUY 10 (19993 # 10).

Definition resting (d : Direction) : Strategy :=
  let st := (strategyRun utcPlatform world0 started).1 in
  set_riskManager
    (set_lastQuoteTime
       (set_activeOrders (set_latestSignals st {[ "ETH" := ethSignal d ]})
          {[ "ETH" := [order101] ]})
       {[ "ETH" := 5003%Z ]})
    (set_pendingOrders (riskManager st) {[ "101" := order101 ]}).

Definition restingEth : Strategy := resting LONG.



(** An exchange where every request fails. *)
Definition failingExchange (step : nat) (t : Task) : Response * Z :=
  match awaiting t with
  | WCancel _ _ _ => (CancelThrew, 9000%Z)
  | WPlace _ _ => (PlaceThrew, 9000%Z)
  | WPositions => (PositionsThrew, 9000%Z)
  | WTick => (Tick, 9000%Z)
  end.

(** The prices of the unit test of [calculateRSI]: 100, 101, ..., 119. *)
Definition risingPrices : list Q :=
  map (fun i => inject_Z (100 + Z.of_nat i)) (seq 0 20).

(** An Order Manager that tracks the maker limit order 7, a bid for 10 ETH
    at 2000 submitted at time 1000 with an expected fill rate. *)
Definition orderManagerConfig : OrderManagerConfig :=
  {| maxOrderAge := 60000; orderCheckInterval := 1000; maxRetries := 3;
     fillTimeout := 30000 |}.

Definition order7 : ManagedOrder :=
  {| managed := limitOrder "7" "ETH" BUY 10 2000; updatedAt := 1000 |}.

Definition params7 : OrderParams :=
  {| param_symbol := "ETH"; param_side := BUY; param_type := LIMIT;
     param_amount := 10; param_price := Some 2000; param_clientOrderId := None;
     param_expectedFillRate := Some (65 # 100) |}.

Definition tracking7 : OrderManager :=
  (submitOrderResumed (submitOrder (newOrderManager orderManagerConfig) params7)
     params7 (Some order7) 1000).1.

(** * Properties *)

(** ** Comparisons of decimals *)

Section DecimalFacts.

Lemma greaterThan_true a b : Decimal.greaterThan a b = true <-> b < a.
Proof.
  unfold Decimal.greaterThan. rewrite negb_true_iff, <- not_true_iff_false, Qle_bool_iff.
  split; [apply Qnot_le_lt | apply Qlt_not_le].
Qed.

Lemma greaterThan_false a b : Decimal.greaterThan a b = false <-> a <= b.
Proof.
  unfold Decimal.greaterThan. rewrite negb_false_iff, Qle_bool_iff. reflexivity.
Qed.

Lemma lessThan_true a b : Decimal.lessThan a b = true <-> a < b.
Proof.
  unfold Decimal.lessThan. rewrite negb_true_iff, <- not_true_iff_false, Qle_bool_iff.
  split; [apply Qnot_le_lt | apply Qlt_not_le].
Qed.

Lemma lessThan_false a b : Decimal.lessThan a b = false <-> b <= a.
Proof.
  unfold Decimal.lessThan. rewrite negb_false_iff, Qle_bool_iff. reflexivity.
Qed.

Lemma greaterThanOrEqualTo_true a b : Decimal.greaterThanOrEqualTo a b = true <-> b <= a.
Proof. unfold Decimal.greaterThanOrEqualTo. apply Qle_bool_iff. Qed.

Lemma greaterThanOrEqualTo_false a b : Decimal.greaterThanOrEqualTo a b = false <-> a < b.
Proof.
  unfold Decimal.greaterThanOrEqualTo. rewrite <- not_true_iff_false, Qle_bool_iff.
  split; [apply Qnot_le_lt | apply Qlt_not_le].
Qed.

Lemma isZero_true a : Decimal.isZero a = true <-> a == 0.
Proof. unfold Decimal.isZero. apply Qeq_bool_iff. Qed.

Lemma isZero_false a : Decimal.isZero a = false <-> ~ a == 0.
Proof.
  unfold Decimal.isZero. rewrite <- not_true_iff_false, Qeq_bool_iff. reflexivity.
Qed.

Lemma max_spec a b : (a < b /\ Decimal.max a b = b) \/ (b <= a /\ Decimal.max a b = a).
Proof.
  unfold Decimal.max. destruct (Decimal.greaterThan b a) eqn:E.
  - left. apply greaterThan_true in E. auto.
  - right. apply greaterThan_false in E. auto.
Qed.

Lemma min_spec a b : (b < a /\ Decimal.min a b = b) \/ (a <= b /\ Decimal.min a b = a).
Proof.
  unfold Decimal.min. destruct (Decimal.lessThan b a) eqn:E.
  - left. apply lessThan_true in E. auto.
  - right. apply lessThan_false in E. auto.
Qed.

(** *** Powers of ten *)

Lemma pow10_pos e : 0 < Decimal.pow10 e.
Proof. apply Qpower_0_lt. reflexivity. Qed.

Lemma pow10_plus a b : Decimal.pow10 (a + b) == Decimal.pow10 a * Decimal.pow10 b.
Proof. apply Qpower_plus. discriminate. Qed.

Lemma pow10_succ e : Decimal.pow10 (e + 1) == 10 * Decimal.pow10 e.
Proof. rewrite pow10_plus. change (Decimal.pow10 1) with 10. ring. Qed.

Lemma pow10_le a b : (a <= b)%Z -> Decimal.pow10 a <= Decimal.pow10 b.
Proof. intros. apply Qpower_le_compat_l; [assumption | discriminate]. Qed.

Lemma pow10_lt a b : (a < b)%Z -> Decimal.pow10 a < Decimal.pow10 b.
Proof. intros. apply Qpower_lt_compat_l; [assumption | reflexivity]. Qed.

Lemma pow10_lt_inv a b : Decimal.pow10 a < Decimal.pow10 b -> (a < b)%Z.
Proof. intros. eapply Qpower_lt_compat_l_inv; [eassumption | reflexivity]. Qed.

Lemma pow10_nat (n : nat) : Decimal.pow10 (Z.of_nat n) == inject_Z (10 ^ Z.of_nat n).
Proof.
  unfold Decimal.pow10. change 10 with (inject_Z 10).
  rewrite Zpower_Qpower by lia. reflexivity.
Qed.

(** *** The decimal exponent *)

Lemma exponentFrom_spec fuel : forall e x,
  Decimal.pow10 e <= x -> x < Decimal.pow10 (e + Z.of_nat fuel + 1) ->
  Decimal.pow10 (Decimal.exponentFrom fuel e x) <= x
  /\ x < Decimal.pow10 (Decimal.exponentFrom fuel e x + 1).
Proof.
  induction fuel as [|fuel IH]; intros e x Hlo Hhi.
  - cbn [Decimal.exponentFrom]. split; [assumption|].
    replace (e + 1)%Z with (e + Z.of_nat 0 + 1)%Z by lia. assumption.
  - cbn [Decimal.exponentFrom].
    destruct (Qle_bool (Decimal.pow10 (e + 1)) x) eqn:E.
    + apply Qle_bool_iff in E. apply IH; [assumption|].
      replace (e + 1 + Z.of_nat fuel + 1)%Z with (e + Z.of_nat (S fuel) + 1)%Z by lia.
      assumption.
    + split; [assumption|].
      apply Qnot_le_lt. intros H. apply Qle_bool_iff in H. congruence.
Qed.

Lemma two_le_ten (n : Z) : (0 <= n)%Z -> (2 ^ n <= 10 ^ n)%Z.
Proof. intros. apply Z.pow_le_mono_l. lia. Qed.

Lemma pos_lt_pow10 (p : positive) : inject_Z (Zpos p) < Decimal.pow10 (Zpos (Pos.size p)).
Proof.
  assert (Zpos p < 10 ^ Zpos (Pos.size p))%Z as H.
  { pose proof (Pos.size_gt p) as H.
    assert (Zpos p < 2 ^ Zpos (Pos.size p))%Z.
    { rewrite <- Pos2Z.inj_pow. lia. }
    pose proof (two_le_ten (Zpos (Pos.size p))). lia. }
  unfold Decimal.pow10. change 10 with (inject_Z 10).
  rewrite <- Zpower_Qpower by lia.
  rewrite <- Zlt_Qlt. assumption.
Qed.

Lemma exponent_spec x :
  0 < x ->
  Decimal.pow10 (Decimal.exponent x) <= x /\ x < Decimal.pow10 (Decimal.exponent x + 1).
Proof.
  intros Hx. unfold Decimal.exponent.
  destruct x as [n d]. cbn [Qnum Qden].
  assert (0 < n)%Z as Hn.
  { unfold Qlt in Hx. cbn in Hx. lia. }
  destruct n as [|n|n]; try lia. cbn [Z.to_pos].
  apply exponentFrom_spec.
  - (* 10^-size d <= n/d *)
    unfold Decimal.pow10. rewrite Qpower_opp.
    apply Qle_trans with (/ inject_Z (Zpos d)).
    + apply Qle_shift_inv_l.
      * reflexivity.
      * rewrite Qmult_comm.
        apply Qle_shift_div_r; [apply (pow10_pos (Zpos (Pos.size d)))|].
        rewrite Qmult_1_l. apply Qlt_le_weak, pos_lt_pow10.
    + unfold Qle, Qinv. cbn. nia.
  - apply Qle_lt_trans with (inject_Z (Zpos n)).
    + unfold Qle. cbn. nia.
    + eapply Qlt_le_trans; [apply pos_lt_pow10|].
      apply pow10_le. lia.
Qed.

Lemma exponent_unique x e e' :
  Decimal.pow10 e <= x -> x < Decimal.pow10 (e + 1) ->
  Decimal.pow10 e' <= x -> x < Decimal.pow10 (e' + 1) -> e = e'.
Proof.
  intros H1 H2 H3 H4.
  assert (e < e' + 1)%Z by (apply pow10_lt_inv; eapply Qle_lt_trans; eassumption).
  assert (e' < e + 1)%Z by (apply pow10_lt_inv; eapply Qle_lt_trans; eassumption).
  lia.
Qed.

Lemma exponent_eq x e :
  Decimal.pow10 e <= x -> x < Decimal.pow10 (e + 1) -> Decimal.exponent x = e.
Proof.
  intros H1 H2.
  assert (0 < x) by (eapply Qlt_le_trans; [apply pow10_pos | eassumption]).
  destruct (exponent_spec x) as [H3 H4]; [assumption|].
  eapply exponent_unique; eassumption.
Qed.

Lemma exponent_comp x y : 0 < x -> x == y -> Decimal.exponent x = Decimal.exponent y.
Proof.
  intros Hx E.
  destruct (exponent_spec x Hx) as [H1 H2].
  symmetry. apply exponent_eq; rewrite <- E; assumption.
Qed.

Lemma exponent_mono x y : 0 < x -> x <= y -> (Decimal.exponent x <= Decimal.exponent y)%Z.
Proof.
  intros Hx Hxy.
  destruct (exponent_spec x Hx) as [H1 _].
  destruct (exponent_spec y) as [_ H2]; [eapply Qlt_le_trans; eassumption|].
  assert (Decimal.exponent x < Decimal.exponent y + 1)%Z; [|lia].
  apply pow10_lt_inv. eapply Qle_lt_trans; [eassumption|].
  eapply Qle_lt_trans; eassumption.
Qed.

(** *** Rounding to an integer *)

Lemma round_ext x y : x == y -> Decimal.round x = Decimal.round y.
Proof.
  intros H. unfold Decimal.round, Decimal.lessThan.
  rewrite H. destruct (negb (Qle_bool 0 y)); rewrite H; reflexivity.
Qed.

#[local] Instance round_comp : Proper (Qeq ==> Qeq) Decimal.round.
Proof. intros x y H. rewrite (round_ext x y H). reflexivity. Qed.

Lemma Qfloor_half k : Qfloor (inject_Z k + (1 # 2)) = k.
Proof.
  pose proof (Qfloor_le (inject_Z k + (1 # 2))) as Hlo.
  pose proof (Qlt_floor (inject_Z k + (1 # 2))) as Hhi.
  set (f := Qfloor (inject_Z k + (1 # 2))) in *.
  assert (inject_Z f < inject_Z (k + 1)) as H1.
  { rewrite inject_Z_plus. change (inject_Z 1) with 1. lra. }
  assert (inject_Z k < inject_Z (f + 1)) as H2 by lra.
  rewrite <- Zlt_Qlt in H1, H2. lia.
Qed.

Lemma round_whole k : Decimal.round (inject_Z k) = inject_Z k.
Proof.
  unfold Decimal.round. destruct (Decimal.lessThan (inject_Z k) 0).
  - assert (- inject_Z k + (1 # 2) == inject_Z (- k) + (1 # 2)) as E
      by (rewrite inject_Z_opp; reflexivity).
    rewrite (Qfloor_comp _ _ E), Qfloor_half. f_equal. lia.
  - rewrite Qfloor_half. reflexivity.
Qed.

Lemma round_is_whole x : exists k, Decimal.round x = inject_Z k.
Proof. unfold Decimal.round. destruct (Decimal.lessThan x 0); eexists; reflexivity. Qed.

Lemma Qfloor_nonneg x : 0 <= x -> 0 <= inject_Z (Qfloor x).
Proof.
  intros H. apply Qfloor_resp_le in H. change (Qfloor 0) with 0%Z in H.
  change 0 with (inject_Z 0). rewrite <- Zle_Qle. exact H.
Qed.

Lemma round_mono x y : x <= y -> Decimal.round x <= Decimal.round y.
Proof.
  intros H. unfold Decimal.round.
  destruct (Decimal.lessThan x 0) eqn:Ex, (Decimal.lessThan y 0) eqn:Ey;
    rewrite ?lessThan_true, ?lessThan_false in *.
  - rewrite <- Zle_Qle. apply Z.opp_le_mono. rewrite !Z.opp_involutive.
    apply Qfloor_resp_le. lra.
  - pose proof (Qfloor_nonneg (- x + (1 # 2))) as H1.
    pose proof (Qfloor_nonneg (y + (1 # 2))) as H2.
    rewrite inject_Z_opp. lra.
  - lra.
  - rewrite <- Zle_Qle. apply Qfloor_resp_le. lra.
Qed.

Lemma round_opp x : Decimal.round (- x) == - Decimal.round x.
Proof.
  unfold Decimal.round.
  destruct (Decimal.lessThan x 0) eqn:Ex, (Decimal.lessThan (- x) 0) eqn:Ey;
    rewrite ?lessThan_true, ?lessThan_false in *; try lra.
  - rewrite inject_Z_opp, Qopp_involutive.
    assert (- x + (1 # 2) == - x + (1 # 2)) as E by reflexivity.
    reflexivity.
  - rewrite !inject_Z_opp.
    assert (- - x + (1 # 2) == x + (1 # 2)) as E by ring.
    rewrite (Qfloor_comp _ _ E). reflexivity.
  - assert (x == 0) as E by lra.
    assert (- x + (1 # 2) == 1 # 2) as E1 by lra.
    assert (x + (1 # 2) == 1 # 2) as E2 by lra.
    rewrite (Qfloor_comp _ _ E1), (Qfloor_comp _ _ E2). reflexivity.
Qed.

(** *** Rounding to 28 significant digits *)

Lemma lastPlace_pos x : 0 < Decimal.lastPlace x.
Proof. apply pow10_pos. Qed.

Lemma toSignificantDigits_0 : Decimal.toSignificantDigits 0 = 0.
Proof. reflexivity. Qed.

Lemma toSignificantDigits_zero x : x == 0 -> Decimal.toSignificantDigits x = 0.
Proof.
  intros H. unfold Decimal.toSignificantDigits.
  apply isZero_true in H. rewrite H. reflexivity.
Qed.

Lemma toSignificantDigits_pos x :
  0 < x ->
  Decimal.toSignificantDigits x == Decimal.round (x / Decimal.lastPlace x) * Decimal.lastPlace x.
Proof.
  intros H. unfold Decimal.toSignificantDigits.
  assert (Decimal.isZero x = false) as -> by (apply isZero_false; lra).
  rewrite Qred_correct. unfold Decimal.lastPlace.
  rewrite (exponent_comp (Qabs x) x); [reflexivity | | apply Qabs_pos; lra].
  rewrite Qabs_pos; lra.
Qed.

Lemma toSignificantDigits_neg x :
  x < 0 ->
  Decimal.toSignificantDigits x == - Decimal.toSignificantDigits (- x).
Proof.
  intros H. rewrite (toSignificantDigits_pos (- x)) by lra.
  unfold Decimal.toSignificantDigits.
  assert (Decimal.isZero x = false) as -> by (apply isZero_false; lra).
  rewrite Qred_correct. unfold Decimal.lastPlace.
  rewrite (exponent_comp (Qabs x) (- x)).
  - set (u := Decimal.pow10 _).
    assert (- x / u == - (x / u)) as E by (unfold Qdiv; ring).
    rewrite E, round_opp. ring.
  - rewrite Qabs_neg; lra.
  - apply Qabs_neg. lra.
Qed.

Lemma scaled_bounds x :
  0 < x ->
  Decimal.pow10 (Decimal.precision - 1) <= x / Decimal.lastPlace x
  /\ x / Decimal.lastPlace x < Decimal.pow10 Decimal.precision.
Proof.
  intros H. destruct (exponent_spec x H) as [Hlo Hhi].
  pose proof (lastPlace_pos x) as Hu. unfold Decimal.lastPlace in *.
  set (e := Decimal.exponent x) in *. set (p := Decimal.precision) in *.
  split.
  - apply Qle_shift_div_l; [exact Hu|].
    rewrite <- pow10_plus. replace (p - 1 + (e - (p - 1)))%Z with e by lia. exact Hlo.
  - apply Qlt_shift_div_r; [exact Hu|].
    rewrite <- pow10_plus. replace (p + (e - (p - 1)))%Z with (e + 1)%Z by lia. exact Hhi.
Qed.

Lemma pow10_whole (n : Z) : (0 <= n)%Z -> Decimal.pow10 n == inject_Z (10 ^ n).
Proof.
  intros. unfold Decimal.pow10. change 10 with (inject_Z 10).
  rewrite Zpower_Qpower by lia. reflexivity.
Qed.

Lemma round_pow10 (n : Z) : (0 <= n)%Z -> Decimal.round (Decimal.pow10 n) == Decimal.pow10 n.
Proof.
  intros H. rewrite (round_ext _ _ (pow10_whole n H)), round_whole.
  symmetry. apply pow10_whole. exact H.
Qed.

(** A positive number and its rounded value lie between the same two
    powers of ten. *)
Lemma toSignificantDigits_bounds x :
  0 < x ->
  Decimal.pow10 (Decimal.exponent x) <= Decimal.toSignificantDigits x
  /\ Decimal.toSignificantDigits x <= Decimal.pow10 (Decimal.exponent x + 1).
Proof.
  intros H. rewrite (toSignificantDigits_pos x H).
  destruct (scaled_bounds x H) as [Hlo Hhi].
  pose proof (lastPlace_pos x) as Hu.
  apply round_mono in Hlo. apply Qlt_le_weak, round_mono in Hhi.
  rewrite round_pow10 in Hlo by (unfold Decimal.precision; lia).
  rewrite round_pow10 in Hhi by (unfold Decimal.precision; lia).
  set (r := Decimal.round (x / Decimal.lastPlace x)) in *. clearbody r.
  assert (Decimal.pow10 (Decimal.exponent x)
          == Decimal.pow10 (Decimal.precision - 1) * Decimal.lastPlace x) as E1.
  { unfold Decimal.lastPlace. rewrite <- pow10_plus. f_equiv. lia. }
  assert (Decimal.pow10 (Decimal.exponent x + 1)
          == Decimal.pow10 Decimal.precision * Decimal.lastPlace x) as E2.
  { unfold Decimal.lastPlace. rewrite <- pow10_plus. f_equiv. lia. }
  rewrite E1, E2. split; apply Qmult_le_compat_r; lra.
Qed.

Lemma toSignificantDigits_pos_pos x : 0 < x -> 0 < Decimal.toSignificantDigits x.
Proof.
  intros H. destruct (toSignificantDigits_bounds x H) as [Hlo _].
  eapply Qlt_le_trans; [apply pow10_pos | exact Hlo].
Qed.

#[local] Instance toSignificantDigits_comp :
  Proper (Qeq ==> Qeq) Decimal.toSignificantDigits.
Proof.
  assert (forall x y, 0 < x -> x == y ->
            Decimal.toSignificantDigits x == Decimal.toSignificantDigits y) as Hpos.
  { intros x y Hx E.
    rewrite (toSignificantDigits_pos x), (toSignificantDigits_pos y) by lra.
    unfold Decimal.lastPlace. rewrite (exponent_comp x y Hx E), E. reflexivity. }
  intros x y E.
  destruct (Qlt_le_dec 0 x) as [Hx|Hx]; [apply Hpos; assumption|].
  destruct (Qeq_dec x 0) as [H0|H0].
  - rewrite (toSignificantDigits_zero x H0), (toSignificantDigits_zero y); [reflexivity|lra].
  - rewrite (toSignificantDigits_neg x), (toSignificantDigits_neg y) by lra.
    rewrite (Hpos (- x) (- y)); [reflexivity | lra | lra].
Qed.

Lemma toSignificantDigits_opp x :
  Decimal.toSignificantDigits (- x) == - Decimal.toSignificantDigits x.
Proof.
  destruct (Qlt_le_dec 0 x) as [Hx|Hx].
  - rewrite (toSignificantDigits_neg (- x)) by lra.
    rewrite Qopp_involutive. reflexivity.
  - destruct (Qeq_dec x 0) as [H0|H0].
    + rewrite (toSignificantDigits_zero x H0), (toSignificantDigits_zero (- x)) by lra.
      reflexivity.
    + rewrite (toSignificantDigits_neg x) by lra. ring.
Qed.

(** Rounding keeps the order. *)
Lemma toSignificantDigits_mono x y :
  x <= y -> Decimal.toSignificantDigits x <= Decimal.toSignificantDigits y.
Proof.
  assert (forall x y, 0 < x -> x <= y ->
            Decimal.toSignificantDigits x <= Decimal.toSignificantDigits y) as Hpos.
  { clear x y. intros x y Hx Hxy.
    assert (0 < y) as Hy by lra.
    pose proof (exponent_mono x y Hx Hxy) as He.
    destruct (Z.eq_dec (Decimal.exponent x) (Decimal.exponent y)) as [E|E].
    - rewrite (toSignificantDigits_pos x Hx), (toSignificantDigits_pos y Hy).
      unfold Decimal.lastPlace. rewrite E.
      set (u := Decimal.pow10 _). assert (0 < u) as Hu by apply pow10_pos.
      apply Qmult_le_compat_r; [|lra].
      apply round_mono. apply Qmult_le_compat_r; [exact Hxy|].
      apply Qlt_le_weak, Qinv_lt_0_compat, Hu.
    - destruct (toSignificantDigits_bounds x Hx) as [_ H1].
      destruct (toSignificantDigits_bounds y Hy) as [H2 _].
      eapply Qle_trans; [exact H1|]. eapply Qle_trans; [|exact H2].
      apply pow10_le. lia. }
  intros Hxy.
  destruct (Qlt_le_dec 0 x) as [Hx|Hx]; [apply Hpos; assumption|].
  destruct (Qlt_le_dec 0 y) as [Hy|Hy].
  - apply Qle_trans with 0.
    + destruct (Qeq_dec x 0) as [H0|H0].
      * rewrite (toSignificantDigits_zero x H0). lra.
      * rewrite (toSignificantDigits_neg x) by lra.
        pose proof (toSignificantDigits_pos_pos (- x)). lra.
    + apply Qlt_le_weak, toSignificantDigits_pos_pos, Hy.
  - destruct (Qeq_dec y 0) as [H0|H0].
    + rewrite (toSignificantDigits_zero y H0).
      destruct (Qeq_dec x 0) as [H1|H1].
      * rewrite (toSignificantDigits_zero x H1). lra.
      * rewrite (toSignificantDigits_neg x) by lra.
        pose proof (toSignificantDigits_pos_pos (- x)). lra.
    + rewrite (toSignificantDigits_neg x), (toSignificantDigits_neg y) by lra.
      assert (Decimal.toSignificantDigits (- y) <= Decimal.toSignificantDigits (- x));
        [apply Hpos; lra | lra].
Qed.

Lemma toSignificantDigits_nonneg x : 0 <= x -> 0 <= Decimal.toSignificantDigits x.
Proof.
  intros H. apply toSignificantDigits_mono in H.
  rewrite toSignificantDigits_0 in H. exact H.
Qed.

Lemma toSignificantDigits_nonpos x : x <= 0 -> Decimal.toSignificantDigits x <= 0.
Proof.
  intros H. apply toSignificantDigits_mono in H.
  rewrite toSignificantDigits_0 in H. exact H.
Qed.

(** A number is zero exactly when its rounded value is. *)
Lemma toSignificantDigits_isZero x :
  Decimal.isZero (Decimal.toSignificantDigits x) = Decimal.isZero x.
Proof.
  destruct (Decimal.isZero x) eqn:E.
  - apply isZero_true in E. rewrite (toSignificantDigits_zero x E). reflexivity.
  - apply isZero_false in E. apply isZero_false. intros H. apply E.
    destruct (Qlt_le_dec 0 x) as [Hx|Hx].
    + pose proof (toSignificantDigits_pos_pos x Hx). lra.
    + destruct (Qeq_dec x 0) as [H0|H0]; [exact H0|].
      pose proof (toSignificantDigits_pos_pos (- x)).
      rewrite (toSignificantDigits_neg x) in H by lra. lra.
Qed.

(** A decimal of at most 28 significant digits is not moved. *)
Lemma toSignificantDigits_representable x :
  Decimal.representable x -> Decimal.toSignificantDigits x == x.
Proof.
  assert (forall x, 0 < x -> Decimal.representable x ->
            Decimal.toSignificantDigits x == x) as Hpos.
  { clear x. intros x Hx (k & j & E & Hk).
    rewrite (toSignificantDigits_pos x Hx).
    destruct (exponent_spec x Hx) as [Hlo _].
    pose proof (pow10_pos j) as Hj.
    assert (0 < k)%Z as Hk0.
    { destruct (Z_lt_le_dec 0 k) as [|Hle]; [assumption|exfalso].
      assert (inject_Z k <= 0) as H0 by (change 0 with (inject_Z 0); rewrite <- Zle_Qle; lia).
      assert (0 <= - inject_Z k * Decimal.pow10 j) by (apply Qmult_le_0_compat; lra).
      lra. }
    assert (Decimal.exponent x < Decimal.precision + j)%Z as He.
    { apply pow10_lt_inv. eapply Qle_lt_trans; [exact Hlo|].
      rewrite E, pow10_plus. apply Qmult_lt_compat_r; [exact Hj|].
      rewrite pow10_whole by (unfold Decimal.precision; lia).
      rewrite <- Zlt_Qlt. lia. }
    unfold Decimal.lastPlace.
    set (u := Decimal.pow10 _).
    assert (0 < u) as Hu by apply pow10_pos.
    set (n := (j - (Decimal.exponent x - (Decimal.precision - 1)))%Z).
    assert (0 <= n)%Z as Hn by (unfold n; lia).
    assert (Decimal.pow10 j == Decimal.pow10 n * u) as Ej.
    { unfold u, n. rewrite <- pow10_plus. f_equiv. lia. }
    assert (x / u == inject_Z (k * 10 ^ n)) as Ex.
    { rewrite inject_Z_mult, <- pow10_whole by exact Hn.
      rewrite E, Ej. field. lra. }
    rewrite (round_ext _ _ Ex), round_whole.
    rewrite inject_Z_mult, <- pow10_whole by exact Hn.
    rewrite E, Ej. ring. }
  intros Hr.
  destruct (Qlt_le_dec 0 x) as [Hx|Hx]; [apply Hpos; assumption|].
  destruct (Qeq_dec x 0) as [H0|H0].
  - rewrite (toSignificantDigits_zero x H0). lra.
  - rewrite (toSignificantDigits_neg x) by lra.
    rewrite Hpos; [ring | lra |].
    destruct Hr as (k & j & E & Hk). exists (- k)%Z, j. split; [|lia].
    rewrite inject_Z_opp, E. ring.
Qed.

(** The result of an arithmetic operation has at most 28 significant
    digits. *)
Lemma toSignificantDigits_is_representable x :
  Decimal.representable (Decimal.toSignificantDigits x).
Proof.
  assert (forall x, 0 < x -> Decimal.representable (Decimal.toSignificantDigits x)) as Hpos.
  { clear x. intros x Hx.
    destruct (scaled_bounds x Hx) as [Hlo Hhi].
    apply round_mono in Hlo. apply Qlt_le_weak, round_mono in Hhi.
    rewrite round_pow10 in Hlo by (unfold Decimal.precision; lia).
    rewrite round_pow10 in Hhi by (unfold Decimal.precision; lia).
    destruct (round_is_whole (x / Decimal.lastPlace x)) as (m & Hm).
    rewrite Hm in Hlo, Hhi.
    rewrite pow10_whole in Hlo, Hhi by (unfold Decimal.precision; lia).
    rewrite <- Zle_Qle in Hlo, Hhi.
    assert (0 < 10 ^ (Decimal.precision - 1))%Z by (apply Z.pow_pos_nonneg; unfold Decimal.precision; lia).
    destruct (Z.eq_dec m (10 ^ Decimal.precision)%Z) as [Em|Em].
    - exists 1%Z, (Decimal.exponent x + 1)%Z. split; [|reflexivity].
      rewrite (toSignificantDigits_pos x Hx), Hm, Em.
      rewrite <- pow10_whole by (unfold Decimal.precision; lia).
      unfold Decimal.lastPlace. rewrite <- pow10_plus.
      change (inject_Z 1) with 1. rewrite Qmult_1_l. f_equiv. lia.
    - exists m, (Decimal.exponent x - (Decimal.precision - 1))%Z. split; [|lia].
      rewrite (toSignificantDigits_pos x Hx), Hm. reflexivity. }
  destruct (Qlt_le_dec 0 x) as [Hx|Hx]; [apply Hpos; assumption|].
  destruct (Qeq_dec x 0) as [H0|H0].
  - rewrite (toSignificantDigits_zero x H0). exists 0%Z, 0%Z. split; reflexivity.
  - destruct (Hpos (- x)) as (k & j & E & Hk); [lra|].
    exists (- k)%Z, j. split; [|lia].
    rewrite (toSignificantDigits_neg x) by lra. rewrite E, inject_Z_opp. ring.
Qed.

(** Rounding twice is rounding once. *)
Lemma toSignificantDigits_idempotent x :
  Decimal.toSignificantDigits (Decimal.toSignificantDigits x)
  == Decimal.toSignificantDigits x.
Proof. apply toSignificantDigits_representable, toSignificantDigits_is_representable. Qed.

(** An integer of at most 28 digits is kept as it is by the rounding. *)
Lemma representable_whole (k : Z) :
  (Z.abs k < 10 ^ Decimal.precision)%Z -> Decimal.representable (inject_Z k).
Proof.
  intros H. exists k, 0%Z. split; [|exact H].
  change (Decimal.pow10 0) with 1. ring.
Qed.

End DecimalFacts.

#[local] Existing Instance round_comp.
#[local] Existing Instance toSignificantDigits_comp.

Ltac decimal_cases :=
  repeat match goal with
  | H : Decimal.greaterThan _ _ = true |- _ => apply greaterThan_true in H
  | H : Decimal.greaterThan _ _ = false |- _ => apply greaterThan_false in H
  | H : Decimal.lessThan _ _ = true |- _ => apply lessThan_true in H
  | H : Decimal.lessThan _ _ = false |- _ => apply lessThan_false in H
  | H : Decimal.greaterThanOrEqualTo _ _ = true |- _ => apply greaterThanOrEqualTo_true in H
  | H : Decimal.greaterThanOrEqualTo _ _ = false |- _ => apply greaterThanOrEqualTo_false in H
  | H : Decimal.isZero _ = true |- _ => apply isZero_true in H
  | H : Decimal.isZero _ = false |- _ => apply isZero_false in H
  end.

(** ** The Risk Manager *)

Section RiskManagerFacts.

Variable P : Platform.

(** *** Where the missing product ends a call *)

Lemma mapValues_nil {A} (m : gmap string A) : mapValues m = [] <-> m = ∅.
Proof.
  unfold mapValues. split.
  - intros H. apply map_to_list_empty_iff. destruct (map_to_list m); [reflexivity|discriminate].
  - intros ->. rewrite map_to_list_empty. reflexivity.
Qed.

Lemma mapValues_lookup {A} (m : gmap string A) k x : m !! k = Some x -> mapValues m <> [].
Proof. intros H E. apply mapValues_nil in E. subst. rewrite lookup_empty in H. discriminate. Qed.

Lemma portfolioLoop_positions position ps : portfolioLoop (position :: ps) = Throws.
Proof. reflexivity. Qed.

(** [updatePortfolio] completes only on an empty ledger. *)
Lemma updatePortfolio_raises s :
  positions s <> ∅ -> updatePortfolio s = (s, Throws).
Proof.
  intros H. unfold updatePortfolio.
  destruct (mapValues (positions s)) eqn:E; [|reflexivity].
  apply mapValues_nil in E. contradiction.
Qed.

(** [updateRiskMetrics] raises in its first loop, before any write, when
    the ledger holds a position. *)
Lemma updateRiskMetrics_raises s now :
  positions s <> ∅ -> updateRiskMetrics P s now = (s, Throws).
Proof.
  intros H. unfold updateRiskMetrics.
  destruct (mapValues (positions s)) eqn:E; [|reflexivity].
  apply mapValues_nil in E. contradiction.
Qed.

(** [checkRiskLimits] raises at its first test, before any alert is
    collected. *)
Lemma checkRiskLimits_raises s symbol now : checkRiskLimits s symbol now = (s, Throws).
Proof. reflexivity. Qed.

(** *** What each operation leaves unchanged *)

Lemma sameBooks_refl s : sameBooks s s.
Proof. repeat split. Qed.

Lemma sameBooks_trans s1 s2 s3 : sameBooks s1 s2 -> sameBooks s2 s3 -> sameBooks s1 s3.
Proof.
  unfold sameBooks. intros (? & ? & ? & ? & ? & ? & ? & ? & ? & ?)
    (? & ? & ? & ? & ? & ? & ? & ? & ? & ?).
  repeat split; congruence.
Qed.

Lemma sameBooks_set_riskMetrics s m : sameBooks s (set_riskMetrics s m).
Proof. repeat split. Qed.

Lemma sameBooks_set_drawdownHistory s h : sameBooks s (set_drawdownHistory s h).
Proof. repeat split. Qed.

Lemma calculatePerformanceMetrics_books s :
  sameBooks s (calculatePerformanceMetrics s).1 /\
  drawdownHistory (calculatePerformanceMetrics s).1 = drawdownHistory s /\
  currentDrawdown (riskMetrics (calculatePerformanceMetrics s).1)
    = currentDrawdown (riskMetrics s) /\
  maxDrawdown (riskMetrics (calculatePerformanceMetrics s).1)
    = maxDrawdown (riskMetrics s) /\
  dailyLoss (riskMetrics (calculatePerformanceMetrics s).1)
    = dailyLoss (riskMetrics s).
Proof.
  unfold calculatePerformanceMetrics.
  destruct (dailyTrades s) as [|t ts] eqn:E; [repeat split|].
  generalize (t :: ts) as trades. intros trades.
  cbv zeta.
  destruct (filter _ trades) as [|w wins]; destruct (filter _ trades) as [|l losses];
    cbn [portfolio set_riskMetrics];
    (destruct (Decimal.isZero _); [repeat split|]);
    (destruct (calculateSharpeRatio _); repeat split).
Qed.

Lemma drawdownOf_cases peakCapital currentCapital :
  drawdownOf peakCapital currentCapital = Throws \/
  drawdownOf peakCapital currentCapital = Returns 0.
Proof. unfold drawdownOf. destruct (Decimal.greaterThan _ _); [left | right]; reflexivity. Qed.

(** [updateRiskMetrics] touches the metrics and the drawdown history
    only; when it gets as far as the drawdown, the drawdown it records
    is 0. *)
Lemma updateRiskMetrics_cases s now :
  let s' := (updateRiskMetrics P s now).1 in
  sameBooks s s' /\
  ((drawdownHistory s' = drawdownHistory s /\
    currentDrawdown (riskMetrics s') = currentDrawdown (riskMetrics s) /\
    maxDrawdown (riskMetrics s') = maxDrawdown (riskMetrics s))
   \/
   (currentDrawdown (riskMetrics s') = 0 /\
    maxDrawdown (riskMetrics s') =
      (if Decimal.greaterThan 0 (maxDrawdown (riskMetrics s))
       then 0 else maxDrawdown (riskMetrics s)) /\
    drawdownHistory s' =
      let history := drawdownHistory s ++ [(now, 0)] in
      if (1000 <? length history)%nat
      then drop (length history - 1000) history
      else history)).
Proof.
  unfold updateRiskMetrics.
  destruct (forEach _ _ _) as [totalExposure'|]; cbn [orRaise];
    [|split; [apply sameBooks_refl | left; repeat split]].
  cbv zeta.
  match goal with |- context [drawdownOf ?a ?b] =>
    destruct (drawdownOf_cases a b) as [-> | ->] end; cbn [orRaise].
  - split; [repeat split | left; repeat split].
  - match goal with |- context [calculatePerformanceMetrics ?x] =>
      pose proof (calculatePerformanceMetrics_books x) as (Hb & Hh & Hc & Hm & _);
      set (s1 := x) in *
    end.
    split.
    + eapply sameBooks_trans; [|exact Hb]. subst s1.
      destruct (Decimal.greaterThan _ _); repeat split.
    + right. rewrite Hh, Hc, Hm. subst s1.
      cbn [riskMetrics set_riskMetrics currentDrawdown set_currentDrawdown maxDrawdown
           set_dailyLoss set_dailyPnl set_totalExposure drawdownHistory].
      destruct (Decimal.greaterThan 0 (maxDrawdown (riskMetrics s))); repeat split.
Qed.

Lemma updateRiskMetrics_books s now : sameBooks s (updateRiskMetrics P s now).1.
Proof. apply updateRiskMetrics_cases. Qed.

Lemma insert_nonempty {A} (m : gmap string A) k x : <[k := x]> m <> ∅.
Proof. apply insert_non_empty. Qed.

(** [updatePosition] stores the position and arms its timer, then raises
    in [updatePortfolio]: the ledger it has just written to is not
    empty. *)
Lemma updatePosition_raises s position now :
  updatePosition P s position now =
  (setPositionTimeout
     (set_positions s (<[pos_symbol position := position]> (positions s))) position now,
   Throws).
Proof.
  unfold updatePosition. cbv zeta.
  rewrite updatePortfolio_raises; [reflexivity|].
  cbn [positions setPositionTimeout set_positionTimers set_positions].
  apply insert_nonempty.
Qed.

(** [performRiskCheck] ends where [checkRiskLimits] raises: its state is
    the one [updateRiskMetrics] leaves, and [cleanupOldData] is not
    reached. *)
Lemma performRiskCheck_updateRiskMetrics s now :
  performRiskCheck P s now = (updateRiskMetrics P s now).1.
Proof.
  unfold performRiskCheck, andThen.
  destruct (updateRiskMetrics P s now) as [s1 [[]|]]; reflexivity.
Qed.

Lemma addPendingOrder_books s order now :
  let s' := (addPendingOrder P s order now).1 in
  config s' = config s /\ limits s' = limits s /\ portfolio s' = portfolio s /\
  positions s' = positions s /\
  pendingOrders s' = <[order_id order := order]> (pendingOrders s) /\
  dailyTrades s' = dailyTrades s /\ emergencyStop s' = emergencyStop s /\
  lastRiskCheck s' = lastRiskCheck s /\ positionTimers s' = positionTimers s /\
  events s' = events s.
Proof.
  unfold addPendingOrder.
  match goal with |- context [updateRiskMetrics P ?x now] =>
    pose proof (updateRiskMetrics_books x now) as H end.
  exact H.
Qed.

Lemma removePendingOrder_books s orderId now :
  let s' := (removePendingOrder P s orderId now).1 in
  config s' = config s /\ limits s' = limits s /\ portfolio s' = portfolio s /\
  positions s' = positions s /\
  pendingOrders s' = delete orderId (pendingOrders s) /\
  dailyTrades s' = dailyTrades s /\ emergencyStop s' = emergencyStop s /\
  lastRiskCheck s' = lastRiskCheck s /\ positionTimers s' = positionTimers s /\
  events s' = events s.
Proof.
  unfold removePendingOrder. destruct (pendingOrders s !! orderId) eqn:E.
  - match goal with |- context [updateRiskMetrics P ?x now] =>
      pose proof (updateRiskMetrics_books x now) as H end.
    exact H.
  - cbn [fst]. rewrite delete_id by exact E. repeat split.
Qed.

(** A fill on a symbol that holds a position raises before anything is
    written. *)
Lemma fillExisting_raises existingPosition trade : fillExisting existingPosition trade = Throws.
Proof.
  unfold fillExisting.
  destruct (OrderSide_eqb _ _); [reflexivity|].
  destruct (Decimal.greaterThanOrEqualTo _ _); reflexivity.
Qed.

Lemma updatePositionFromFill_raises s trade p :
  getPosition s (fill_symbol trade) = Some p ->
  updatePositionFromFill s trade = (s, Throws).
Proof.
  unfold getPosition, updatePositionFromFill. intros ->.
  rewrite fillExisting_raises. reflexivity.
Qed.

Lemma processOrderFill_raises s order fillPrice fillSize now p :
  getPosition s (order_symbol order) = Some p ->
  processOrderFill P s order fillPrice fillSize now = (s, Throws).
Proof.
  intros H. unfold processOrderFill.
  rewrite (updatePositionFromFill_raises _ _ p) by exact H. reflexivity.
Qed.

(** A fill on a symbol without a position: the position opens, the trade
    is logged with a P&L of 0, the rebate is booked and the order leaves
    the pending orders. *)
Lemma processOrderFill_opens s order fillPrice fillSize now :
  getPosition s (order_symbol order) = None ->
  let s' := (processOrderFill P s order fillPrice fillSize now).1 in
  positions s' = <[order_symbol order := openedBy order fillPrice fillSize now]> (positions s) /\
  dailyTrades s' =
    dailyTrades s ++ [ {| dt_timestamp := now; dt_pnl := 0; dt_symbol := order_symbol order |} ] /\
  portfolio s' = portfolio (addRebateEarnings s (order_rebates order)) /\
  pendingOrders s' = delete (order_id order) (pendingOrders s) /\
  config s' = config s /\ limits s' = limits s /\
  emergencyStop s' = emergencyStop s /\ lastRiskCheck s' = lastRiskCheck s /\
  positionTimers s' = positionTimers s /\ events s' = events s /\
  riskMetrics s' = riskMetrics s /\ drawdownHistory s' = drawdownHistory s.
Proof.
  unfold getPosition. intros H. unfold processOrderFill, updatePositionFromFill.
  cbn [fillTrade fill_symbol]. rewrite H. unfold andThen. cbn [fst snd].
  cbn [fill_timestamp fill_pnl fill_symbol fill_side fill_size fill_price fill_fees
       fill_rebates].
  match goal with |- context [removePendingOrder P ?x ?i now] =>
    pose proof (removePendingOrder_books x i now) as Hb; set (s1 := x) in *
  end.
  cbv zeta in Hb.
  destruct Hb as (H1 & H2 & H3 & H4 & H5 & H6 & H7 & H8 & H9 & H10).
  rewrite H1, H2, H3, H4, H5, H6, H7, H8, H9, H10.
  assert (riskMetrics (removePendingOrder P s1 (order_id order) now).1 = riskMetrics s
          /\ drawdownHistory (removePendingOrder P s1 (order_id order) now).1
             = drawdownHistory s) as [-> ->].
  { unfold removePendingOrder. destruct (pendingOrders s1 !! order_id order).
    - rewrite updateRiskMetrics_raises; [split; reflexivity|].
      subst s1. cbn [positions set_pendingOrders addRebateEarnings set_portfolio
                     set_dailyTrades set_positions].
      apply insert_nonempty.
    - split; reflexivity. }
  subst s1. repeat split.
Qed.

(** *** What a call changes *)

Lemma updateRiskMetrics_metrics s now :
  metricsKept s (updateRiskMetrics P s now).1 \/
  drawdownRecorded s (updateRiskMetrics P s now).1.
Proof.
  destruct (updateRiskMetrics_cases s now) as (_ & [H | H]); [left; exact H|].
  right. exists now. exact H.
Qed.

Lemma metricsKept_refl s : metricsKept s s.
Proof. repeat split. Qed.

Lemma step_metrics s op :
  metricsKept s (step P s op) \/ drawdownRecorded s (step P s op).
Proof.
  destruct op; unfold step; cbn [perform fst].
  - rewrite updatePosition_raises. left. repeat split.
  - unfold addPendingOrder.
    match goal with |- context [updateRiskMetrics P ?x now] =>
      destruct (updateRiskMetrics_metrics x now) as [H | H] end; [left | right]; exact H.
  - unfold removePendingOrder. destruct (pendingOrders s !! orderId); [|left; repeat split].
    match goal with |- context [updateRiskMetrics P ?x now] =>
      destruct (updateRiskMetrics_metrics x now) as [H | H] end; [left | right]; exact H.
  - destruct (getPosition s (order_symbol order)) as [p|] eqn:E.
    + rewrite (processOrderFill_raises _ _ _ _ _ p E). left. repeat split.
    + pose proof (processOrderFill_opens s order fillPrice fillSize now E) as H.
      cbv zeta in H. left. unfold metricsKept.
      destruct H as (_ & _ & _ & _ & _ & _ & _ & _ & _ & _ & -> & ->). repeat split.
  - left. repeat split.
  - left. unfold handlePositionTimeout, emitRiskAlert.
    destruct (positions s !! symbol); repeat split.
  - unfold riskMonitoringTick. destruct (Qle_bool _ _); [|left; repeat split].
    rewrite performRiskCheck_updateRiskMetrics.
    destruct (updateRiskMetrics_metrics s now) as [H | H]; [left | right]; exact H.
  - left. repeat split.
  - left. repeat split.
  - left. unfold forceClosePosition, clearPositionTimeout.
    destruct (positions s !! symbol); [|repeat split].
    cbn [positionTimers set_positions].
    destruct (positionTimers s !! symbol); repeat split.
Qed.

(** The events of a call, and the latch: nothing, a [riskAlert] of level
    WARNING, or the reset. *)
Lemma step_events s op :
  (events (step P s op) = events s /\ emergencyStop (step P s op) = emergencyStop s)
  \/ (exists a, events (step P s op) = events s ++ [EvRiskAlert a] /\
        alert_level a = WARNING /\
        emergencyStop (step P s op) = emergencyStop s)
  \/ (op = OpResetEmergencyStop /\
      events (step P s op) = events s ++ [EvEmergencyStopReset] /\
      emergencyStop (step P s op) = false).
Proof.
  destruct op; unfold step; cbn [perform fst].
  - rewrite updatePosition_raises. left. split; reflexivity.
  - pose proof (addPendingOrder_books s order now) as H. cbv zeta in H.
    left. split; apply H.
  - pose proof (removePendingOrder_books s orderId now) as H. cbv zeta in H.
    left. split; apply H.
  - destruct (getPosition s (order_symbol order)) as [p|] eqn:E.
    + rewrite (processOrderFill_raises _ _ _ _ _ p E). left. split; reflexivity.
    + pose proof (processOrderFill_opens s order fillPrice fillSize now E) as H.
      cbv zeta in H. left. split; apply H.
  - left. split; reflexivity.
  - unfold handlePositionTimeout. destruct (positions s !! symbol); [|left; split; reflexivity].
    right. left. eexists. split; [reflexivity|]. split; reflexivity.
  - unfold riskMonitoringTick. destruct (Qle_bool _ _); [|left; split; reflexivity].
    rewrite performRiskCheck_updateRiskMetrics.
    pose proof (updateRiskMetrics_books s now) as H.
    left. split; apply H.
  - right. right. repeat split.
  - left. split; reflexivity.
  - left. unfold forceClosePosition, clearPositionTimeout.
    destruct (positions s !! symbol); [|split; reflexivity].
    cbn [positionTimers set_positions].
    destruct (positionTimers s !! symbol); split; reflexivity.
Qed.

(** The portfolio after a call: as it was, or with a rebate added. *)
Lemma step_portfolio s op :
  portfolio (step P s op) = portfolio s \/
  exists rebateAmount, portfolio (step P s op) = portfolio (addRebateEarnings s rebateAmount).
Proof.
  destruct op; unfold step; cbn [perform fst].
  - rewrite updatePosition_raises. left. reflexivity.
  - left. apply (addPendingOrder_books s order now).
  - left. apply (removePendingOrder_books s orderId now).
  - destruct (getPosition s (order_symbol order)) as [p|] eqn:E.
    + rewrite (processOrderFill_raises _ _ _ _ _ p E). left. reflexivity.
    + right. exists (order_rebates order).
      apply (processOrderFill_opens s order fillPrice fillSize now E).
  - right. exists rebateAmount. reflexivity.
  - left. unfold handlePositionTimeout. destruct (positions s !! symbol); reflexivity.
  - left. unfold riskMonitoringTick. destruct (Qle_bool _ _); [|reflexivity].
    rewrite performRiskCheck_updateRiskMetrics. apply (updateRiskMetrics_books s now).
  - left. reflexivity.
  - left. reflexivity.
  - left. unfold forceClosePosition, clearPositionTimeout.
    destruct (positions s !! symbol); [|reflexivity].
    cbn [positionTimers set_positions].
    destruct (positionTimers s !! symbol); reflexivity.
Qed.

(** The trades of the day after a call: as they were, or with one more,
    of P&L 0. *)
Lemma step_dailyTrades s op :
  dailyTrades (step P s op) = dailyTrades s \/
  exists t, dt_pnl t = 0 /\ dailyTrades (step P s op) = dailyTrades s ++ [t].
Proof.
  destruct op; unfold step; cbn [perform fst].
  - rewrite updatePosition_raises. left. reflexivity.
  - left. apply (addPendingOrder_books s order now).
  - left. apply (removePendingOrder_books s orderId now).
  - destruct (getPosition s (order_symbol order)) as [p|] eqn:E.
    + rewrite (processOrderFill_raises _ _ _ _ _ p E). left. reflexivity.
    + right. eexists. split; [|apply (processOrderFill_opens s order fillPrice fillSize now E)].
      reflexivity.
  - left. reflexivity.
  - left. unfold handlePositionTimeout. destruct (positions s !! symbol); reflexivity.
  - left. unfold riskMonitoringTick. destruct (Qle_bool _ _); [|reflexivity].
    rewrite performRiskCheck_updateRiskMetrics. apply (updateRiskMetrics_books s now).
  - left. reflexivity.
  - left. reflexivity.
  - left. unfold forceClosePosition, clearPositionTimeout.
    destruct (positions s !! symbol); [|reflexivity].
    cbn [positionTimers set_positions].
    destruct (positionTimers s !! symbol); reflexivity.
Qed.

Lemma run_app s ops ops' : run P s (ops ++ ops') = run P (run P s ops) ops'.
Proof. unfold run. apply fold_left_app. Qed.

Lemma run_snoc s ops op : run P s (ops ++ [op]) = step P (run P s ops) op.
Proof. rewrite run_app. reflexivity. Qed.

(** *** Fills *)

(** C1.  What [processOrderFill] does to the ledger.  A fill for a symbol
    without a position opens one of the side of the order, with
    [size = fillSize] and [entryPrice = fillPrice].  A fill for a symbol
    that holds a position raises a TypeError before anything is written,
    whatever its side and size: averaging the entry price, and computing the
    realized P&L of a reversal or of a reduction, call [multipliedBy], which
    a decimal does not have.  The Risk Manager is left as it was. *)
Theorem processOrderFill_opens_or_raises s order fillPrice fillSize now :
  let sym := order_symbol order in
  let result := processOrderFill P s order fillPrice fillSize now in
  (getPosition s sym = None ->
     exists p', getPosition result.1 sym = Some p' /\
       pos_side p' = order_side order /\
       pos_size p' = fillSize /\ pos_entryPrice p' = fillPrice /\
       realizedPnl (portfolio result.1) = realizedPnl (portfolio s))
  /\
  (forall p, getPosition s sym = Some p -> result = (s, Throws)).
Proof.
  cbv zeta. split.
  - intros H. pose proof (processOrderFill_opens s order fillPrice fillSize now H) as Ho.
    cbv zeta in Ho. destruct Ho as (Hp & _ & Hpf & _).
    exists (openedBy order fillPrice fillSize now). unfold getPosition.
    rewrite Hp, Hpf, lookup_insert_eq. repeat split.
  - intros p H. apply (processOrderFill_raises _ _ _ _ _ p H).
Qed.

(** *** Sizes in the ledger *)





(** C4.  Scenario A.  After the fill that opens a long position of 1 ETH
    at 2000, the sale of 1.5 ETH raises a TypeError where the realized P&L
    is computed: the position is still long 1 ETH entered at 2000, and no
    P&L has been credited, whatever the fill price. *)
Theorem scenarioA_reversal_raises (fillPrice : Q) :
  let sale := limitOrder "2" "ETH" SELL (3 # 2) fillPrice in
  let result := processOrderFill P longOneEth sale fillPrice (3 # 2) 2000 in
  result = (longOneEth, Throws) /\
  getPosition result.1 "ETH"
    = Some (openedBy (limitOrder "1" "ETH" BUY 1 2000) 2000 1 1000) /\
  realizedPnl (portfolio result.1) = 0.
Proof.
  cbv zeta.
  assert (getPosition longOneEth "ETH"
          = Some (openedBy (limitOrder "1" "ETH" BUY 1 2000) 2000 1 1000)) as H
    by reflexivity.
  rewrite (processOrderFill_raises longOneEth
             (limitOrder "2" "ETH" SELL (3 # 2) fillPrice) fillPrice (3 # 2) 2000 _ H).
  split; [reflexivity|]. split; [exact H | reflexivity].
Qed.

(** *** The risk gate *)

(** C2.  The risk gate.  [canTrade(symbol)] returns false when the
    emergency-stop latch is set, when [dailyLoss >= maxDailyLoss] and when
    [currentDrawdown >= maxDrawdownPercent].  Past these three tests, for a
    symbol without a position it returns whether the number of open
    positions is below [maxOpenPositions]; for a symbol that holds a
    position it raises a TypeError where the concentration is computed,
    and returns nothing. *)
Theorem canTrade_guards s symbol :
  (emergencyStop s = true -> canTrade s symbol = Returns false)
  /\
  (maxDailyLoss (limits s) <= Qabs (dailyLoss (riskMetrics s)) ->
   canTrade s symbol = Returns false)
  /\
  (maxDrawdownPercent (limits s) <= currentDrawdown (riskMetrics s) ->
   canTrade s symbol = Returns false)
  /\
  (emergencyStop s = false ->
   Qabs (dailyLoss (riskMetrics s)) < maxDailyLoss (limits s) ->
   currentDrawdown (riskMetrics s) < maxDrawdownPercent (limits s) ->
   (getPosition s symbol = None ->
    canTrade s symbol =
      Returns (negb (Decimal.greaterThanOrEqualTo
                       (mapSize (positions s)) (maxOpenPositions (limits s)))))
   /\
   (forall p, getPosition s symbol = Some p -> canTrade s symbol = Throws)).
Proof.
  unfold canTrade, getPosition, Decimal.abs. split; [|split; [|split]].
  - intros ->. reflexivity.
  - intros H. apply greaterThanOrEqualTo_true in H. rewrite H.
    destruct (emergencyStop s); reflexivity.
  - intros H. apply greaterThanOrEqualTo_true in H. rewrite H.
    destruct (emergencyStop s); [reflexivity|].
    destruct (Decimal.greaterThanOrEqualTo (Qabs _) _); reflexivity.
  - intros -> H1 H2. apply greaterThanOrEqualTo_false in H1, H2. rewrite H1, H2.
    split.
    + intros ->. cbn [bind].
      destruct (Decimal.greaterThanOrEqualTo (mapSize _) _); reflexivity.
    + intros p ->. reflexivity.
Qed.

(** *** The emergency stop *)

Lemma run_latch ops : forall s,
  forallb (fun op => negb (isReset op)) ops = true ->
  emergencyStop s = true -> emergencyStop (run P s ops) = true.
Proof.
  induction ops as [|op ops IH]; intros s Hops Hs; [exact Hs|].
  cbn [forallb] in Hops. apply andb_true_iff in Hops as [Hop Hops].
  cbn [run fold_left]. apply IH; [exact Hops|].
  destruct (step_events s op) as [(_ & ->) | [(a & _ & _ & ->) | (-> & _)]];
    [exact Hs | exact Hs | discriminate].
Qed.

(** C10.  Emitting a [riskAlert] of level EMERGENCY sets the
    emergency-stop latch in the same step; as long as
    [resetEmergencyStop] is not called, [canTrade] then returns false for
    every symbol, whatever else happens to the Risk Manager; an EMERGENCY
    alert emitted while the latch is set adds the [riskAlert] event only,
    not a second [emergencyStop] event, whereas the first one adds both;
    and [resetEmergencyStop] clears the latch. *)
Theorem emergency_alert_latches :
  (forall s a now,
     alert_level a = EMERGENCY -> emergencyStop (emitRiskAlert s a now) = true)
  /\
  (forall s ops symbol,
     emergencyStop s = true ->
     forallb (fun op => negb (isReset op)) ops = true ->
     canTrade (run P s ops) symbol = Returns false)
  /\
  (forall s a now,
     alert_level a = EMERGENCY -> emergencyStop s = true ->
     exists fullAlert,
       events (emitRiskAlert s a now) = events s ++ [EvRiskAlert fullAlert])
  /\
  (forall s a now,
     alert_level a = EMERGENCY -> emergencyStop s = false ->
     exists fullAlert,
       events (emitRiskAlert s a now) =
       events s ++ [EvRiskAlert fullAlert; EvEmergencyStop fullAlert])
  /\
  (forall s, emergencyStop (resetEmergencyStop s) = false).
Proof.
  repeat split.
  - intros s a now Hlevel. unfold emitRiskAlert, triggerEmergencyStop. simpl.
    rewrite Hlevel. simpl. destruct (emergencyStop s) eqn:E; simpl; [exact E|reflexivity].
  - intros s ops symbol H Hops. unfold canTrade.
    rewrite (run_latch ops s Hops H). reflexivity.
  - intros s a now Hlevel H. unfold emitRiskAlert, triggerEmergencyStop. simpl.
    rewrite Hlevel, H. simpl. eexists. reflexivity.
  - intros s a now Hlevel H. unfold emitRiskAlert, triggerEmergencyStop. simpl.
    rewrite Hlevel, H. simpl. eexists. rewrite <- app_assoc. reflexivity.
Qed.

(** *** What a new Risk Manager keeps *)

Lemma rebates_netPnl R :
  Decimal.representable R ->
  Decimal.minus (Decimal.plus (Decimal.plus 0 0) R) 0 == R.
Proof.
  intros H. unfold Decimal.minus, Decimal.plus.
  assert (Decimal.toSignificantDigits (0 + 0) == 0) as -> by reflexivity.
  assert (0 + R == R) as -> by ring.
  rewrite (toSignificantDigits_representable R H).
  assert (R - 0 == R) as -> by ring.
  apply toSignificantDigits_representable, H.
Qed.

Lemma addRebateEarnings_pristine s rebateAmount :
  pristine s -> pristine (addRebateEarnings s rebateAmount).
Proof.
  intros (H1 & H2 & H3 & H4 & H5 & H6 & H7 & H8 & H9 & H10).
  unfold pristine, addRebateEarnings, updateNetPnl.
  cbn [portfolio set_portfolio totalValue pf_positions unrealizedPnl realizedPnl
       totalFees totalRebates netPnl riskMetrics dailyTrades].
  rewrite H3, H4, H5.
  repeat split; try assumption.
  - apply toSignificantDigits_is_representable.
  - apply rebates_netPnl, toSignificantDigits_is_representable.
Qed.

Lemma pristine_portfolio s s' :
  portfolio s' = portfolio s -> riskMetrics s' = riskMetrics s ->
  dailyTrades s' = dailyTrades s -> pristine s -> pristine s'.
Proof. unfold pristine. intros -> -> ->. tauto. Qed.

Lemma step_pristine s op : pristine s -> pristine (step P s op).
Proof.
  intros Hs.
  assert (pristine s) as (H1 & H2 & H3 & H4 & H5 & H6 & H7 & H8 & H9 & H10) by exact Hs.
  unfold pristine.
  assert (currentDrawdown (riskMetrics (step P s op)) = 0
          /\ maxDrawdown (riskMetrics (step P s op)) = 0) as [-> ->].
  { destruct (step_metrics s op) as [(_ & -> & ->) | (now & -> & -> & _)].
    - split; assumption.
    - rewrite H9. split; reflexivity. }
  assert (Forall (fun t => dt_pnl t = 0) (dailyTrades (step P s op))) as Ht.
  { destruct (step_dailyTrades s op) as [-> | (t & Ht & ->)]; [exact H10|].
    apply Forall_app. split; [exact H10|]. constructor; [exact Ht | constructor]. }
  destruct (step_portfolio s op) as [-> | (r & ->)].
  - repeat split; assumption.
  - destruct (addRebateEarnings_pristine s r Hs) as (G1 & G2 & G3 & G4 & G5 & G6 & G7 & _).
    repeat split; assumption.
Qed.

Lemma newRiskManager_pristine cfg : pristine (newRiskManager cfg).
Proof.
  unfold pristine. cbn. repeat split; try reflexivity.
  - exists 0%Z, 0%Z. split; reflexivity.
  - constructor.
Qed.

Lemma run_pristine ops : forall s, pristine s -> pristine (run P s ops).
Proof.
  induction ops as [|op ops IH]; intros s Hs; [exact Hs|].
  cbn [run fold_left]. apply IH, step_pristine, Hs.
Qed.

Lemma reachable_pristine cfg ops : pristine (run P (newRiskManager cfg) ops).
Proof. apply run_pristine, newRiskManager_pristine. Qed.

(** *** Drawdown *)




(** *** The portfolio *)


(** X11.  The portfolio value is never recomputed.  In every state a
    Risk Manager can reach, [totalValue] is the initial capital 10000,
    the realized and unrealized P&L and the fees are 0 and the array of
    positions is empty, whatever positions and fills were reported:
    [updatePortfolio] is only called with a position in the ledger, and
    raises at the first one. *)
Theorem totalValue_never_recomputed cfg ops :
  let pf := portfolio (run P (newRiskManager cfg) ops) in
  totalValue pf = 10000 /\ pf_positions pf = [] /\
  unrealizedPnl pf = 0 /\ realizedPnl pf = 0 /\ totalFees pf = 0.
Proof.
  cbv zeta. destruct (reachable_pristine cfg ops) as (? & ? & ? & ? & ? & _).
  repeat split; assumption.
Qed.

(** *** The drawdown on record *)

(** X1.  The drawdown on record.  The maximum drawdown never decreases,
    whatever is done to the Risk Manager; and in every state a Risk Manager
    can reach, the current drawdown is at least 0 and at most the maximum
    drawdown. *)
Theorem drawdown_on_record :
  (forall s ops,
     maxDrawdown (riskMetrics s) <= maxDrawdown (riskMetrics (run P s ops)))
  /\
  (forall cfg ops,
     let m := riskMetrics (run P (newRiskManager cfg) ops) in
     0 <= currentDrawdown m /\ currentDrawdown m <= maxDrawdown m).
Proof.
  split.
  - intros s ops. revert s. induction ops as [|op ops IH]; intros s; [cbn; lra|].
    cbn [run fold_left]. eapply Qle_trans; [|apply IH].
    destruct (step_metrics s op) as [(_ & _ & ->) | (now & _ & -> & _)]; [lra|].
    destruct (Decimal.greaterThan 0 (maxDrawdown (riskMetrics s))) eqn:E;
      decimal_cases; lra.
  - intros cfg ops. cbv zeta.
    destruct (reachable_pristine cfg ops) as (_ & _ & _ & _ & _ & _ & _ & -> & -> & _).
    split; lra.
Qed.

(** X2.  The drawdown history of a Risk Manager never holds more than
    1000 entries. *)
Theorem drawdownHistory_bounded cfg ops :
  (length (drawdownHistory (run P (newRiskManager cfg) ops)) <= 1000)%nat.
Proof.
  assert (forall s,
            (length (drawdownHistory s) <= 1000)%nat ->
            (length (drawdownHistory (run P s ops)) <= 1000)%nat) as H.
  { induction ops as [|op ops IH]; intros s Hs; [exact Hs|].
    cbn [run fold_left]. apply IH.
    destruct (step_metrics s op) as [(-> & _) | (now & _ & _ & ->)]; [exact Hs|].
    cbv zeta. destruct (1000 <? _)%nat eqn:E.
    - rewrite length_drop. lia.
    - apply Nat.ltb_ge in E. exact E. }
  apply H. cbn. lia.
Qed.

(** X3.  A periodic risk check raises no alert.  [performRiskCheck] never
    emits an event, never sets the emergency-stop latch and never prunes
    the trades of the day: [checkRiskLimits] raises a TypeError at its
    first test, the [catch] of [performRiskCheck] logs it, and
    [cleanupOldData] is not reached.  Only the metrics and the drawdown
    history may change, and with a position in the ledger nothing changes
    at all. *)
Theorem riskCheck_raises_no_alert s now :
  let s' := performRiskCheck P s now in
  events s' = events s /\ emergencyStop s' = emergencyStop s /\
  dailyTrades s' = dailyTrades s /\ positions s' = positions s /\
  portfolio s' = portfolio s /\ pendingOrders s' = pendingOrders s /\
  (positions s <> ∅ -> s' = s) /\
  forall symbol, checkRiskLimits s symbol now = (s, Throws).
Proof.
  cbv zeta. rewrite performRiskCheck_updateRiskMetrics.
  destruct (updateRiskMetrics_books s now) as (_ & _ & -> & -> & -> & -> & -> & _ & _ & ->).
  repeat split.
  intros H. rewrite updateRiskMetrics_raises by exact H. reflexivity.
Qed.

(** *** The emergency stop, counted *)




(** *** Positions and their timers *)


Lemma clearPositionTimeout_lookup s symbol k :
  positionTimers (clearPositionTimeout s symbol) !! k =
  delete symbol (positionTimers s) !! k.
Proof.
  unfold clearPositionTimeout. destruct (positionTimers s !! symbol) eqn:E; simpl.
  - reflexivity.
  - destruct (decide (k = symbol)) as [->|Hne].
    + rewrite lookup_delete_eq. exact E.
    + rewrite lookup_delete_ne by congruence. reflexivity.
Qed.

Lemma clearPositionTimeout_keeps s symbol :
  let s' := clearPositionTimeout s symbol in
  positions s' = positions s /\ portfolio s' = portfolio s /\
  riskMetrics s' = riskMetrics s /\ events s' = events s /\
  emergencyStop s' = emergencyStop s /\ pendingOrders s' = pendingOrders s.
Proof.
  unfold clearPositionTimeout. destruct (positionTimers s !! symbol); simpl; tauto.
Qed.

(** X6.  [forceClosePosition(symbol)] removes the position of the symbol
    and its timer and touches nothing else: not the other symbols, nor the
    portfolio, the metrics or the event log; without a position for the
    symbol it does nothing at all. *)
Theorem forceClosePosition_removes s symbol :
  let s' := forceClosePosition s symbol in
  getPosition s' symbol = None /\
  (forall other, other <> symbol ->
     getPosition s' other = getPosition s other /\
     positionTimers s' !! other = positionTimers s !! other) /\
  portfolio s' = portfolio s /\ riskMetrics s' = riskMetrics s /\
  events s' = events s /\
  (getPosition s symbol = None -> s' = s) /\
  (getPosition s symbol <> None -> positionTimers s' !! symbol = None).
Proof.
  cbv zeta. unfold forceClosePosition, getPosition.
  destruct (positions s !! symbol) as [p|] eqn:E.
  - match goal with |- context [clearPositionTimeout ?x ?y] =>
      destruct (clearPositionTimeout_keeps x y) as (-> & -> & -> & -> & _) end.
    simpl. rewrite lookup_delete_eq. split; [reflexivity|]. split; [|repeat split].
    + intros other Hne. rewrite clearPositionTimeout_lookup. simpl.
      rewrite !lookup_delete_ne by congruence. split; reflexivity.
    + discriminate.
    + intros _. rewrite clearPositionTimeout_lookup. apply lookup_delete_eq.
  - split; [exact E|]. repeat split; try reflexivity. intros H. congruence.
Qed.

Lemma step_timers s op :
  (forall k, is_Some (positionTimers s !! k) -> is_Some (positions s !! k)) ->
  forall k, is_Some (positionTimers (step P s op) !! k) ->
            is_Some (positions (step P s op) !! k).
Proof.
  intros Hs k. destruct op; unfold step; cbn [perform fst].
  - rewrite updatePosition_raises.
    cbn [fst setPositionTimeout positions positionTimers set_positionTimers set_positions].
    destruct (decide (k = pos_symbol position)) as [->|Hne].
    + rewrite !lookup_insert_eq. eauto.
    + rewrite !lookup_insert_ne by congruence. apply Hs.
  - destruct (addPendingOrder_books s order now) as (_ & _ & _ & -> & _ & _ & _ & _ & -> & _).
    apply Hs.
  - destruct (removePendingOrder_books s orderId now)
      as (_ & _ & _ & -> & _ & _ & _ & _ & -> & _).
    apply Hs.
  - destruct (getPosition s (order_symbol order)) as [p|] eqn:E.
    + rewrite (processOrderFill_raises _ _ _ _ _ p E). apply Hs.
    + destruct (processOrderFill_opens s order fillPrice fillSize now E)
        as (-> & _ & _ & _ & _ & _ & _ & _ & -> & _).
      intros Hk. apply Hs in Hk.
      destruct (decide (k = order_symbol order)) as [->|Hne].
      * rewrite lookup_insert_eq. eauto.
      * rewrite lookup_insert_ne by congruence. exact Hk.
  - apply Hs.
  - unfold handlePositionTimeout, emitRiskAlert.
    destruct (positions s !! symbol); apply Hs.
  - unfold riskMonitoringTick. destruct (Qle_bool _ _); [|apply Hs].
    rewrite performRiskCheck_updateRiskMetrics.
    cbn [positionTimers positions set_lastRiskCheck].
    destruct (updateRiskMetrics_books s now) as (_ & _ & _ & -> & _ & _ & _ & _ & -> & _).
    apply Hs.
  - apply Hs.
  - apply Hs.
  - unfold forceClosePosition. destruct (positions s !! symbol) eqn:E; [|apply Hs].
    rewrite clearPositionTimeout_lookup.
    match goal with |- context [positions (clearPositionTimeout ?x ?y)] =>
      destruct (clearPositionTimeout_keeps x y) as (-> & _) end.
    cbn [positionTimers positions set_positions].
    destruct (decide (k = symbol)) as [->|Hne].
    + rewrite lookup_delete_eq. intros [? [=]].
    + rewrite !lookup_delete_ne by congruence. apply Hs.
Qed.

(** X7.  In every state a Risk Manager can reach, a symbol with a
    position timer has a position in the ledger. *)
Theorem timers_belong_to_positions cfg ops symbol :
  let s := run P (newRiskManager cfg) ops in
  is_Some (positionTimers s !! symbol) -> is_Some (getPosition s symbol).
Proof.
  cbv zeta. unfold getPosition. revert symbol.
  assert (forall s,
            (forall k, is_Some (positionTimers s !! k) -> is_Some (positions s !! k)) ->
            forall k, is_Some (positionTimers (run P s ops) !! k) ->
                      is_Some (positions (run P s ops) !! k)) as H.
  { induction ops as [|op ops IH]; intros s Hs; [exact Hs|].
    cbn [run fold_left]. apply IH, step_timers, Hs. }
  apply H. cbn. intros k [? Hk]. rewrite lookup_empty in Hk. discriminate.
Qed.

(** X8.  A fill arms no timer: a timer found after [processOrderFill]
    was there before, with the same deadline.  The position a fill opens
    has no timeout. *)
Theorem processOrderFill_arms_no_timer s order fillPrice fillSize now symbol deadline :
  positionTimers (processOrderFill P s order fillPrice fillSize now).1 !! symbol
    = Some deadline ->
  positionTimers s !! symbol = Some deadline.
Proof.
  destruct (getPosition s (order_symbol order)) as [p|] eqn:E.
  - rewrite (processOrderFill_raises _ _ _ _ _ p E). auto.
  - destruct (processOrderFill_opens s order fillPrice fillSize now E)
      as (_ & _ & _ & _ & _ & _ & _ & _ & -> & _).
    auto.
Qed.

(** X9.  An order registered with [addPendingOrder] is pending under its
    id; [removePendingOrder] with that id takes it out again, which brings
    the pending set back to what it was if the id was new; and
    [removePendingOrder] with an id that is not pending changes nothing, not
    even the metrics. *)
Theorem pendingOrders_add_remove s order now now' :
  let s1 := (addPendingOrder P s order now).1 in
  let s2 := (removePendingOrder P s1 (order_id order) now').1 in
  pendingOrders s1 !! order_id order = Some order /\
  pendingOrders s2 = delete (order_id order) (pendingOrders s) /\
  (pendingOrders s !! order_id order = None -> pendingOrders s2 = pendingOrders s) /\
  (forall orderId, pendingOrders s !! orderId = None ->
     removePendingOrder P s orderId now = (s, Returns tt)).
Proof.
  cbv zeta.
  destruct (removePendingOrder_books (addPendingOrder P s order now).1 (order_id order) now')
    as (_ & _ & _ & _ & -> & _).
  destruct (addPendingOrder_books s order now) as (_ & _ & _ & _ & -> & _).
  rewrite lookup_insert_eq, delete_insert_eq.
  split; [reflexivity|]. split; [reflexivity|]. split.
  - intros H. apply delete_id, H.
  - intros orderId H. unfold removePendingOrder. rewrite H. reflexivity.
Qed.

(** X10.  When the timer of a symbol fires, a position of the symbol is
    reported by one alert of level WARNING and is not closed: the ledger,
    the portfolio and the emergency stop are as before; without a position
    nothing happens. *)
Theorem handlePositionTimeout_warns s symbol now :
  let s' := handlePositionTimeout s symbol now in
  positions s' = positions s /\ portfolio s' = portfolio s /\
  emergencyStop s' = emergencyStop s /\
  (getPosition s symbol = None -> s' = s) /\
  (forall p, getPosition s symbol = Some p ->
     exists a,
       events s' = events s ++ [EvRiskAlert a] /\
       alert_level a = WARNING /\ alert_type a = "POSITION_TIMEOUT" /\
       alert_symbol a = Some symbol).
Proof.
  cbv zeta. unfold handlePositionTimeout, getPosition.
  destruct (positions s !! symbol) as [p|].
  - unfold emitRiskAlert. simpl. repeat split; try reflexivity; try discriminate.
    intros _ _. eexists. split; [reflexivity|]. repeat split; reflexivity.
  - repeat split; try reflexivity. intros p [=].
Qed.

(** X12.  What a fill logs.  A fill for a symbol without a position adds
    one entry to the trades of the day, with the time and the symbol of the
    fill and a P&L of 0, and the call ends as [removePendingOrder] does; a
    fill for a symbol that holds a position raises before the entry is
    added, and the trades of the day are as they were. *)
Theorem processOrderFill_books_trade s order fillPrice fillSize now :
  let result := processOrderFill P s order fillPrice fillSize now in
  (getPosition s (order_symbol order) = None ->
   dailyTrades result.1 =
     dailyTrades s
     ++ [ {| dt_timestamp := now; dt_pnl := 0; dt_symbol := order_symbol order |} ] /\
   pendingOrders result.1 = delete (order_id order) (pendingOrders s) /\
   (pendingOrders s !! order_id order = None -> result.2 = Returns tt) /\
   (is_Some (pendingOrders s !! order_id order) -> result.2 = Throws))
  /\
  (is_Some (getPosition s (order_symbol order)) ->
   result.2 = Throws /\ dailyTrades result.1 = dailyTrades s /\ result.1 = s).
Proof.
  cbv zeta. split.
  - intros H.
    destruct (processOrderFill_opens s order fillPrice fillSize now H)
      as (_ & Ht & _ & Hp & _).
    split; [exact Ht|]. split; [exact Hp|].
    unfold processOrderFill, updatePositionFromFill, getPosition in *.
    cbn [fillTrade fill_symbol]. rewrite H. unfold andThen. cbn [fst snd].
    unfold removePendingOrder.
    cbn [pendingOrders addRebateEarnings set_portfolio set_dailyTrades set_positions].
    split.
    + intros ->. reflexivity.
    + intros [o ->]. rewrite updateRiskMetrics_raises; [reflexivity|].
      cbn [positions set_pendingOrders set_portfolio set_dailyTrades set_positions].
      apply insert_nonempty.
  - intros [p H]. rewrite (processOrderFill_raises _ _ _ _ _ p H). repeat split.
Qed.

End RiskManagerFacts.

(** ** The quoting strategy *)

Section QuotingFacts.

Variable P : Platform.

(** *** The price and the decision *)

(** C9.  [calculateQuotePrice] returns no price.  Its first product,
    [signal.confidence.multipliedBy(0.5)], raises a TypeError for every
    signal, market, book and side, before the offset, the bound by the mid
    price and the rounding are reached; [MathUtils.roundToTickSize] raises
    on every call as well, at the product by the tick size.  In scenario E
    (a bid, best bid 1999.5, spread 1, total aggressiveness 0.4, tick 0.01)
    no price, and not 1999.30, is returned. *)
Theorem quote_price_raises :
  (forall c signal md ob side, calculateQuotePrice c signal md ob side = Throws)
  /\
  (forall price tickSize, roundToTickSize price tickSize = Throws)
  /\
  calculateQuotePrice quotingConfig (ethSignal LONG) ethMarket ethBook BUY = Throws
  /\
  roundToTickSize (19993 # 10) (getTickSize "ETH") = Throws.
Proof. repeat split. Qed.

Lemma generateTradingDecision_cases st signal md ob :
  (sig_direction signal = NEUTRAL /\
   generateTradingDecision st signal md ob
     = Returns (holdDecision signal NeutralSignal LOW))
  \/
  (sig_direction signal <> NEUTRAL /\
   generateTradingDecision st signal md ob = Throws).
Proof.
  unfold generateTradingDecision.
  destruct (sig_direction signal); [right | right | left];
    (split; [congruence || reflexivity | reflexivity]).
Qed.

(** X15.  [generateTradingDecision] never decides to buy or to sell.  For
    a NEUTRAL signal it returns HOLD with size 0 and price 0; for a LONG or
    a SHORT signal it raises a TypeError where the quote price is computed,
    so a decision it returns is always HOLD. *)
Theorem decision_is_hold_or_raises st signal md ob :
  (sig_direction signal = NEUTRAL ->
   exists d,
     generateTradingDecision st signal md ob = Returns d /\
     dec_action d = HOLD /\ dec_size d = 0 /\ dec_price d = 0 /\
     dec_reasoning d = NeutralSignal /\ dec_signal d = signal)
  /\
  (sig_direction signal <> NEUTRAL ->
   generateTradingDecision st signal md ob = Throws)
  /\
  (forall d, generateTradingDecision st signal md ob = Returns d ->
     dec_action d = HOLD).
Proof.
  destruct (generateTradingDecision_cases st signal md ob) as [(Hd & ->) | (Hd & ->)].
  - split; [|split].
    + intros _. eexists. split; [reflexivity|]. repeat split.
    + intros H. contradiction.
    + intros d [= <-]. reflexivity.
  - split; [|split].
    + intros H. contradiction.
    + intros _. reflexivity.
    + intros d [=].
Qed.

(** *** Changes of the Risk Manager seen by the strategy *)

(** A change of the Risk Manager that emits nothing starts no handler. *)
Lemma withRiskManager_quiet st rm' :
  events rm' = events (riskManager st) ->
  withRiskManager st rm' = (set_riskManager st rm', []).
Proof.
  intros H. unfold withRiskManager, newAlerts. rewrite H, drop_all. reflexivity.
Qed.

Lemma withRiskManager_removePendingOrder st orderId now :
  withRiskManager st (removePendingOrder P (riskManager st) orderId now).1 =
  (set_riskManager st (removePendingOrder P (riskManager st) orderId now).1, []).
Proof.
  apply withRiskManager_quiet.
  pose proof (removePendingOrder_books P (riskManager st) orderId now) as H.
  cbv zeta in H. apply H.
Qed.

Lemma withRiskManager_addPendingOrder st order now :
  withRiskManager st (addPendingOrder P (riskManager st) order now).1 =
  (set_riskManager st (addPendingOrder P (riskManager st) order now).1, []).
Proof.
  apply withRiskManager_quiet.
  pose proof (addPendingOrder_books P (riskManager st) order now) as H.
  cbv zeta in H. apply H.
Qed.

(** *** Retracting the quotes of a symbol *)




(** *** No order is ever placed *)

Lemma orderFree_ext st st' :
  activeOrders st' = activeOrders st -> clientCalls st' = clientCalls st ->
  orderFree st -> orderFree st'.
Proof. unfold orderFree, holdsNoOrder. intros -> ->. tauto. Qed.

Lemma returnTo_settled st fs : orderFree st -> settled (returnTo st fs).
Proof.
  intros H. destruct fs; split; try exact H; cbn; repeat constructor.
Qed.

Lemma cancelLoop_settled st symbol orders fs :
  orderFree st -> settled (cancelLoop st symbol orders fs).
Proof.
  intros [Hh Hc]. destruct orders as [|o rest]; cbn [cancelLoop].
  - apply returnTo_settled. split.
    + intros k os. cbn [activeOrders set_activeOrders].
      destruct (decide (k = symbol)) as [->|Hne].
      * rewrite lookup_insert_eq. congruence.
      * rewrite lookup_insert_ne by congruence. apply Hh.
    + exact Hc.
  - split.
    + split; [exact Hh|]. cbn [fst call clientCalls].
      rewrite forallb_app, Hc. reflexivity.
    + cbn. repeat constructor.
Qed.

Lemma cancelAllOrders_settled st syms fs :
  orderFree st -> settled (cancelAllOrders st syms fs).
Proof.
  intros H. destruct syms; cbn [cancelAllOrders].
  - apply returnTo_settled, H.
  - apply cancelLoop_settled, H.
Qed.

Lemma stop_settled st fs : orderFree st -> settled (stop st fs).
Proof.
  intros H. unfold stop. destruct (negb (isRunning st)).
  - apply returnTo_settled, H.
  - apply cancelAllOrders_settled. revert H. apply orderFree_ext; reflexivity.
Qed.

Lemma handleRiskAlert_settled st alert : orderFree st -> settled (handleRiskAlert st alert).
Proof.
  intros H. unfold handleRiskAlert. destruct (AlertLevel_eqb _ _).
  - apply cancelAllOrders_settled, H.
  - split; [exact H | constructor].
Qed.

Lemma withRiskManager_quoteless st rm' :
  orderFree st -> quoteless (withRiskManager st rm').
Proof.
  intros H. unfold withRiskManager.
  assert (quoteless (set_riskManager st rm', [])) as H0.
  { split; [|constructor]. revert H. apply orderFree_ext; reflexivity. }
  revert H0. generalize (set_riskManager st rm', @nil Task).
  induction (newAlerts (riskManager st) rm') as [|a l IH]; intros acc Hacc; [exact Hacc|].
  cbn [fold_left]. apply IH. destruct acc as [st1 tasks]. destruct Hacc as [H1 H2].
  pose proof (handleRiskAlert_settled st1 a H1) as [H3 H4].
  destruct (handleRiskAlert st1 a) as [st2 task]. split; [exact H3|].
  apply Forall_app. split; [exact H2 | exact H4].
Qed.

Lemma updateQuotes_settled st symbol fs : orderFree st -> settled (updateQuotes st symbol fs).
Proof.
  intros H. unfold updateQuotes.
  destruct (latestSignals st !! symbol), (marketData st !! symbol),
    (orderBooks st !! symbol); try (apply returnTo_settled, H).
  destruct (canTrade (riskManager st) symbol) as [[|]|];
    try (apply returnTo_settled, H).
  apply cancelLoop_settled, H.
Qed.

Lemma sweep_settled st syms fs : orderFree st -> settled (sweep st syms fs).
Proof.
  intros H. destruct syms; cbn [sweep].
  - apply returnTo_settled, H.
  - apply updateQuotes_settled, H.
Qed.

Lemma loadPositionsLoop_quoteless now : forall held st,
  orderFree st -> quoteless (loadPositionsLoop P st held now).
Proof.
  induction held as [|p rest IH]; intros st H; cbn [loadPositionsLoop].
  - split; [exact H | constructor].
  - set (st0 := set_heldPositions st _).
    assert (orderFree st0) as H0 by (revert H; apply orderFree_ext; reflexivity).
    pose proof (withRiskManager_quoteless st0
                  (updatePosition P (riskManager st0) p now).1 H0) as [H1 H2].
    destruct (withRiskManager st0 _) as [st1 spawned].
    destruct (updatePosition P (riskManager st0) p now).2.
    + pose proof (IH st1 H1) as [H3 H4].
      destruct (loadPositionsLoop P st1 rest now) as [st2 more].
      split; [exact H3|]. apply Forall_app. split; [exact H2 | exact H4].
    + split; [exact H1 | exact H2].
Qed.

(** X22.  [loadPositions] loads one position at most.  The first
    position the exchange reports is recorded by the strategy and by the
    Risk Manager, whose [updatePosition] then raises a TypeError where the
    portfolio is recomputed; the exception leaves the [forEach], the
    [catch] of [loadPositions] logs it, and the positions after the first
    are not visited.  No alert handler is started. *)
Theorem loadPositions_stops_at_first st position rest now :
  let out := loadPositionsLoop P st (position :: rest) now in
  heldPositions out.1 = <[pos_symbol position := position]> (heldPositions st) /\
  getPosition (riskManager out.1) (pos_symbol position) = Some position /\
  (forall symbol, symbol <> pos_symbol position ->
     getPosition (riskManager out.1) symbol = getPosition (riskManager st) symbol) /\
  out.2 = [].
Proof.
  cbv zeta. cbn [loadPositionsLoop].
  set (st0 := set_heldPositions st _).
  rewrite (updatePosition_raises P (riskManager st0) position now). cbn [fst snd].
  rewrite withRiskManager_quiet by reflexivity.
  unfold getPosition.
  cbn [fst snd st0 heldPositions set_riskManager set_heldPositions riskManager
       setPositionTimeout positions set_positionTimers set_positions].
  rewrite lookup_insert_eq. split; [reflexivity|]. split; [reflexivity|].
  split; [|reflexivity]. intros symbol Hne. apply lookup_insert_ne. congruence.
Qed.

(** A call in progress that awaits no order, resumed: no order is held or
    requested afterwards, and neither what is left of the call nor a call
    started on the way awaits an order. *)
Lemma resume_quoteless st t r now :
  orderFree st -> awaitsNoOrder t ->
  settled (resume P st t r now).1 /\ Forall awaitsNoOrder (resume P st t r now).2.
Proof.
  intros H Ht. unfold resume.
  assert (settled (st, Some t)) as Hsame.
  { split; [exact H|]. cbn. constructor; [exact Ht | constructor]. }
  unfold awaitsNoOrder in Ht.
  destruct (awaiting t) as [symbol order rest| | |] eqn:Ea; [|contradiction| |].
  - destruct r; try (split; [exact Hsame | constructor]).
    + rewrite withRiskManager_removePendingOrder. cbn [fst snd]. split; [|constructor].
      apply cancelLoop_settled. revert H. apply orderFree_ext; reflexivity.
    + cbn [fst snd]. split; [|constructor]. apply cancelLoop_settled, H.
  - destruct r as [ | | | |held| | ]; try (split; [exact Hsame | constructor]).
    + pose proof (loadPositionsLoop_quoteless now held st H) as [H1 H2].
      destruct (loadPositionsLoop P st held now) as [st1 spawned].
      cbn [fst snd] in *. split; [|exact H2]. apply returnTo_settled, H1.
    + cbn [fst snd]. split; [|constructor]. apply returnTo_settled, H.
  - destruct r; try (split; [exact Hsame | constructor]).
    destruct (frames t) as [|f fs].
    { cbn [fst snd]. split; [|constructor]. split; [exact H | constructor]. }
    destruct f as [sym sig md ob|sym|syms|syms| |alert|alert| ]; cbn [fst snd].
    + destruct (generateTradingDecision_cases st sig md ob)
        as [(_ & ->) | (_ & ->)]; cbn [holdDecision dec_action fst snd];
        (split; [|constructor]); apply returnTo_settled, H.
    + split; [|constructor]. apply returnTo_settled.
      revert H. apply orderFree_ext; reflexivity.
    + split; [|constructor]. apply sweep_settled, H.
    + split; [|constructor]. apply cancelAllOrders_settled, H.
    + split; [|constructor]. apply returnTo_settled.
      revert H. apply orderFree_ext; reflexivity.
    + split; [|constructor]. apply stop_settled, H.
    + split; [|constructor]. apply returnTo_settled.
      revert H. apply orderFree_ext; reflexivity.
    + split; [|constructor]. apply returnTo_settled.
      revert H. apply orderFree_ext; reflexivity.
Qed.

Lemma quoteless_spawn (tasks : list Task) (c : Strategy * option Task) :
  Forall awaitsNoOrder tasks -> settled c ->
  quoteless (let '(st', task) := c in (st', tasks ++ option_list task)).
Proof.
  intros Ht [H1 H2]. destruct c as [st' task]. split; [exact H1|].
  apply Forall_app. split; [exact Ht | exact H2].
Qed.

Lemma strategyStep_quoteless w e : quoteless w -> quoteless (strategyStep P w e).
Proof.
  destruct w as [st tasks]. intros [H Ht]. cbn [fst snd] in H, Ht.
  destruct e; cbn [strategyStep].
  - set (st0 := set_marketData st _).
    assert (orderFree st0) as H0 by (revert H; apply orderFree_ext; reflexivity).
    destruct (_ <=? _)%Z.
    + apply quoteless_spawn; [exact Ht | apply updateQuotes_settled, H0].
    + split; assumption.
  - split; [|exact Ht]. revert H. apply orderFree_ext; reflexivity.
  - set (st0 := set_latestSignals st _).
    assert (orderFree st0) as H0 by (revert H; apply orderFree_ext; reflexivity).
    destruct (_ || _); [split; assumption|].
    destruct (Decimal.lessThan _ _); [split; assumption|].
    apply quoteless_spawn; [exact Ht | apply updateQuotes_settled, H0].
  - destruct (_ && _); [|split; assumption].
    apply quoteless_spawn; [exact Ht | apply sweep_settled, H].
  - destruct (isRunning st); [split; assumption|]. split.
    + destruct H as [Hh Hc]. split; [exact Hh|]. cbn [fst call clientCalls].
      rewrite forallb_app, Hc. reflexivity.
    + apply Forall_app. split; [exact Ht|]. repeat constructor.
  - apply quoteless_spawn; [exact Ht | apply stop_settled, H].
  - pose proof (withRiskManager_quoteless st (step P (riskManager st) op) H) as [H1 H2].
    destruct (withRiskManager st _) as [st1 spawned]. split; [exact H1|].
    apply Forall_app. split; [exact Ht | exact H2].
  - destruct (tasks !! i) as [t|] eqn:E; [|split; assumption].
    assert (awaitsNoOrder t) as Hta.
    { rewrite Forall_forall in Ht. apply Ht. eapply list_elem_of_lookup_2, E. }
    pose proof (resume_quoteless st t r now H Hta) as [[H1 H2] H3].
    destruct (resume P st t r now) as [[st1 t'] spawned]. cbn [fst snd] in *.
    split; [exact H1|]. apply Forall_app. split; [|exact H3].
    destruct t' as [t'|].
    + apply Forall_insert; [exact Ht|]. inversion H2; assumption.
    + apply Forall_delete, Ht.
Qed.

Lemma strategyRun_quoteless es : forall w, quoteless w -> quoteless (strategyRun P w es).
Proof.
  induction es as [|e es IH]; intros w Hw; [exact Hw|].
  cbn [strategyRun fold_left]. apply IH, strategyStep_quoteless, Hw.
Qed.

Lemma newStrategy_quoteless cfg rm : quoteless (newStrategy cfg rm, []).
Proof.
  split; [split|constructor]; [|reflexivity].
  intros k os. cbn. rewrite lookup_empty. discriminate.
Qed.

(** C5.  Whatever happens to a strategy from the moment it is built
    (signals, market data, books, timer sweeps, start and stop, calls of
    the Risk Manager, answers of the exchange in any order), at every
    instant it holds at most one active order per symbol.  It holds none:
    no order has been requested from the exchange, after a failed
    cancellation or otherwise, and no call in progress awaits the answer to
    an order. *)
Theorem one_active_order_per_symbol cfg rm es :
  let w := strategyRun P (newStrategy cfg rm, []) es in
  oneOrderPerSymbol w.1 /\
  (forall symbol orders, activeOrders w.1 !! symbol = Some orders -> orders = []) /\
  forallb (fun c => negb (isPlaceOrder c)) (clientCalls w.1) = true /\
  Forall awaitsNoOrder w.2.
Proof.
  cbv zeta.
  destruct (strategyRun_quoteless es _ (newStrategy_quoteless cfg rm)) as [[Hh Hc] Ht].
  split; [|split; [exact Hh | split; [exact Hc | exact Ht]]].
  intros symbol orders Ho. rewrite (Hh symbol orders Ho). cbn. lia.
Qed.

(** *** Cancelling everything *)

Lemma cancelsOnly_refl st : cancelsOnly st st.
Proof.
  repeat split. exists []. rewrite app_nil_r. split; reflexivity.
Qed.

Lemma cancelsOnly_trans st1 st2 st3 :
  cancelsOnly st1 st2 -> cancelsOnly st2 st3 -> cancelsOnly st1 st3.
Proof.
  intros (H1 & H2 & H3 & H4 & H4' & c1 & H5 & H6) (K1 & K2 & K3 & K4 & K4' & c2 & K5 & K6).
  repeat split; try congruence.
  exists (c1 ++ c2). rewrite K5, H5, <- app_assoc, forallb_app, H6, K6.
  split; reflexivity.
Qed.

Lemma drive_S oracle step fuel c t :
  c.2 = Some t ->
  drive P oracle step (S fuel) c
  = drive P oracle (S step) fuel (answer P c (oracle step t)).
Proof. intros H. simpl. rewrite H. reflexivity. Qed.

Lemma oracle_tick oracle step t :
  answersRequests oracle -> awaiting t = WTick -> (oracle step t).1 = Tick.
Proof.
  intros H Ht. specialize (H step t). rewrite Ht in H.
  destruct (oracle step t).1; try contradiction. reflexivity.
Qed.

(** A task that awaits nothing but its resumption, resumed. *)
Lemma drive_tick oracle step fuel st f fs :
  answersRequests oracle ->
  drive P oracle step (S fuel) (st, Some (mkTask WTick (f :: fs))) =
  drive P oracle (S step) fuel
    (resume P st (mkTask WTick (f :: fs)) Tick
       (oracle step (mkTask WTick (f :: fs))).2).1.
Proof.
  intros Ho. rewrite (drive_S _ _ _ _ (mkTask WTick (f :: fs))) by reflexivity.
  unfold answer. cbn [fst snd]. rewrite (oracle_tick oracle _ _ Ho) by reflexivity.
  reflexivity.
Qed.

(** The loop of [cancelSymbolOrders] comes to its end, whatever the
    answers to the cancel requests. *)
Lemma drive_cancelLoop oracle symbol fs :
  answersRequests oracle ->
  forall orders st step,
  exists fuel st',
    (forall n, drive P oracle step (fuel + n) (cancelLoop st symbol orders fs)
               = drive P oracle (step + fuel) n (returnTo st' fs)) /\
    activeOrders st' = <[symbol := []]> (activeOrders st) /\
    cancelsOnly st st'.
Proof.
  intros Ho. induction orders as [|o orders IH]; intros st step.
  - exists 0%nat. eexists. split; [intros n; rewrite Nat.add_0_r; reflexivity|].
    split; [reflexivity|]. repeat split. exists []. simpl. rewrite app_nil_r.
    split; reflexivity.
  - assert (exists st1,
              answer P (cancelLoop st symbol (o :: orders) fs)
                (oracle step (mkTask (WCancel symbol o orders) fs))
              = cancelLoop st1 symbol orders fs /\
              activeOrders st1 = activeOrders st /\ cancelsOnly st st1)
      as (st1 & Hstep & Hact & Hc).
    { unfold answer. cbn [cancelLoop snd fst]. unfold resume. cbn [awaiting frames].
      pose proof (Ho step (mkTask (WCancel symbol o orders) fs)) as Hr.
      cbn [awaiting] in Hr.
      destruct (oracle step (mkTask (WCancel symbol o orders) fs)) as [r now].
      cbn [fst snd] in *. destruct r; try contradiction.
      - rewrite withRiskManager_removePendingOrder. cbn [fst].
        eexists. split; [reflexivity|]. split; [reflexivity|].
        repeat split. eexists. split; reflexivity.
      - eexists. split; [reflexivity|]. split; [reflexivity|].
        repeat split. eexists. split; reflexivity. }
    destruct (IH st1 (S step)) as (fuel & st' & Hrun & Hact' & Hc').
    exists (S fuel), st'. split; [|split].
    + intros n. cbn [Nat.add].
      rewrite (drive_S _ _ _ _ (mkTask (WCancel symbol o orders) fs)) by reflexivity.
      rewrite Hstep, Hrun. f_equal. lia.
    + rewrite Hact', Hact. reflexivity.
    + eapply cancelsOnly_trans; eassumption.
Qed.

(** [cancelAllOrders] comes to its end with an empty active set for each
    symbol it visits. *)
Lemma drive_cancelAllOrders oracle fs :
  answersRequests oracle ->
  forall syms st step,
  exists fuel st',
    (forall n, drive P oracle step (fuel + n) (cancelAllOrders st syms fs)
               = drive P oracle (step + fuel) n (returnTo st' fs)) /\
    (forall k, k ∈ syms -> activeOrders st' !! k = Some []) /\
    (forall k, k ∉ syms -> activeOrders st' !! k = activeOrders st !! k) /\
    cancelsOnly st st'.
Proof.
  intros Ho. induction syms as [|sym syms IH]; intros st step.
  - exists 0%nat, st. split; [intros n; rewrite Nat.add_0_r; reflexivity|].
    split; [intros k Hk; inversion Hk|]. split; [reflexivity|]. apply cancelsOnly_refl.
  - cbn [cancelAllOrders]. unfold cancelSymbolOrders.
    destruct (drive_cancelLoop oracle sym (FCancelAll syms :: fs) Ho
                (default [] (activeOrders st !! sym)) st step)
      as (fuel1 & st1 & Hrun1 & Hact1 & Hc1).
    destruct (IH st1 (S (step + fuel1))) as (fuel2 & st2 & Hrun2 & Hin & Hout & Hc2).
    exists (fuel1 + S fuel2)%nat, st2. split; [|split; [|split]].
    + intros n. rewrite <- Nat.add_assoc, Hrun1. cbn [Nat.add returnTo].
      rewrite drive_tick by exact Ho.
      unfold resume. cbn [awaiting frames fst]. rewrite Hrun2. f_equal. lia.
    + intros k Hk. destruct (decide (k ∈ syms)) as [Hs|Hs]; [apply Hin, Hs|].
      rewrite Hout by exact Hs. apply elem_of_cons in Hk as [->|Hk]; [|contradiction].
      rewrite Hact1. apply lookup_insert_eq.
    + intros k Hk. apply not_elem_of_cons in Hk as (Hne & Hk).
      rewrite Hout by exact Hk. rewrite Hact1. apply lookup_insert_ne. congruence.
    + eapply cancelsOnly_trans; eassumption.
Qed.

(** [stop()] on a running strategy comes to its end. *)
Lemma drive_stop oracle fs st step :
  answersRequests oracle -> isRunning st = true ->
  exists fuel st',
    (forall n, drive P oracle step (fuel + n) (stop st fs)
               = drive P oracle (step + fuel) n (returnTo st' fs)) /\
    isRunning st' = false /\ quoteInterval st' = false /\
    (forall k, k ∈ symbols (quoting st) -> activeOrders st' !! k = Some []) /\
    (forall k, k ∉ symbols (quoting st) -> activeOrders st' !! k = activeOrders st !! k) /\
    emitted st' = emitted st ++ [EvStopped] /\
    exists calls,
      clientCalls st' = clientCalls st ++ calls /\
      forallb (fun c => negb (isPlaceOrder c)) calls = true.
Proof.
  intros Ho Hrun. unfold stop. rewrite Hrun. cbn [negb].
  destruct (drive_cancelAllOrders oracle (FStopped :: fs) Ho
              (symbols (quoting st)) (set_quoteInterval (set_isRunning st false) false)
              step)
    as (fuel & st' & Hdrive & Hin & Hout & Hq & Hr & Hi & He & _ & calls & Hcalls & Hplace).
  exists (fuel + 1)%nat, (emitStrategy st' EvStopped).
  change (symbols (quoting (set_quoteInterval (set_isRunning st false) false)))
    with (symbols (quoting st)).
  split; [|repeat split; auto].
  - intros n. rewrite <- Nat.add_assoc, Hdrive. cbn [Nat.add returnTo].
    rewrite drive_tick by exact Ho.
    unfold resume. cbn [awaiting frames fst]. f_equal. lia.
  - simpl. rewrite He. reflexivity.
  - exists calls. split; [exact Hcalls | exact Hplace].
Qed.

(** X16.  [stop()] on a running strategy, followed on its own, comes to
    its end whatever the answers to its cancel requests: the strategy is
    not running, the interval timer is cleared, every configured symbol has
    an empty active set, [stopped] has been emitted, and no order was
    placed.  The active orders of a symbol that is not configured are left
    as they are. *)
Theorem stop_completes st oracle :
  answersRequests oracle -> isRunning st = true ->
  exists fuel,
    let final := drive P oracle 0 fuel (stop st []) in
    final.2 = None /\
    isRunning final.1 = false /\ quoteInterval final.1 = false /\
    (forall symbol, symbol ∈ symbols (quoting st) ->
       activeOrders final.1 !! symbol = Some []) /\
    (forall symbol, symbol ∉ symbols (quoting st) ->
       activeOrders final.1 !! symbol = activeOrders st !! symbol) /\
    emitted final.1 = emitted st ++ [EvStopped] /\
    forallb (fun c => negb (isPlaceOrder c))
      (drop (length (clientCalls st)) (clientCalls final.1)) = true.
Proof.
  intros Ho Hrun.
  destruct (drive_stop oracle [] st 0 Ho Hrun)
    as (fuel & st' & Hdrive & Hr & Hi & Hin & Hout & He & calls & Hcalls & Hplace).
  exists fuel. cbv zeta. specialize (Hdrive 0%nat). rewrite Nat.add_0_r in Hdrive.
  rewrite Hdrive. cbn [drive returnTo fst snd].
  rewrite Hcalls, drop_app_length. repeat split; auto.
Qed.

(** X17.  An alert of level EMERGENCY handled by the strategy, followed
    on its own, comes to its end: every configured symbol has an empty
    active set, the strategy is not running, [stopped] has been emitted if
    it was running, then [emergencyStop] with the alert, and no order was
    placed.  An alert of another level is ignored. *)
Theorem emergency_alert_stops_strategy st alert oracle :
  answersRequests oracle ->
  (alert_level alert = EMERGENCY ->
   exists fuel,
     let final := drive P oracle 0 fuel (handleRiskAlert st alert) in
     final.2 = None /\
     isRunning final.1 = false /\
     (forall symbol, symbol ∈ symbols (quoting st) ->
        activeOrders final.1 !! symbol = Some []) /\
     emitted final.1 =
       emitted st ++ (if isRunning st then [EvStopped] else [])
       ++ [EvStrategyEmergencyStop alert] /\
     forallb (fun c => negb (isPlaceOrder c))
       (drop (length (clientCalls st)) (clientCalls final.1)) = true)
  /\
  (alert_level alert <> EMERGENCY -> handleRiskAlert st alert = (st, None)).
Proof.
  intros Ho. split.
  - intros Hlevel. unfold handleRiskAlert. rewrite Hlevel. cbn [AlertLevel_eqb].
    destruct (drive_cancelAllOrders oracle [FAlertCancelled alert] Ho
                (symbols (quoting st)) st 0)
      as (fuel1 & st1 & Hdrive1 & Hin1 & _ & Hq1 & Hr1 & _ & He1 & _
          & calls1 & Hcalls1 & Hplace1).
    destruct (isRunning st) eqn:Hrun.
    + destruct (drive_stop oracle [FAlertStopped alert] st1 (S (0 + fuel1)) Ho Hr1)
        as (fuel2 & st2 & Hdrive2 & Hr2 & _ & Hin2 & _ & He2 & calls2 & Hcalls2 & Hplace2).
      exists (fuel1 + S (fuel2 + 1))%nat. cbv zeta.
      rewrite Hdrive1. cbn [returnTo]. rewrite drive_tick by exact Ho.
      unfold resume. cbn [awaiting frames fst].
      rewrite Hdrive2. cbn [returnTo]. rewrite drive_tick by exact Ho.
      unfold resume. cbn [awaiting frames fst snd returnTo drive].
      cbn [emitStrategy isRunning activeOrders emitted clientCalls].
      rewrite He2, He1, Hcalls2, Hcalls1, <- !app_assoc, drop_app_length.
      rewrite forallb_app, Hplace1, Hplace2. rewrite Hq1 in Hin2.
      repeat split; auto.
    + exists (fuel1 + 2)%nat. cbv zeta. rewrite Hdrive1.
      cbn [returnTo]. rewrite drive_tick by exact Ho.
      unfold resume. cbn [awaiting frames fst].
      unfold stop. rewrite Hr1. cbn [negb returnTo].
      rewrite drive_tick by exact Ho.
      unfold resume. cbn [awaiting frames fst snd returnTo drive].
      cbn [emitStrategy isRunning activeOrders emitted clientCalls].
      rewrite Hr1, He1, Hcalls1, drop_app_length.
      repeat split; auto.
  - intros Hlevel. unfold handleRiskAlert.
    destruct (alert_level alert); try reflexivity. congruence.
Qed.

(** *** A quote update from its start to its end *)

(** X18.  A quote update, followed on its own, comes to its end without
    an order, whatever the signal and the answers of the exchange: it sends
    cancel requests at most, places no order, emits nothing, and records no
    quote time.  The active sets of the other symbols are left as they are;
    the one of the symbol is left as it is, or emptied. *)
Theorem quote_update_places_no_order st symbol oracle :
  answersRequests oracle ->
  exists fuel,
    let final := drive P oracle 0 fuel (updateQuotes st symbol []) in
    final.2 = None /\
    forallb (fun c => negb (isPlaceOrder c))
      (drop (length (clientCalls st)) (clientCalls final.1)) = true /\
    emitted final.1 = emitted st /\
    lastQuoteTime final.1 = lastQuoteTime st /\
    (forall k, k <> symbol -> activeOrders final.1 !! k = activeOrders st !! k) /\
    (activeOrders final.1 !! symbol = activeOrders st !! symbol \/
     activeOrders final.1 !! symbol = Some []).
Proof.
  intros Ho.
  assert (exists fuel, drive P oracle 0 fuel (returnTo st []) = (st, None)) as Hnone
    by (exists 0%nat; reflexivity).
  assert (forall fuel,
            drive P oracle 0 fuel (returnTo st []) = (st, None) ->
            let final := drive P oracle 0 fuel (returnTo st []) in
            final.2 = None /\
            forallb (fun c => negb (isPlaceOrder c))
              (drop (length (clientCalls st)) (clientCalls final.1)) = true /\
            emitted final.1 = emitted st /\
            lastQuoteTime final.1 = lastQuoteTime st /\
            (forall k, k <> symbol -> activeOrders final.1 !! k = activeOrders st !! k) /\
            (activeOrders final.1 !! symbol = activeOrders st !! symbol \/
             activeOrders final.1 !! symbol = Some [])) as Hstay.
  { intros fuel ->. cbn [fst snd]. rewrite drop_all.
    repeat split; try reflexivity. left. reflexivity. }
  unfold updateQuotes.
  destruct (latestSignals st !! symbol) as [signal|];
    [|exists 0%nat; apply Hstay; reflexivity].
  destruct (marketData st !! symbol) as [md|];
    [|exists 0%nat; apply Hstay; reflexivity].
  destruct (orderBooks st !! symbol) as [ob|];
    [|exists 0%nat; apply Hstay; reflexivity].
  destruct (canTrade (riskManager st) symbol) as [[|]|];
    [|exists 0%nat; apply Hstay; reflexivity..].
  unfold cancelSymbolOrders.
  destruct (drive_cancelLoop oracle symbol [FQuote symbol signal md ob] Ho
              (default [] (activeOrders st !! symbol)) st 0)
    as (fuel & st' & Hdrive & Hact & _ & _ & _ & He & Hl & calls & Hcalls & Hplace).
  exists (fuel + 1)%nat. cbv zeta. rewrite Hdrive. cbn [returnTo].
  rewrite drive_tick by exact Ho. unfold resume. cbn [awaiting frames].
  assert ((match generateTradingDecision st' signal md ob with
           | Returns decision =>
               match dec_action decision with
               | HOLD => (returnTo st' [], [])
               | _ =>
                   (placeQuote st' decision [FQuoted symbol]
                      (oracle (0 + fuel)%nat
                         {| awaiting := WTick;
                            frames := [FQuote symbol signal md ob] |}).2, [])
               end
           | Throws => (returnTo st' [], [])
           end) = ((st', None), [])) as ->.
  { destruct (generateTradingDecision_cases st' signal md ob) as [(_ & ->) | (_ & ->)];
      reflexivity. }
  cbn [drive fst snd]. rewrite Hcalls, drop_app_length, Hact.
  split; [reflexivity|]. split; [exact Hplace|]. split; [exact He|].
  split; [exact Hl|]. split.
  - intros k Hk. apply lookup_insert_ne. congruence.
  - right. apply lookup_insert_eq.
Qed.

(** X19.  The answer to a cancel request and the books.  When the
    request returns, with true or with false, the order is taken out of the
    pending orders of the Risk Manager; when it throws, the Risk Manager is
    not told.  Either way the loop goes on with the orders that are left,
    and at its end the active set of the symbol is emptied: an order whose
    cancellation failed is forgotten by the strategy. *)
Theorem cancel_answer_bookkeeping st symbol order rest fs now :
  let t := mkTask (WCancel symbol order rest) fs in
  (forall ok,
     let out := resume P st t (CancelReturned ok) now in
     pendingOrders (riskManager out.1.1) !! order_id order = None /\
     out.1 = cancelLoop (set_riskManager st (riskManager out.1.1)) symbol rest fs /\
     out.2 = [])
  /\
  (let out := resume P st t CancelThrew now in
   riskManager out.1.1 = riskManager st /\
   out.1 = cancelLoop st symbol rest fs /\ out.2 = [])
  /\
  (forall r, isCancelAnswer (r, now) -> rest = [] ->
     activeOrders (resume P st t r now).1.1 !! symbol = Some []).
Proof.
  cbv zeta. unfold resume. cbn [awaiting frames].
  rewrite withRiskManager_removePendingOrder. cbn [fst snd].
  split; [|split].
  - intros _.
    assert (pendingOrders (removePendingOrder P (riskManager st) (order_id order) now).1
              !! order_id order = None) as Hgone.
    { pose proof (removePendingOrder_books P (riskManager st) (order_id order) now) as H.
      cbv zeta in H. destruct H as (_ & _ & _ & _ & -> & _). apply lookup_delete_eq. }
    destruct rest; cbn [cancelLoop returnTo fst snd riskManager set_riskManager call
                        set_activeOrders];
      destruct fs; cbn [returnTo fst snd riskManager set_riskManager call set_activeOrders];
      repeat split; try exact Hgone; reflexivity.
  - destruct rest; cbn [cancelLoop returnTo fst snd riskManager call set_activeOrders];
      destruct fs; cbn [returnTo fst snd riskManager call set_activeOrders];
      repeat split; reflexivity.
  - intros r Hr ->. unfold isCancelAnswer in Hr. cbn [fst] in Hr.
    destruct r; try contradiction;
      destruct fs; cbn [cancelLoop returnTo fst snd activeOrders set_activeOrders];
      apply lookup_insert_eq.
Qed.

(** *** Inputs that start a quote update, and inputs that do not *)

(** X20.  A signal starts no quote update when the strategy is not
    running, when the symbol is not configured, or when the confidence is
    below the threshold: it is recorded as the latest signal of its symbol
    and nothing else changes, no request is sent, no call is started. *)
Theorem processSignal_ignores st tasks signal :
  isRunning st = false \/ sig_symbol signal ∉ symbols (quoting st) \/
  sig_confidence signal < confidenceThreshold (quoting st) ->
  strategyStep P (st, tasks) (InSignal signal) =
  (set_latestSignals st (<[sig_symbol signal := signal]> (latestSignals st)), tasks).
Proof.
  intros H. cbn [strategyStep]. cbn [isRunning quoting set_latestSignals].
  destruct (isRunning st); [|reflexivity]. cbn [negb orb].
  destruct (bool_decide _) eqn:E; [|reflexivity]. cbn [negb].
  apply bool_decide_eq_true in E.
  destruct (Decimal.lessThan _ _) eqn:L; [reflexivity|].
  decimal_cases. destruct H as [H|[H|H]]; [discriminate | contradiction | lra].
Qed.

(** X21.  [processMarketData] does not look at [isRunning]: market data
    starts the same quote update, with the same requests, whether the
    strategy is running or stopped.  Within [quoteUpdateFrequency] of the
    last quote of the symbol it only records the data. *)
Theorem processMarketData_ignores_isRunning st tasks md now b :
  let w := strategyStep P (st, tasks) (InMarketData md now) in
  strategyStep P (set_isRunning st b, tasks) (InMarketData md now)
    = (set_isRunning w.1 b, w.2) /\
  (forall last,
     lastQuoteTime st !! md_symbol md = Some last ->
     (now - last < quoteUpdateFrequency (quoting st))%Z ->
     w = (set_marketData st (<[md_symbol md := md]> (marketData st)), tasks)).
Proof.
  cbv zeta. split.
  - cbn [strategyStep].
    change (lastQuoteTime (set_marketData (set_isRunning st b)
                             (<[md_symbol md := md]> (marketData (set_isRunning st b)))))
      with (lastQuoteTime st).
    change (lastQuoteTime (set_marketData st (<[md_symbol md := md]> (marketData st))))
      with (lastQuoteTime st).
    change (quoting (set_marketData (set_isRunning st b)
                       (<[md_symbol md := md]> (marketData (set_isRunning st b)))))
      with (quoting st).
    change (quoting (set_marketData st (<[md_symbol md := md]> (marketData st))))
      with (quoting st).
    destruct (_ <=? _)%Z; [|reflexivity].
    unfold updateQuotes, cancelSymbolOrders. simpl.
    destruct (latestSignals st !! md_symbol md); [|reflexivity].
    rewrite lookup_insert_eq.
    destruct (orderBooks st !! md_symbol md); [|reflexivity].
    destruct (canTrade (riskManager st) (md_symbol md)) as [[|]|]; [|reflexivity..].
    simpl. destruct (default [] (activeOrders st !! md_symbol md)); reflexivity.
  - intros last Hlast Hlt. cbn [strategyStep].
    change (lastQuoteTime (set_marketData st (<[md_symbol md := md]> (marketData st))))
      with (lastQuoteTime st).
    change (quoting (set_marketData st (<[md_symbol md := md]> (marketData st))))
      with (quoting st).
    rewrite Hlast. simpl default.
    destruct (_ <=? _)%Z eqn:E; [|reflexivity].
    apply Z.leb_le in E. lia.
Qed.

End QuotingFacts.

(** ** Sizes *)

Section SizingFacts.

(** X13.  No size is ever computed.  [getMaxPositionSize] raises a
    TypeError on every call, at the product of the portfolio value by the
    concentration limit, and [calculateQuoteSize] on every call, at the
    product of the base size by the confidence multiplier. *)
Theorem sizing_raises :
  (forall s symbol requestedSize, getMaxPositionSize s symbol requestedSize = Throws)
  /\
  (forall st signal symbol, calculateQuoteSize st signal symbol = Throws).
Proof. split; reflexivity. Qed.

(** X14.  [validateTradingDecision] refuses a size below 1 and a price
    that is not positive.  Past these two tests it raises a TypeError where
    the widest spread allowed is computed, when market data of the symbol is
    recorded, and answers what [canTrade] answers when none is. *)
Theorem validateTradingDecision_cases st symbol side size price :
  (size < 1 -> validateTradingDecision st symbol side size price = Returns false)
  /\
  (price <= 0 -> validateTradingDecision st symbol side size price = Returns false)
  /\
  (1 <= size -> 0 < price ->
   (forall md, marketData st !! symbol = Some md ->
      validateTradingDecision st symbol side size price = Throws)
   /\
   (marketData st !! symbol = None ->
      validateTradingDecision st symbol side size price = canTrade (riskManager st) symbol)).
Proof.
  unfold validateTradingDecision. split; [|split].
  - intros H. apply lessThan_true in H. rewrite H. reflexivity.
  - intros H. destruct (Decimal.lessThan size 1); [reflexivity|].
    unfold Decimal.lessThanOrEqualTo. apply Qle_bool_iff in H. rewrite H. reflexivity.
  - intros Hs Hp. apply lessThan_false in Hs. rewrite Hs.
    assert (Decimal.lessThanOrEqualTo price 0 = false) as ->.
    { unfold Decimal.lessThanOrEqualTo. apply not_true_iff_false.
      rewrite Qle_bool_iff. lra. }
    split.
    + intros md ->. reflexivity.
    + intros ->. cbn [bind].
      destruct (canTrade (riskManager st) symbol) as [[|]|]; reflexivity.
Qed.

End SizingFacts.

(** ** Numeric helpers *)

Section MathFacts.

(** X23.  [percentageChange] is 0 from an old value of zero; from any
    other old value it raises a TypeError at the product by 100. *)
Theorem percentageChange_cases oldValue newValue :
  (oldValue == 0 -> percentageChange oldValue newValue = Returns 0) /\
  (~ oldValue == 0 -> percentageChange oldValue newValue = Throws).
Proof.
  unfold percentageChange. split; intros H.
  - apply isZero_true in H. rewrite H. reflexivity.
  - apply isZero_false in H. rewrite H. reflexivity.
Qed.

(** X24.  [calculatePositionSize] raises a TypeError at its first
    statement, the product of the balance by the share at risk, whatever
    its arguments, also when the entry and the stop are equal. *)
Theorem calculatePositionSize_raises accountBalance riskPercent entryPrice stopPrice :
  calculatePositionSize accountBalance riskPercent entryPrice stopPrice = Throws.
Proof. reflexivity. Qed.

(** X27.  [calculateMaxDrawdown] returns zeros for an empty series, and
    raises a TypeError in the first round of its loop for a series whose
    first value is not zero, the series of the unit test included. *)
Theorem calculateMaxDrawdown_raises :
  calculateMaxDrawdown [] = Returns (0, 0) /\
  (forall first rest, ~ first == 0 -> calculateMaxDrawdown (first :: rest) = Throws) /\
  calculateMaxDrawdown [100; 120; 90; 110; 80] = Throws.
Proof.
  split; [reflexivity|]. split; [|reflexivity].
  intros first rest H. unfold calculateMaxDrawdown. cbn [forEach]. unfold drawdownStep.
  assert (Decimal.greaterThan first first = false) as ->
    by (apply greaterThan_false; lra).
  apply isZero_false in H. rewrite H. reflexivity.
Qed.

(** *** Moving averages and the RSI *)

Lemma sumBy_nonneg {A} (f : A -> Q) (l : list A) :
  Forall (fun x => 0 <= f x) l -> 0 <= sumBy f l.
Proof.
  unfold sumBy.
  assert (forall acc, 0 <= acc -> Forall (fun x => 0 <= f x) l ->
            0 <= fold_left (fun sum x => Decimal.plus sum (f x)) l acc) as H;
    [|apply H; lra].
  induction l as [|x l IH]; intros acc Hacc Hl; [exact Hacc|].
  inversion Hl as [|? ? Hx Hl']; subst. cbn [fold_left]. apply IH; [|exact Hl'].
  unfold Decimal.plus. apply toSignificantDigits_nonneg. lra.
Qed.

Lemma movingAverage_length values period :
  (1 <= period)%nat ->
  length (movingAverage values period) = (length values + 1 - period)%nat.
Proof.
  intros Hp. unfold movingAverage. rewrite length_map, length_seq. lia.
Qed.

Lemma movingAverage_nonneg values period :
  (1 <= period)%nat ->
  Forall (fun v => 0 <= v) values ->
  Forall (fun m => 0 <= m) (movingAverage values period).
Proof.
  intros Hp Hall. unfold movingAverage. apply Forall_map, Forall_forall.
  intros i _. cbv zeta. unfold Decimal.dividedBy. apply toSignificantDigits_nonneg.
  assert (0 < inject_Z (Z.of_nat period)) as Hpos.
  { change 0 with (inject_Z 0). rewrite <- Zlt_Qlt. lia. }
  apply Qle_shift_div_l; [exact Hpos|].
  assert (0 * inject_Z (Z.of_nat period) == 0) as -> by ring.
  apply sumBy_nonneg. unfold slice. apply Forall_take, Forall_drop, Hall.
Qed.

Lemma toSignificantDigits_1 : Decimal.toSignificantDigits 1 == 1.
Proof.
  apply toSignificantDigits_representable, (representable_whole 1). reflexivity.
Qed.

Lemma toSignificantDigits_100 : Decimal.toSignificantDigits 100 == 100.
Proof.
  apply toSignificantDigits_representable, (representable_whole 100). reflexivity.
Qed.

(** X25.  [movingAverage] with a period of at least 1 returns one average
    per full window, none when there are fewer values than the period, and
    the averages of values that are not negative are not negative.  Sums
    and quotients are rounded to 28 significant digits, so an average can
    leave the range of its values by a unit of the last place: the average
    of 9.999999999999999999999999999 with itself is 10. *)
Theorem movingAverage_spec values period :
  (1 <= period)%nat ->
  length (movingAverage values period) = (length values + 1 - period)%nat /\
  (Forall (fun v => 0 <= v) values ->
   Forall (fun m => 0 <= m) (movingAverage values period)) /\
  movingAverage
    [9999999999999999999999999999 # 1000000000000000000000000000;
     9999999999999999999999999999 # 1000000000000000000000000000] 2 = [10].
Proof.
  intros Hp. split; [apply movingAverage_length, Hp|].
  split; [apply movingAverage_nonneg, Hp|]. vm_compute. reflexivity.
Qed.

(** X26.  [calculateRSI] with a period of at least 1 returns one index
    for each price after the first [period] ones, and every index lies
    between 0 and 100. *)
Theorem calculateRSI_range prices period :
  (1 <= period)%nat ->
  length (calculateRSI prices period) = (length prices - period)%nat /\
  Forall (fun rsi => 0 <= rsi <= 100) (calculateRSI prices period).
Proof.
  intros Hp. unfold calculateRSI.
  set (changes := zip_with _ prices (tail prices)).
  set (gains := map _ changes). set (losses := map _ changes).
  assert (length changes = (length prices - 1)%nat) as Hchanges.
  { unfold changes. rewrite length_zip_with. destruct prices; cbn [tail length]; lia. }
  split.
  - rewrite length_zip_with, !movingAverage_length by exact Hp.
    unfold gains, losses. rewrite !length_map, Hchanges. lia.
  - assert (Forall (fun v => 0 <= v) gains /\ Forall (fun v => 0 <= v) losses)
      as (Hg & Hl).
    { unfold gains, losses. clear. split; apply Forall_map, Forall_forall; intros c _.
      - destruct (Decimal.greaterThan c 0) eqn:E; decimal_cases; lra.
      - destruct (Decimal.lessThan c 0) eqn:E; decimal_cases; unfold Decimal.abs;
          [apply Qabs_nonneg | lra]. }
    apply (movingAverage_nonneg _ period Hp) in Hg, Hl.
    apply Forall_forall. intros r Hr.
    apply elem_of_zip_with in Hr as (g & l & -> & Hgin & Hlin).
    rewrite Forall_forall in Hg, Hl. specialize (Hg g Hgin). specialize (Hl l Hlin).
    destruct (Decimal.isZero l) eqn:E; decimal_cases; [lra|].
    assert (0 < l) as Hlpos.
    { apply Qle_lt_or_eq in Hl as [H|H]; [exact H|].
      exfalso. apply E. symmetry. exact H. }
    assert (0 <= Decimal.dividedBy g l) as Hrs.
    { unfold Decimal.dividedBy. apply toSignificantDigits_nonneg.
      apply Qle_shift_div_l; lra. }
    set (rs := Decimal.dividedBy g l) in *. clearbody rs.
    assert (1 <= Decimal.plus rs 1) as Hd.
    { unfold Decimal.plus. rewrite <- toSignificantDigits_1 at 1.
      apply toSignificantDigits_mono. lra. }
    set (d := Decimal.plus rs 1) in *. clearbody d.
    assert (0 <= Decimal.dividedBy 100 d <= 100) as Hq.
    { unfold Decimal.dividedBy. split.
      - apply toSignificantDigits_nonneg. apply Qle_shift_div_l; lra.
      - rewrite <- toSignificantDigits_100 at 2. apply toSignificantDigits_mono.
        apply Qle_shift_div_r; lra. }
    set (q := Decimal.dividedBy 100 d) in *. clearbody q.
    unfold Decimal.minus. split.
    + apply toSignificantDigits_nonneg. lra.
    + rewrite <- toSignificantDigits_100 at 2. apply toSignificantDigits_mono. lra.
Qed.

End MathFacts.

(** ** The Order Manager *)

Section OrderManagerFacts.

Lemma clearOrderTimeout_lookup om orderId k :
  om_orderTimers (clearOrderTimeout om orderId) !! k =
  delete orderId (om_orderTimers om) !! k.
Proof.
  unfold clearOrderTimeout. destruct (om_orderTimers om !! orderId) eqn:E; simpl.
  - reflexivity.
  - destruct (decide (k = orderId)) as [->|Hne].
    + rewrite lookup_delete_eq. exact E.
    + rewrite lookup_delete_ne by congruence. reflexivity.
Qed.

Lemma clearOrderTimeout_keeps om orderId :
  let om' := clearOrderTimeout om orderId in
  om_activeOrders om' = om_activeOrders om /\
  om_fillExpectations om' = om_fillExpectations om /\
  om_calls om' = om_calls om /\ om_emitted om' = om_emitted om.
Proof.
  unfold clearOrderTimeout. destruct (om_orderTimers om !! orderId); simpl; tauto.
Qed.

Lemma handleOrderFill_raises om order : handleOrderFill om order = (om, Throws).
Proof.
  unfold handleOrderFill.
  destruct (order_maker (managed order) && isLimit (order_type (managed order)));
    reflexivity.
Qed.

(** X28.  A status update that reports a fill, partial or whole, of an
    active order writes the new status, the time, and the size reported
    with what remains of the amount to the order, and then raises a
    TypeError where the rebate or the fee is computed: no rebate and no fee
    is booked, neither [orderFilled] nor [orderStatusChanged] is emitted,
    and the order stays active with its timer and its fill expectation,
    also when it is reported FILLED. *)
Theorem updateOrderStatus_fill_raises om orderId order status filled now :
  getOrder om orderId = Some order -> isFill status = true ->
  let out := updateOrderStatus om orderId status (Some filled) now in
  let before := managed order in
  exists order',
    out.2 = Throws /\ getOrder out.1 orderId = Some order' /\
    order_status (managed order') = status /\
    updatedAt order' = now /\
    order_filled (managed order') = filled /\
    order_remaining (managed order') = Decimal.minus (order_amount before) filled /\
    order_rebates (managed order') = order_rebates before /\
    order_fees (managed order') = order_fees before /\
    om_emitted out.1 = om_emitted om /\
    om_orderTimers out.1 = om_orderTimers om /\
    om_fillExpectations out.1 = om_fillExpectations om /\
    (forall other, other <> orderId -> getOrder out.1 other = getOrder om other).
Proof.
  unfold getOrder. intros Hget Hfill. cbv zeta. unfold updateOrderStatus.
  rewrite Hget, Hfill, handleOrderFill_raises. unfold andThen. cbn [fst snd].
  eexists. split; [reflexivity|].
  cbn [om_set_activeOrders om_activeOrders om_emitted om_orderTimers om_fillExpectations].
  rewrite lookup_insert_eq. split; [reflexivity|].
  repeat split. intros other Hne. apply lookup_insert_ne. congruence.
Qed.

(** An order is forgotten: it leaves the active orders, the timers and
    the fill expectations. *)
Lemma forget_lookup om orderId :
  let om1 := om_set_activeOrders om (delete orderId (om_activeOrders om)) in
  let om2 := clearOrderTimeout om1 orderId in
  let om3 := om_set_fillExpectations om2 (delete orderId (om_fillExpectations om2)) in
  (forall k,
     om_activeOrders om3 !! k = delete orderId (om_activeOrders om) !! k /\
     om_orderTimers om3 !! k = delete orderId (om_orderTimers om) !! k /\
     om_fillExpectations om3 !! k = delete orderId (om_fillExpectations om) !! k) /\
  om_emitted om3 = om_emitted om /\ om_calls om3 = om_calls om.
Proof.
  cbv zeta. split; [intros k|].
  - cbn [om_set_fillExpectations om_activeOrders om_orderTimers om_fillExpectations].
    rewrite clearOrderTimeout_lookup.
    match goal with |- context [clearOrderTimeout ?x ?y] =>
      destruct (clearOrderTimeout_keeps x y) as (-> & -> & _) end.
    repeat split; reflexivity.
  - cbn [om_set_fillExpectations om_emitted om_calls].
    match goal with |- context [clearOrderTimeout ?x ?y] =>
      destruct (clearOrderTimeout_keeps x y) as (_ & _ & -> & ->) end.
    split; reflexivity.
Qed.

(** X29.  A status update to CANCELLED or REJECTED of an active order
    takes the order out of the active orders, with its timer and its fill
    expectation, leaves the other orders alone, and then raises a TypeError
    at [orderHistory.push]: [orderStatusChanged] is not emitted, nor
    anything else.  A status update for an order that is not active does
    nothing. *)
Theorem updateOrderStatus_final om orderId status filled now :
  (status = CANCELLED \/ status = REJECTED -> is_Some (getOrder om orderId) ->
   let out := updateOrderStatus om orderId status filled now in
   out.2 = Throws /\
   getOrder out.1 orderId = None /\
   om_orderTimers out.1 !! orderId = None /\
   om_fillExpectations out.1 !! orderId = None /\
   (forall other, other <> orderId ->
      getOrder out.1 other = getOrder om other /\
      om_orderTimers out.1 !! other = om_orderTimers om !! other /\
      om_fillExpectations out.1 !! other = om_fillExpectations om !! other) /\
   om_emitted out.1 = om_emitted om)
  /\
  (getOrder om orderId = None ->
   updateOrderStatus om orderId status filled now = (om, Returns tt)).
Proof.
  unfold getOrder. split.
  - intros Hfinal [order Hget]. cbv zeta. unfold updateOrderStatus. rewrite Hget.
    assert (isFill status = false /\ isFinal status = true) as [-> ->]
      by (destruct Hfinal as [-> | ->]; split; reflexivity).
    unfold andThen. cbn [fst snd].
    match goal with
    | |- context [om_set_fillExpectations
                    (clearOrderTimeout (om_set_activeOrders ?x _) ?i) _] =>
        destruct (forget_lookup x i) as (Hk & Hemit & _)
    end.
    rewrite Hemit.
    split; [reflexivity|].
    destruct (Hk orderId) as (-> & -> & ->). rewrite !lookup_delete_eq.
    split; [reflexivity|]. split; [reflexivity|]. split; [reflexivity|].
    split; [|reflexivity].
    intros other Hne. destruct (Hk other) as (-> & -> & ->).
    cbn [om_set_activeOrders om_activeOrders om_orderTimers om_fillExpectations].
    rewrite !lookup_delete_ne, lookup_insert_ne by congruence.
    repeat split; reflexivity.
  - intros Hget. unfold updateOrderStatus. rewrite Hget. reflexivity.
Qed.

(** X30.  [cancelOrder(orderId)] followed on its own.  Without an active
    order of that id it returns false and sends nothing.  Otherwise it sends
    one cancel request, for the symbol of the order; if the exchange answers
    true, the order leaves the active orders with its timer and its fill
    expectation, [orderCancelled] is emitted with the order in status
    CANCELLED, and the result is true; if the exchange answers false or the
    request throws, the result is false and nothing else has changed. *)
Theorem cancelOrder_outcomes om orderId answer :
  let out := cancelOrderAnswered om orderId answer in
  (getOrder om orderId = None -> out = (om, false)) /\
  (forall order, getOrder om orderId = Some order ->
     om_calls out.1 = om_calls om ++ [OmCancelOrder orderId (order_symbol (managed order))] /\
     (answer = Some true ->
        out.2 = true /\ getOrder out.1 orderId = None /\
        om_orderTimers out.1 !! orderId = None /\
        om_fillExpectations out.1 !! orderId = None /\
        om_emitted out.1 =
          om_emitted om ++ [EvOrderCancelled (withStatus order CANCELLED (updatedAt order))]) /\
     (answer <> Some true ->
        out.2 = false /\ om_activeOrders out.1 = om_activeOrders om /\
        om_orderTimers out.1 = om_orderTimers om /\
        om_fillExpectations out.1 = om_fillExpectations om /\
        om_emitted out.1 = om_emitted om)).
Proof.
  cbv zeta. unfold getOrder, cancelOrderAnswered, cancelOrder. split.
  - intros ->. reflexivity.
  - intros order ->. unfold cancelOrderResumed.
    destruct answer as [[|]|]; cbn [fst snd].
    + match goal with
      | |- context [om_set_fillExpectations
                      (clearOrderTimeout (om_set_activeOrders ?x _) ?i) _] =>
          destruct (forget_lookup x i) as (Hk & Hemit & Hcalls)
      end.
      cbn [om_emit om_calls om_activeOrders om_orderTimers om_fillExpectations om_emitted].
      rewrite Hemit, Hcalls. destruct (Hk orderId) as (-> & -> & ->).
      rewrite !lookup_delete_eq.
      split; [reflexivity|]. split; [|intros H; congruence].
      intros _. repeat split; reflexivity.
    + split; [reflexivity|]. split; [discriminate|]. intros _. repeat split; reflexivity.
    + split; [reflexivity|]. split; [discriminate|]. intros _. repeat split; reflexivity.
Qed.

End OrderManagerFacts.

(** ** The properties at work *)

(** C1, at work: the first fill opens a long position of 1 ETH at 2000;
    a second purchase, of 1 ETH at 2100, raises and leaves it as it is. *)
Lemma processOrderFill_opens_or_raises_witness :
  (exists p',
     getPosition longOneEth "ETH" = Some p' /\ pos_side p' = BUY /\
     pos_size p' = 1 /\ pos_entryPrice p' = 2000)
  /\
  processOrderFill utcPlatform longOneEth (limitOrder "2" "ETH" BUY 1 2100) 2100 1 2000
  = (longOneEth, Throws).
Proof.
  split.
  - destruct (proj1 (processOrderFill_opens_or_raises utcPlatform freshManager
                       (limitOrder "1" "ETH" BUY 1 2000) 2000 1 1000) eq_refl)
      as (p' & H1 & H2 & H3 & H4 & _).
    exists p'. repeat split; assumption.
  - apply (proj2 (processOrderFill_opens_or_raises utcPlatform longOneEth
                    (limitOrder "2" "ETH" BUY 1 2100) 2100 1 2000)
             (openedBy (limitOrder "1" "ETH" BUY 1 2000) 2000 1 1000)).
    reflexivity.
Defined.

(** C2, at work: with an ETH notional of 3500 (scenario D) the gate
    raises for ETH and answers for BTC. *)
Lemma canTrade_guards_witness :
  canTrade notional3500 "ETH" = Throws /\
  canTrade notional3500 "BTC" =
    Returns (negb (Decimal.greaterThanOrEqualTo
                     (mapSize (positions notional3500))
                     (maxOpenPositions (limits notional3500)))).
Proof.
  destruct (canTrade_guards notional3500 "ETH") as (_ & _ & _ & H).
  destruct (canTrade_guards notional3500 "BTC") as (_ & _ & _ & H').
  split.
  - apply (proj2 (H eq_refl ltac:(vm_compute; reflexivity) ltac:(vm_compute; reflexivity))
             (openedBy (limitOrder "1" "ETH" BUY (175 # 100) 2000) 2000 (175 # 100) 1000)).
    reflexivity.
  - apply (proj1 (H' eq_refl ltac:(vm_compute; reflexivity) ltac:(vm_compute; reflexivity))).
    reflexivity.
Defined.


(** C5, at work: a LONG and a SHORT signal for ETH arrive one upon the
    other; no order is placed. *)
Lemma one_active_order_per_symbol_witness :
  let w := strategyRun utcPlatform world0 racing in
  oneOrderPerSymbol w.1 /\
  forallb (fun c => negb (isPlaceOrder c)) (clientCalls w.1) = true.
Proof.
  destruct (one_active_order_per_symbol utcPlatform quotingConfig freshManager racing)
    as (H1 & _ & H2 & _).
  split; [exact H1 | exact H2].
Defined.






(** C10, at work: a drawdown alert of level EMERGENCY sets the latch, and
    the gate stays closed through fills and risk checks. *)
Lemma emergency_alert_latches_witness :
  let s := emitRiskAlert freshManager drawdownAlert 1000 in
  emergencyStop s = true
  /\ canTrade (run utcPlatform s
                 [ OpProcessOrderFill (limitOrder "1" "ETH" BUY 1 2000) 2000 1 2000;
                   OpRiskMonitoringTick 5000 ]) "BTC" = Returns false
  /\ (exists fullAlert,
        events (emitRiskAlert s drawdownAlert 2000) = events s ++ [EvRiskAlert fullAlert]).
Proof.
  cbv zeta.
  destruct (emergency_alert_latches utcPlatform) as (H1 & H2 & H3 & _).
  split; [|split].
  - apply H1. reflexivity.
  - apply H2; reflexivity.
  - apply H3; reflexivity.
Defined.

(** The unit tests of the repository, evaluated. *)

Example test_roundToTickSize :
  roundToTickSize (2000123 # 1000) (1 # 100) = Throws.
Proof. reflexivity. Qed.

Example test_canTrade_healthy : canTrade freshManager "ETH" = Returns true.
Proof. reflexivity. Qed.

Example test_getMaxPositionSize : getMaxPositionSize freshManager "ETH" 100 = Throws.
Proof. reflexivity. Qed.

Example test_updatePosition :
  let out := updatePosition utcPlatform freshManager (ethPosition 1 2100 100) 1000 in
  out.2 = Throws /\ getPosition out.1 "ETH" = Some (ethPosition 1 2100 100).
Proof. split; vm_compute; reflexivity. Qed.

Example test_percentageChange_up : percentageChange 100 110 = Throws.
Proof. reflexivity. Qed.

Example test_percentageChange_zero : percentageChange 0 100 = Returns 0.
Proof. reflexivity. Qed.

Example test_movingAverage : movingAverage [1; 2; 3; 4; 5] 3 = [2; 3; 4].
Proof. vm_compute. reflexivity. Qed.

Example test_calculateRSI :
  calculateRSI risingPrices 14 = [100; 100; 100; 100; 100; 100].
Proof. vm_compute. reflexivity. Qed.

(** More properties at work. *)

(** X3, at work: a position of ETH is held; the risk check changes
    nothing. *)
Lemma riskCheck_raises_no_alert_witness :
  performRiskCheck utcPlatform longOneEth 5000 = longOneEth.
Proof.
  destruct (riskCheck_raises_no_alert utcPlatform longOneEth 5000)
    as (_ & _ & _ & _ & _ & _ & H & _).
  apply H. vm_compute. discriminate.
Defined.


(** X6, at work: forcing the position of ETH closed, and forcing a
    position closed that does not exist. *)
Lemma forceClosePosition_removes_witness :
  let s := (updatePosition utcPlatform freshManager (ethPosition 1 2100 100) 1000).1 in
  positionTimers (forceClosePosition s "ETH") !! "ETH" = None /\
  forceClosePosition s "BTC" = s.
Proof.
  cbv zeta.
  set (s := (updatePosition utcPlatform freshManager (ethPosition 1 2100 100) 1000).1).
  destruct (forceClosePosition_removes s "ETH") as (_ & _ & _ & _ & _ & _ & H1).
  destruct (forceClosePosition_removes s "BTC") as (_ & _ & _ & _ & _ & H2 & _).
  split; [apply H1 | apply H2].
  - vm_compute. discriminate.
  - vm_compute. reflexivity.
Defined.

(** X7, at work. *)
Lemma timers_belong_to_positions_witness :
  is_Some (getPosition
             (run utcPlatform (newRiskManager testConfig)
                [OpUpdatePosition (ethPosition 1 2000 0) 1000]) "ETH").
Proof.
  apply (timers_belong_to_positions utcPlatform testConfig
           [OpUpdatePosition (ethPosition 1 2000 0) 1000] "ETH").
  vm_compute. eexists. reflexivity.
Defined.

(** X8, at work: the timer of ETH found after a fill was armed before. *)
Lemma processOrderFill_arms_no_timer_witness :
  positionTimers (updatePosition utcPlatform freshManager (ethPosition 1 2000 0) 1000).1
    !! "ETH" = Some (inject_Z 1000 + 30 * 60 * 1000).
Proof.
  apply (processOrderFill_arms_no_timer utcPlatform _
           (limitOrder "1" "ETH" BUY 1 2000) 2000 1 2000 "ETH").
  vm_compute. reflexivity.
Defined.

(** X9, at work: the order 2 is registered, then removed. *)
Lemma pendingOrders_add_remove_witness :
  pendingOrders
    (removePendingOrder utcPlatform
       (addPendingOrder utcPlatform freshManager (limitOrder "2" "ETH" SELL 1 1500) 2000).1
       "2" 3000).1
  = pendingOrders freshManager.
Proof.
  destruct (pendingOrders_add_remove utcPlatform freshManager
              (limitOrder "2" "ETH" SELL 1 1500) 2000 3000) as (_ & _ & H & _).
  apply H. reflexivity.
Defined.

(** X10, at work: the timer of the position of ETH fires. *)
Lemma handlePositionTimeout_warns_witness :
  let s := (updatePosition utcPlatform freshManager (ethPosition 1 2100 100) 1000).1 in
  exists a,
    events (handlePositionTimeout s "ETH" 2000) = events s ++ [EvRiskAlert a] /\
    alert_level a = WARNING /\ alert_type a = "POSITION_TIMEOUT" /\
    alert_symbol a = Some "ETH".
Proof.
  cbv zeta.
  set (s := (updatePosition utcPlatform freshManager (ethPosition 1 2100 100) 1000).1).
  destruct (handlePositionTimeout_warns s "ETH" 2000) as (_ & _ & _ & _ & H).
  apply (H (ethPosition 1 2100 100)). vm_compute. reflexivity.
Defined.

(** X12, at work: the fill that opens the position of ETH is logged; the
    purchase that follows is not. *)
Lemma processOrderFill_books_trade_witness :
  length (dailyTrades longOneEth) = 1%nat /\
  dailyTrades
    (processOrderFill utcPlatform longOneEth (limitOrder "2" "ETH" BUY 1 2100) 2100 1 2000).1
  = dailyTrades longOneEth.
Proof.
  split.
  - destruct (proj1 (processOrderFill_books_trade utcPlatform freshManager
                       (limitOrder "1" "ETH" BUY 1 2000) 2000 1 1000) eq_refl)
      as (H & _).
    unfold longOneEth. rewrite H. reflexivity.
  - destruct (proj2 (processOrderFill_books_trade utcPlatform longOneEth
                       (limitOrder "2" "ETH" BUY 1 2100) 2100 1 2000)
                ltac:(eexists; reflexivity)) as (_ & H & _).
    exact H.
Defined.

(** X14, at work: a size of 10 at a price of 1999.3 for ETH, whose market
    data is recorded. *)
Lemma validateTradingDecision_cases_witness :
  validateTradingDecision longSignalled "ETH" BUY 10 (19993 # 10) = Throws /\
  validateTradingDecision longSignalled "ETH" BUY (1 # 2) (19993 # 10) = Returns false.
Proof.
  split.
  - apply (proj1 (proj2 (proj2 (validateTradingDecision_cases longSignalled "ETH" BUY
                                  10 (19993 # 10)))
                    ltac:(vm_compute; discriminate) ltac:(vm_compute; reflexivity))
             ethMarket).
    vm_compute. reflexivity.
  - apply (proj1 (validateTradingDecision_cases longSignalled "ETH" BUY
                    (1 # 2) (19993 # 10))).
    vm_compute. reflexivity.
Defined.

(** X15, at work: the decision on a LONG signal for ETH raises; on a
    NEUTRAL one it is to hold. *)
Lemma decision_is_hold_or_raises_witness :
  generateTradingDecision longSignalled (ethSignal LONG) ethMarket ethBook = Throws /\
  exists d,
    generateTradingDecision longSignalled (ethSignal NEUTRAL) ethMarket ethBook = Returns d /\
    dec_action d = HOLD.
Proof.
  split.
  - apply (proj1 (proj2 (decision_is_hold_or_raises longSignalled (ethSignal LONG)
                           ethMarket ethBook))).
    discriminate.
  - destruct (proj1 (decision_is_hold_or_raises longSignalled (ethSignal NEUTRAL)
                       ethMarket ethBook) eq_refl) as (d & H1 & H2 & _).
    exists d. split; [exact H1 | exact H2].
Defined.

Lemma failingExchange_answers : answersRequests failingExchange.
Proof. intros step [a fs]. destruct a; exact I. Qed.

(** X16, at work: the order 101 rests and every cancel request fails;
    [stop()] still ends, with no active order for ETH. *)
Lemma stop_completes_witness :
  exists fuel,
    let final := drive utcPlatform failingExchange 0 fuel (stop restingEth []) in
    final.2 = None /\ isRunning final.1 = false /\
    activeOrders final.1 !! "ETH" = Some [] /\
    emitted final.1 = emitted restingEth ++ [EvStopped].
Proof.
  destruct (stop_completes utcPlatform restingEth failingExchange
              failingExchange_answers eq_refl) as (fuel & H).
  exists fuel. cbv zeta in *. destruct H as (H1 & H2 & _ & H3 & _ & H4 & _).
  split; [exact H1|]. split; [exact H2|]. split; [|exact H4].
  apply H3. vm_compute. constructor.
Defined.

(** X17, at work: the drawdown alert reaches the strategy while the order
    101 rests. *)
Lemma emergency_alert_stops_strategy_witness :
  exists fuel,
    let final :=
      drive utcPlatform failingExchange 0 fuel (handleRiskAlert restingEth drawdownAlert) in
    final.2 = None /\ isRunning final.1 = false /\
    activeOrders final.1 !! "ETH" = Some [] /\
    emitted final.1 =
      emitted restingEth ++ [EvStopped] ++ [EvStrategyEmergencyStop drawdownAlert].
Proof.
  destruct (proj1 (emergency_alert_stops_strategy utcPlatform restingEth drawdownAlert
                     failingExchange failingExchange_answers) eq_refl) as (fuel & H).
  exists fuel. cbv zeta in *. destruct H as (H1 & H2 & H3 & H4 & _).
  split; [exact H1|]. split; [exact H2|]. split; [|exact H4].
  apply H3. vm_compute. constructor.
Defined.

(** X18, at work: the quote update of the LONG signal for ETH ends
    without an order and without a quote time. *)
Lemma quote_update_places_no_order_witness :
  exists fuel,
    let final := drive utcPlatform failingExchange 0 fuel (updateQuotes longSignalled "ETH" []) in
    final.2 = None /\
    forallb (fun c => negb (isPlaceOrder c))
      (drop (length (clientCalls longSignalled)) (clientCalls final.1)) = true /\
    lastQuoteTime final.1 = lastQuoteTime longSignalled.
Proof.
  destruct (quote_update_places_no_order utcPlatform longSignalled "ETH" failingExchange
              failingExchange_answers) as (fuel & H).
  exists fuel. cbv zeta in *. destruct H as (H1 & H2 & _ & H3 & _).
  split; [exact H1|]. split; [exact H2 | exact H3].
Defined.

(** X19, at work: the cancel request for the order 101 throws; the Risk
    Manager still holds the order as pending, the strategy has forgotten
    it. *)
Lemma cancel_answer_bookkeeping_witness :
  let c := cancelSymbolOrders restingEth "ETH" [] in
  exists order rest,
    c.2 = Some (mkTask (WCancel "ETH" order rest) []) /\
    let st' := (resume utcPlatform c.1 (mkTask (WCancel "ETH" order rest) []) CancelThrew
                  6000).1.1 in
    activeOrders st' !! "ETH" = Some [] /\
    is_Some (pendingOrders (riskManager st') !! "101").
Proof.
  cbv zeta. eexists. eexists. split; [vm_compute; reflexivity|].
  match goal with
  | |- context [resume utcPlatform ?st (mkTask (WCancel ?sym ?o ?rest) ?fs) CancelThrew ?now] =>
      destruct (cancel_answer_bookkeeping utcPlatform st sym o rest fs now) as (_ & H2 & H3)
  end.
  cbv zeta in H2. destruct H2 as (H2 & _). split.
  - apply H3; [exact I | reflexivity].
  - rewrite H2. vm_compute. eexists. reflexivity.
Defined.

(** X20, at work: a signal that arrives before the strategy is started. *)
Lemma processSignal_ignores_witness :
  strategyStep utcPlatform world0 (InSignal (ethSignal LONG)) =
  (set_latestSignals world0.1 (<["ETH" := ethSignal LONG]> (latestSignals world0.1)), []).
Proof.
  apply (processSignal_ignores utcPlatform world0.1 [] (ethSignal LONG)).
  left. reflexivity.
Defined.

(** X21, at work: market data that arrives within a second of the last
    quote of ETH is recorded and nothing else. *)
Lemma processMarketData_ignores_isRunning_witness :
  strategyStep utcPlatform (restingEth, []) (InMarketData ethMarket 5500) =
  (set_marketData restingEth (<["ETH" := ethMarket]> (marketData restingEth)), []).
Proof.
  apply (proj2 (processMarketData_ignores_isRunning utcPlatform restingEth []
                  ethMarket 5500 true) 5003%Z).
  - vm_compute. reflexivity.
  - vm_compute. reflexivity.
Defined.

(** X23, at work: from 100 to 110. *)
Lemma percentageChange_cases_witness : percentageChange 100 110 = Throws.
Proof.
  apply (proj2 (percentageChange_cases 100 110)). intros H. discriminate H.
Defined.

(** X25, at work: the averages of 1, ..., 5 over 3 values. *)
Lemma movingAverage_spec_witness :
  length (movingAverage [1; 2; 3; 4; 5] 3) = 3%nat /\
  Forall (fun m => 0 <= m) (movingAverage [1; 2; 3; 4; 5] 3).
Proof.
  destruct (movingAverage_spec [1; 2; 3; 4; 5] 3 ltac:(lia)) as (H1 & H2 & _).
  split; [exact H1|]. apply H2.
  repeat constructor; discriminate.
Defined.

(** X26, at work: the prices of the unit test. *)
Lemma calculateRSI_range_witness :
  length (calculateRSI risingPrices 14) = 6%nat /\
  Forall (fun rsi => 0 <= rsi <= 100) (calculateRSI risingPrices 14).
Proof.
  apply (calculateRSI_range risingPrices 14). lia.
Defined.

(** X27, at work: a series that starts at 100. *)
Lemma calculateMaxDrawdown_raises_witness :
  calculateMaxDrawdown [100; 90] = Throws.
Proof.
  apply (proj1 (proj2 calculateMaxDrawdown_raises) 100 [90]).
  intros H. discriminate H.
Defined.

(** X28, at work: 4 of the 10 ETH of the order 7 are reported filled. *)
Lemma updateOrderStatus_fill_raises_witness :
  let out := updateOrderStatus tracking7 "7" PARTIALLY_FILLED (Some 4) 2000 in
  exists order',
    out.2 = Throws /\ getOrder out.1 "7" = Some order' /\
    order_filled (managed order') = 4 /\
    order_rebates (managed order') = 0 /\
    om_emitted out.1 = om_emitted tracking7.
Proof.
  cbv zeta.
  destruct (updateOrderStatus_fill_raises tracking7 "7" order7 PARTIALLY_FILLED 4 2000
              ltac:(reflexivity) eq_refl)
    as (order' & H1 & H2 & _ & _ & H3 & _ & H4 & _ & H5 & _).
  exists order'. split; [exact H1|]. split; [exact H2|]. split; [exact H3|].
  split; [exact H4 | exact H5].
Defined.

(** X29, at work: the order 7 is reported cancelled. *)
Lemma updateOrderStatus_final_witness :
  let out := updateOrderStatus tracking7 "7" CANCELLED None 2000 in
  out.2 = Throws /\ getOrder out.1 "7" = None /\ om_orderTimers out.1 !! "7" = None.
Proof.
  cbv zeta.
  destruct (proj1 (updateOrderStatus_final tracking7 "7" CANCELLED None 2000)
              ltac:(left; reflexivity) ltac:(eexists; reflexivity)) as (H1 & H2 & H3 & _).
  split; [exact H1|]. split; [exact H2 | exact H3].
Defined.

(** X30, at work: the exchange cancels the order 7, or refuses to. *)
Lemma cancelOrder_outcomes_witness :
  (cancelOrderAnswered tracking7 "7" (Some true)).2 = true /\
  getOrder (cancelOrderAnswered tracking7 "7" (Some true)).1 "7" = None /\
  (cancelOrderAnswered tracking7 "7" (Some false)).2 = false /\
  om_activeOrders (cancelOrderAnswered tracking7 "7" (Some false)).1
    = om_activeOrders tracking7.
Proof.
  destruct (proj2 (cancelOrder_outcomes tracking7 "7" (Some true)) order7 eq_refl)
    as (_ & H1 & _).
  destruct (proj2 (cancelOrder_outcomes tracking7 "7" (Some false)) order7 eq_refl)
    as (_ & _ & H2).
  destruct (H1 eq_refl) as (Ha & Hb & _).
  destruct H2 as (Hc & Hd & _); [discriminate|].
  split; [exact Ha|]. split; [exact Hb|]. split; [exact Hc | exact Hd].
Defined.

